(** * Verification of the conversational banking assistant

    A shallow embedding of [src/chatbot]: the intent router ([router.py]),
    the conversation state ([state.py]), the three flow handlers
    ([handlers.py]) and the engine ([engine.py]), followed by the theorems
    that settle the claims of the specification.

    Python objects that are mutated in place (the conversation state, the
    external services) live in one explicit [World]; a method that may raise
    is a computation in a small state-and-exception monad over that world,
    and the world it leaves behind is kept also when it raises, as in
    Python. *)

From Stdlib Require Import ZArith Ascii String List Bool DecimalString DecimalNat.
From stdpp Require Import base option gmap strings.

Import ListNotations.
Local Open Scope list_scope.
Local Open Scope string_scope.

(** ** Python strings

    A [str] is modelled by a Rocq [string]; a character is the code point
    it denotes, so the model covers the code points 0 to 255 (ASCII and
    Latin-1).  [str.strip] and [str.lower] map such strings to such
    strings. *)

Module PyStr.

Definition code (c : ascii) : N := N_of_ascii c.

(** [str.isspace] on one character: TAB, LF, VT, FF, CR, the separators
    FS, GS, RS, US, the space, NEL and the no-break space. *)
Definition is_space (c : ascii) : bool :=
  let n := code c in
  ((9 <=? n) && (n <=? 13) || (28 <=? n) && (n <=? 32)
   || (n =? 133) || (n =? 160))%N.

(** [str.lower] on one character: A-Z and the Latin-1 capitals
    (all of 192..222 but the multiplication sign 215) move up by 32. *)
Definition lower_char (c : ascii) : ascii :=
  let n := code c in
  if ((65 <=? n) && (n <=? 90)
      || (192 <=? n) && (n <=? 222) && negb (n =? 215))%N
  then ascii_of_N (n + 32) else c.

Fixpoint lower (s : string) : string :=
  match s with
  | EmptyString => EmptyString
  | String c s' => String (lower_char c) (lower s')
  end.

Fixpoint lstrip (s : string) : string :=
  match s with
  | EmptyString => EmptyString
  | String c s' => if is_space c then lstrip s' else s
  end.

Definition is_empty (s : string) : bool :=
  match s with EmptyString => true | String _ _ => false end.

Fixpoint rstrip (s : string) : string :=
  match s with
  | EmptyString => EmptyString
  | String c s' =>
      let r := rstrip s' in
      if is_space c && is_empty r then EmptyString else String c r
  end.

(** [s.strip()] *)
Definition strip (s : string) : string := rstrip (lstrip s).

(** [s.replace(",", "")] *)
Fixpoint remove_commas (s : string) : string :=
  match s with
  | EmptyString => EmptyString
  | String c s' =>
      if Ascii.eqb c "," then remove_commas s' else String c (remove_commas s')
  end.

Fixpoint starts_with (p s : string) : bool :=
  match p, s with
  | EmptyString, _ => true
  | String _ _, EmptyString => false
  | String a p', String b s' => Ascii.eqb a b && starts_with p' s'
  end.

(** [k in s] for two strings: [k] occurs in [s] as a substring. *)
Fixpoint contains (k s : string) : bool :=
  starts_with k s
  || match s with
     | EmptyString => false
     | String _ s' => contains k s'
     end.

(** [x in (a, b, ...)] and [x in {a, b, ...}] for strings. *)
Definition mem (x : string) (l : list string) : bool :=
  existsb (String.eqb x) l.

(** [", ".join(l)] *)
Fixpoint join (sep : string) (l : list string) : string :=
  match l with
  | [] => ""
  | [x] => x
  | x :: l' => x ++ sep ++ join sep l'
  end.

End PyStr.

(** ** Python floats read from text

    [float(text)] is the only way a float enters the program, and the only
    operations on it are the comparison [amount <= 0], formatting, and
    handing it to a service.  A float is therefore represented by the
    literal it was read from: the IEEE double is a function of it. *)

Module PyFloat.

Import PyStr.

Inductive pyfloat : Type :=
| PyFinite (neg : bool) (mant : Z) (exp10 : Z)  (* (-1)^neg * mant * 10^exp10 *)
| PyInf (neg : bool)
| PyNan.

Definition is_digit (c : ascii) : bool :=
  ((48 <=? code c) && (code c <=? 57))%N.

Definition digit_val (c : ascii) : Z := Z.of_N (code c) - 48.

(** What follows the first digit of a [digitpart]:
    [(["_"] digit)*].  Returns the digits read and the unread rest. *)
Fixpoint more_digits (s : string) : list Z * string :=
  match s with
  | EmptyString => ([], s)
  | String c s' =>
      if is_digit c then
        let '(ds, r) := more_digits s' in (digit_val c :: ds, r)
      else if Ascii.eqb c "_" then
        match s' with
        | String d s'' =>
            if is_digit d then
              let '(ds, r) := more_digits s'' in (digit_val d :: ds, r)
            else ([], s)
        | EmptyString => ([], s)
        end
      else ([], s)
  end.

(** [digitpart ::= digit (["_"] digit)*] *)
Definition digitpart (s : string) : option (list Z * string) :=
  match s with
  | String c s' =>
      if is_digit c then
        let '(ds, r) := more_digits s' in Some (digit_val c :: ds, r)
      else None
  | EmptyString => None
  end.

(** [number ::= [digitpart] "." digitpart | digitpart ["."]]:
    integer digits, fraction digits, rest. *)
Definition number (s : string) : option (list Z * list Z * string) :=
  match s with
  | String "." s' =>
      match digitpart s' with
      | Some (fs, r) => Some ([], fs, r)
      | None => None
      end
  | _ =>
      match digitpart s with
      | Some (ip, String "." r) =>
          match digitpart r with
          | Some (fs, r') => Some (ip, fs, r')
          | None => Some (ip, [], r)
          end
      | Some (ip, r) => Some (ip, [], r)
      | None => None
      end
  end.

(** [[sign]]: an optional ["+"] or ["-"]. *)
Definition opt_sign (s : string) : bool * string :=
  match s with
  | String "-" s' => (true, s')
  | String "+" s' => (false, s')
  | _ => (false, s)
  end.

Definition digits_value (ds : list Z) : Z :=
  fold_left (fun acc d => 10 * acc + d)%Z ds 0%Z.

(** [exponent ::= ("e" | "E") [sign] digitpart] *)
Definition exponent (s : string) : option (Z * string) :=
  match s with
  | String c s' =>
      if Ascii.eqb c "e" || Ascii.eqb c "E" then
        let '(neg, s'') := opt_sign s' in
        match digitpart s'' with
        | Some (ds, r) =>
            Some (if neg then (- digits_value ds)%Z else digits_value ds, r)
        | None => None
        end
      else None
  | EmptyString => None
  end.

(** [float(s)] for a string [s] without surrounding whitespace (both
    callers strip it first): [None] stands for [ValueError].
    [[sign] (floatnumber | "inf" | "infinity" | "nan")], the words in any
    letter case. *)
Definition float_of_string (s : string) : option pyfloat :=
  let '(neg, body) := opt_sign s in
  let word := lower body in
  if String.eqb word "inf" || String.eqb word "infinity" then Some (PyInf neg)
  else if String.eqb word "nan" then Some PyNan
  else
    match number body with
    | Some (ip, fs, r) =>
        let m := digits_value (ip ++ fs)%list in
        let shift := Z.of_nat (List.length fs) in
        match r with
        | EmptyString => Some (PyFinite neg m (- shift))
        | _ =>
            match exponent r with
            | Some (e, EmptyString) => Some (PyFinite neg m (e - shift))
            | _ => None
            end
        end
    | None => None
    end.

(** A positive decimal [mant * 10^exp10] is read as the double [0.0] when
    it is at most [2^-1075], half of the least positive double (the tie
    goes to the even neighbour, zero). *)
Definition rounds_to_zero (mant exp10 : Z) : bool :=
  ((mant =? 0) || (exp10 <? 0) && (mant * 2 ^ 1075 <=? 10 ^ (- exp10)))%Z.

(** [x <= 0]: false on NaN, as every comparison with NaN. *)
Definition le_zero (x : pyfloat) : bool :=
  match x with
  | PyFinite neg m e => neg || rounds_to_zero m e
  | PyInf neg => neg
  | PyNan => false
  end.

(** [x > 0]: false on NaN as well. *)
Definition gt_zero (x : pyfloat) : bool :=
  match x with
  | PyFinite neg m e => negb neg && negb (rounds_to_zero m e)
  | PyInf neg => negb neg
  | PyNan => false
  end.

End PyFloat.

Import PyStr PyFloat.

(** ** Conversation state ([state.py]) *)

(** A slot holds what a handler stored: a string or a float. *)
Inductive value : Type :=
| VStr (s : string)
| VFloat (x : pyfloat).

Record ConversationState : Type := mkState {
  intent_name : option string;
  handler_key : option string;
  step : option string;
  slots : gmap string value
}.

(** [ConversationState()] *)
Definition empty_state : ConversationState := mkState None None None ∅.

(** [ConversationState.active] *)
Definition active (st : ConversationState) : bool :=
  bool_decide (intent_name st ≠ None) && bool_decide (handler_key st ≠ None).

(** ** Outcomes, exceptions and the world *)

Inductive exn : Type :=
| KeyError (key : string)              (* [state.slots[key]], key absent *)
| AttributeError                       (* [.title()] on a float *)
| ValueError                           (* format code [f] on a string *)
| HandlerNotFoundError (msg : string)
| ServiceError (msg : string).         (* whatever a service raises *)

Inductive outcome (A : Type) : Type :=
| Ret (a : A)
| Raise (e : exn).
Arguments Ret {A} a.
Arguments Raise {A} e.

(** The calls made to the external services, oldest first.  The record is
    kept by the model only; the program does not read it. *)
Inductive service_call : Type :=
| OpenAccount (full_name account_type initial_deposit : value)
| Transfer (from_account to_account amount : value)
| SendMessage (topic message : value).

(** [ext] is the state of the three service objects. *)
Record World (W : Type) : Type := mkWorld {
  conv : ConversationState;
  ext : W;
  calls : list service_call
}.
Arguments mkWorld {W} conv ext calls.
Arguments conv {W} w.
Arguments ext {W} w.
Arguments calls {W} w.

(** The capability interfaces of [services.py]: a call returns an
    identifier or raises, and may change the service's own state. *)
Record Services (W : Type) : Type := mkServices {
  open_account : value -> value -> value -> W -> outcome string * W;
  transfer : value -> value -> value -> W -> outcome string * W;
  send_message : value -> value -> W -> outcome string * W
}.
Arguments open_account {W} s _ _ _ _.
Arguments transfer {W} s _ _ _ _.
Arguments send_message {W} s _ _ _.

(** What the model takes from Python's built-in text formatting. *)
Record Formatting : Type := mkFormatting {
  title : string -> string;          (* [str.title] *)
  format_2f : pyfloat -> string;     (* [f"{x:.2f}"] *)
  float_str : pyfloat -> string      (* [f"{x}"] on a float *)
}.

Definition M (W A : Type) : Type := World W -> outcome A * World W.

Definition ret {W A} (a : A) : M W A := fun w => (Ret a, w).

Definition raise {W A} (e : exn) : M W A := fun w => (Raise e, w).

Definition bind {W A B} (m : M W A) (k : A -> M W B) : M W B :=
  fun w =>
    match m w with
    | (Ret a, w') => k a w'
    | (Raise e, w') => (Raise e, w')
    end.

Notation "'let!' x ':=' c 'in' k" := (bind c (fun x => k))
  (at level 10, x name, c at level 100, k at level 200, only parsing).

Definition lift {W A} (o : outcome A) : M W A := fun w => (o, w).

Definition get_state {W} : M W ConversationState := fun w => (Ret (conv w), w).

Definition modify_state {W} (f : ConversationState -> ConversationState) : M W unit :=
  fun w => (Ret tt, mkWorld (f (conv w)) (ext w) (calls w)).

Definition set_intent_name (v : option string) (st : ConversationState) :=
  mkState v (handler_key st) (step st) (slots st).
Definition set_handler_key (v : option string) (st : ConversationState) :=
  mkState (intent_name st) v (step st) (slots st).
Definition set_step (v : option string) (st : ConversationState) :=
  mkState (intent_name st) (handler_key st) v (slots st).
Definition set_slots (v : gmap string value) (st : ConversationState) :=
  mkState (intent_name st) (handler_key st) (step st) v.

(** [ConversationState.reset] *)
Definition reset_state (st : ConversationState) : ConversationState :=
  set_slots ∅ (set_step None (set_handler_key None (set_intent_name None st))).

Definition reset {W} : M W unit := modify_state reset_state.

(** [state.slots[key]] *)
Definition slot {W} (key : string) : M W value :=
  let! st := get_state in
  match slots st !! key with
  | Some v => ret v
  | None => raise (KeyError key)
  end.

(** [state.slots[key] = v] *)
Definition store_slot {W} (key : string) (v : value) : M W unit :=
  modify_state (fun st => set_slots (<[key := v]> (slots st)) st).

(** [step == "name"] *)
Definition step_is (st : ConversationState) (name : string) : bool :=
  bool_decide (step st = Some name).

(** ** Handlers ([handlers.py]) *)

Record HandlerResult : Type := mkResult {
  reply : string;
  completed : bool;
  error : bool
}.

(** [HandlerResult(text)], [HandlerResult(text, error=True)], ... *)
Definition prompt (text : string) : HandlerResult := mkResult text false false.
Definition failure (text : string) : HandlerResult := mkResult text false true.
Definition finished (text : string) : HandlerResult := mkResult text true false.
Definition aborted (text : string) : HandlerResult := mkResult text true true.

(** The interface [BaseHandler] asks its subclasses to fill in. *)
Record Handler (W : Type) : Type := mkHandler {
  hd_intent_name : string;
  hd_handler_key : string;
  first_step : string;
  prompt_for_current_step : M W HandlerResult;
  handle : string -> M W HandlerResult
}.
Arguments hd_intent_name {W} h.
Arguments hd_handler_key {W} h.
Arguments first_step {W} h.
Arguments prompt_for_current_step {W} h.
Arguments handle {W} h utterance.

(** [BaseHandler.start] *)
Definition start {W} (h : Handler W) : M W HandlerResult :=
  let! _ := modify_state (set_intent_name (Some (hd_intent_name h))) in
  let! _ := modify_state (set_handler_key (Some (hd_handler_key h))) in
  let! _ := modify_state (set_step (Some (first_step h))) in
  let! _ := modify_state (set_slots ∅) in
  prompt_for_current_step h.

Section Handlers.

Context {W : Type}.
Variable svc : Services W.
Variable fmt : Formatting.

(** A call to a service: the service runs on its own state, and the
    call is recorded. *)
Definition call_service (c : service_call)
    (run : W -> outcome string * W) : M W string :=
  fun w =>
    let '(r, e) := run (ext w) in
    (r, mkWorld (conv w) e (calls w ++ [c])%list).

Definition call_open_account (full_name account_type initial_deposit : value)
    : M W string :=
  call_service (OpenAccount full_name account_type initial_deposit)
               (open_account svc full_name account_type initial_deposit).

Definition call_transfer (from_account to_account amount : value) : M W string :=
  call_service (Transfer from_account to_account amount)
               (transfer svc from_account to_account amount).

Definition call_send_message (topic message : value) : M W string :=
  call_service (SendMessage topic message) (send_message svc topic message).

(** [v.title()] *)
Definition py_title (v : value) : M W string :=
  match v with
  | VStr s => ret (title fmt s)
  | VFloat _ => raise AttributeError
  end.

(** [f"{v:.2f}"] *)
Definition py_format_2f (v : value) : M W string :=
  match v with
  | VFloat x => ret (format_2f fmt x)
  | VStr _ => raise ValueError
  end.

(** [f"{v}"] *)
Definition py_str (v : value) : string :=
  match v with
  | VStr s => s
  | VFloat x => float_str fmt x
  end.

(** *** Account opening *)

(** [AccountOpeningHandler.__init__]: lower-case the configured account
    types and keep the first occurrence of each
    ([tuple(dict.fromkeys(normalized))]). *)
Fixpoint dedup (seen l : list string) : list string :=
  match l with
  | [] => []
  | x :: l' => if mem x seen then dedup seen l' else x :: dedup (x :: seen) l'
  end.

Definition normalize_account_types (account_types : list string) : list string :=
  dedup [] (map lower account_types).

Section AccountOpening.

(** [self._account_types] *)
Variable account_types : list string.

Definition choices : string := join ", " (map (title fmt) account_types).

Definition ao_prompt_for_current_step : M W HandlerResult :=
  let! st := get_state in
  if step_is st "collect_full_name" then
    ret (prompt "Sure, let's open a new account. What's your full name?")
  else if step_is st "collect_account_type" then
    ret (prompt ("Thanks. What type of account would you like to open? Options: "
                 ++ choices ++ "."))
  else if step_is st "collect_initial_deposit" then
    ret (prompt "Got it. How much would you like to deposit to get started?")
  else if step_is st "confirm_submission" then
    let! account_type := slot "account_type" in
    let! titled := py_title account_type in
    let! full_name := slot "full_name" in
    let! initial_deposit := slot "initial_deposit" in
    let! deposit := py_format_2f initial_deposit in
    let summary :=
      "Open a " ++ titled ++ " account for " ++ py_str full_name
      ++ " with an initial deposit of $" ++ deposit ++ "." in
    ret (prompt (summary ++ " Does everything look correct? (yes/no)"))
  else
    ret (aborted "I'm not sure what to ask next. Let's start over.").

Definition ao_handle_full_name (utterance : string) : M W HandlerResult :=
  let full_name := strip utterance in
  if is_empty full_name then
    ret (failure "I didn't catch your name. Could you share your full name?")
  else
    let! _ := store_slot "full_name" (VStr full_name) in
    let! _ := modify_state (set_step (Some "collect_account_type")) in
    ao_prompt_for_current_step.

Definition ao_handle_account_type (utterance : string) : M W HandlerResult :=
  let account_type := lower (strip utterance) in
  if negb (mem account_type account_types) then
    ret (failure ("I didn't recognize that account type. Please choose one of the following: "
                  ++ choices ++ "."))
  else
    let! _ := store_slot "account_type" (VStr account_type) in
    let! _ := modify_state (set_step (Some "collect_initial_deposit")) in
    ao_prompt_for_current_step.

Definition ao_handle_initial_deposit (utterance : string) : M W HandlerResult :=
  let cleaned := strip (remove_commas utterance) in
  match float_of_string cleaned with
  | None => ret (failure "Please provide the deposit amount as a number.")
  | Some amount =>
      if le_zero amount then
        ret (failure "The deposit amount must be greater than zero. How much would you like to deposit?")
      else
        let! _ := store_slot "initial_deposit" (VFloat amount) in
        let! _ := modify_state (set_step (Some "confirm_submission")) in
        ao_prompt_for_current_step
  end.

Definition ao_handle_confirmation (utterance : string) : M W HandlerResult :=
  let normalized := lower (strip utterance) in
  if mem normalized ["yes"; "y"; "confirm"] then
    let! full_name := slot "full_name" in
    let! account_type := slot "account_type" in
    let! initial_deposit := slot "initial_deposit" in
    let! account_id := call_open_account full_name account_type initial_deposit in
    ret (finished ("All set! Your new account (" ++ account_id
                   ++ ") is ready. Is there anything else I can help you with?"))
  else if mem normalized ["no"; "n"; "cancel"] then
    ret (finished "No problem, I won't submit that application. Let me know if you need anything else.")
  else
    ret (failure "Please reply with yes or no so I know whether to submit the application.").

Definition ao_handle (utterance : string) : M W HandlerResult :=
  let! st := get_state in
  if step_is st "collect_full_name" then ao_handle_full_name utterance
  else if step_is st "collect_account_type" then ao_handle_account_type utterance
  else if step_is st "collect_initial_deposit" then ao_handle_initial_deposit utterance
  else if step_is st "confirm_submission" then ao_handle_confirmation utterance
  else ret (aborted "Let's restart that account application.").

Definition AccountOpeningHandler : Handler W :=
  mkHandler W "account_opening" "account_opening" "collect_full_name"
            ao_prompt_for_current_step ao_handle.

End AccountOpening.

(** *** Money transfer *)

Definition mt_prompt_for_current_step : M W HandlerResult :=
  let! st := get_state in
  if step_is st "collect_from_account" then
    ret (prompt "Sure thing. Which account should the money come from?")
  else if step_is st "collect_to_account" then
    ret (prompt "Thanks. What account are we sending the funds to?")
  else if step_is st "collect_amount" then
    ret (prompt "How much money should I transfer?")
  else if step_is st "confirm_transfer" then
    let! amount := slot "amount" in
    let! shown := py_format_2f amount in
    let! from_account := slot "from_account" in
    let! to_account := slot "to_account" in
    let summary :=
      "Transfer $" ++ shown ++ " from " ++ py_str from_account
      ++ " to " ++ py_str to_account ++ "." in
    ret (prompt (summary ++ " Does that look right? (yes/no)"))
  else
    ret (aborted "I'm not sure how to proceed with that transfer. Let's start again.").

Definition mt_handle_from_account (utterance : string) : M W HandlerResult :=
  let account := strip utterance in
  if is_empty account then
    ret (failure "I need the account number to continue. Which account should we use?")
  else
    let! _ := store_slot "from_account" (VStr account) in
    let! _ := modify_state (set_step (Some "collect_to_account")) in
    mt_prompt_for_current_step.

(** [account == state.slots.get("from_account")]: a string equals neither
    [None] nor a float. *)
Definition equals_slot (account : string) (v : option value) : bool :=
  match v with
  | Some (VStr s) => String.eqb account s
  | _ => false
  end.

Definition mt_handle_to_account (utterance : string) : M W HandlerResult :=
  let account := strip utterance in
  if is_empty account then
    ret (failure "Please tell me where to send the money.")
  else
    let! st := get_state in
    if equals_slot account (slots st !! "from_account") then
      ret (failure "The destination must be different from the source account. Where should the funds go?")
    else
      let! _ := store_slot "to_account" (VStr account) in
      let! _ := modify_state (set_step (Some "collect_amount")) in
      mt_prompt_for_current_step.

Definition mt_handle_amount (utterance : string) : M W HandlerResult :=
  let cleaned := strip (remove_commas utterance) in
  match float_of_string cleaned with
  | None => ret (failure "I wasn't able to read that dollar amount. How much should I transfer?")
  | Some amount =>
      if le_zero amount then
        ret (failure "The transfer amount must be greater than zero. How much should I move?")
      else
        let! _ := store_slot "amount" (VFloat amount) in
        let! _ := modify_state (set_step (Some "confirm_transfer")) in
        mt_prompt_for_current_step
  end.

Definition mt_handle_confirmation (utterance : string) : M W HandlerResult :=
  let normalized := lower (strip utterance) in
  if mem normalized ["yes"; "y"; "confirm"] then
    let! from_account := slot "from_account" in
    let! to_account := slot "to_account" in
    let! amount := slot "amount" in
    let! transfer_id := call_transfer from_account to_account amount in
    ret (finished ("Done! Transfer " ++ transfer_id
                   ++ " is complete. Anything else I can help with?"))
  else if mem normalized ["no"; "n"; "cancel"] then
    ret (finished "Okay, I canceled that transfer. Let me know if you change your mind.")
  else
    ret (failure "Please respond with yes or no so I can complete the transfer.").

Definition mt_handle (utterance : string) : M W HandlerResult :=
  let! st := get_state in
  if step_is st "collect_from_account" then mt_handle_from_account utterance
  else if step_is st "collect_to_account" then mt_handle_to_account utterance
  else if step_is st "collect_amount" then mt_handle_amount utterance
  else if step_is st "confirm_transfer" then mt_handle_confirmation utterance
  else ret (aborted "Let's cancel that transfer for now.").

Definition MoneyTransferHandler : Handler W :=
  mkHandler W "money_transfer" "money_transfer" "collect_from_account"
            mt_prompt_for_current_step mt_handle.

(** *** Advisor messaging *)

Definition am_prompt_for_current_step : M W HandlerResult :=
  let! st := get_state in
  if step_is st "collect_topic" then
    ret (prompt "Happy to help. What would you like to discuss with your advisor?")
  else if step_is st "collect_message" then
    ret (prompt "Great. What details should I include in the secure message?")
  else if step_is st "confirm_message" then
    let! preview := slot "message" in
    let! topic := slot "topic" in
    ret (prompt ("I'll send your advisor a message about '" ++ py_str topic
                 ++ "' saying: '" ++ py_str preview
                 ++ "'. Shall I send it now? (yes/no)"))
  else
    ret (aborted "I ran into an issue preparing that advisor message. Let's start over.").

Definition am_handle_topic (utterance : string) : M W HandlerResult :=
  let topic := strip utterance in
  if is_empty topic then
    ret (failure "Please share a short topic so your advisor knows what to expect.")
  else
    let! _ := store_slot "topic" (VStr topic) in
    let! _ := modify_state (set_step (Some "collect_message")) in
    am_prompt_for_current_step.

Definition am_handle_message (utterance : string) : M W HandlerResult :=
  let message := strip utterance in
  if is_empty message then
    ret (failure "I'll need a bit more detail to send a helpful message. What should I include?")
  else
    let! _ := store_slot "message" (VStr message) in
    let! _ := modify_state (set_step (Some "confirm_message")) in
    am_prompt_for_current_step.

Definition am_handle_confirmation (utterance : string) : M W HandlerResult :=
  let normalized := lower (strip utterance) in
  if mem normalized ["yes"; "y"; "send"] then
    let! topic := slot "topic" in
    let! message := slot "message" in
    let! ticket_id := call_send_message topic message in
    ret (finished ("All right, I've delivered that message. Your advisor will reply under ticket "
                   ++ ticket_id ++ "."))
  else if mem normalized ["no"; "n"; "cancel"] then
    ret (finished "Okay, I won't send that. Let me know if you want to try again.")
  else
    ret (failure "Please answer yes or no so I know whether to send the message.").

Definition am_handle (utterance : string) : M W HandlerResult :=
  let! st := get_state in
  if step_is st "collect_topic" then am_handle_topic utterance
  else if step_is st "collect_message" then am_handle_message utterance
  else if step_is st "confirm_message" then am_handle_confirmation utterance
  else ret (aborted "Let's try composing that message again later.").

Definition AdvisorMessagingHandler : Handler W :=
  mkHandler W "secure_advisor_message" "advisor_message" "collect_topic"
            am_prompt_for_current_step am_handle.

End Handlers.

(** ** Intent catalog ([configuration.py]) and router ([router.py]) *)

Record IntentConfig : Type := mkIntent {
  name : string;
  handler : string;
  keywords : list string;
  entities : gmap string (list string)
}.

Module IntentRouter.

(** The inner loop of [match]: is some keyword of the intent a substring
    of the lower-cased utterance? *)
Fixpoint any_keyword_in (kws : list string) (cleaned : string) : bool :=
  match kws with
  | [] => false
  | keyword :: kws' =>
      if contains keyword cleaned then true else any_keyword_in kws' cleaned
  end.

(** The outer loop of [match], returning from inside the inner one. *)
Fixpoint scan (intents : list IntentConfig) (cleaned : string)
    : option IntentConfig :=
  match intents with
  | [] => None
  | intent :: intents' =>
      if any_keyword_in (keywords intent) cleaned then Some intent
      else scan intents' cleaned
  end.

(** [IntentRouter.match] *)
Definition match_ (intents : list IntentConfig) (utterance : string)
    : option IntentConfig :=
  if is_empty utterance then None
  else
    let cleaned := lower utterance in
    scan intents cleaned.

End IntentRouter.

(** ** Engine ([engine.py]) *)

Section Engine.

Context {W : Type}.
Variable svc : Services W.
Variable fmt : Formatting.
(** [self._intents], the catalog read from the configuration file. *)
Variable intents : list IntentConfig.

Definition cancel_keywords : list string :=
  ["cancel"; "stop"; "start over"; "nevermind"; "never mind"].

(** The loop of [_build_handlers]: the account types of the first intent
    handled by ["account_opening"]. *)
Fixpoint configured_account_types (l : list IntentConfig) : list string :=
  match l with
  | [] => []
  | intent :: l' =>
      if String.eqb (handler intent) "account_opening"
      then default [] (entities intent !! "account_type")
      else configured_account_types l'
  end.

(** [if not account_types: account_types = ("checking", "savings")] *)
Definition account_types_or_default : list string :=
  match configured_account_types intents with
  | [] => ["checking"; "savings"]
  | l => l
  end.

(** [_build_handlers] *)
Definition build_handlers : gmap string (Handler W) :=
  let account_types := account_types_or_default in
  {[ "account_opening" :=
       AccountOpeningHandler svc fmt (normalize_account_types account_types);
     "money_transfer" := MoneyTransferHandler svc fmt;
     "advisor_message" := AdvisorMessagingHandler svc fmt ]}.

(** [self._handlers.get(key)] *)
Definition handlers_get (key : string) : option (Handler W) :=
  build_handlers !! key.

(** [f"{key}"] for an optional string. *)
Definition show_key (key : option string) : string :=
  match key with
  | Some k => k
  | None => "None"
  end.

(** [if result.completed: self.state.reset()] *)
Definition reset_if_completed (result : HandlerResult) : M W unit :=
  if completed result then reset else ret tt.

(** [_maybe_reroute] *)
Definition maybe_reroute (utterance : string) : M W (option string) :=
  let intent := IntentRouter.match_ intents utterance in
  let! st := get_state in
  match intent with
  | Some intent =>
      if bool_decide (Some (handler intent) ≠ handler_key st) then
        match handlers_get (handler intent) with
        | None =>
            raise (HandlerNotFoundError
                     ("No handler registered for key '" ++ handler intent ++ "'"))
        | Some h =>
            let! _ := reset in
            let! result := start h in
            let! _ := reset_if_completed result in
            ret (Some (reply result))
        end
      else ret None
  | None => ret None
  end.

(** [_route_to_handler] *)
Definition route_to_handler (utterance : string)
    : M W (option (Handler W) * HandlerResult) :=
  let! st := get_state in
  if negb (active st) then
    match IntentRouter.match_ intents utterance with
    | None =>
        ret (None, failure "I'm not sure how to help with that just yet, but I can open accounts, transfer funds, or message your advisor.")
    | Some intent =>
        match handlers_get (handler intent) with
        | None =>
            raise (HandlerNotFoundError
                     ("No handler registered for key '" ++ handler intent ++ "'"))
        | Some h =>
            let! result := start h in
            ret (Some h, result)
        end
    end
  else
    match handlers_get (default "" (handler_key st)) with
    | None =>
        let! _ := reset in
        let! st' := get_state in
        raise (HandlerNotFoundError
                 ("Active handler '" ++ show_key (handler_key st')
                  ++ "' is not registered"))
    | Some h =>
        let! result := handle h utterance in
        ret (Some h, result)
    end.

Definition cancel_reply : string :=
  "Okay, I've canceled the current request. How else can I help?".

(** [handle_message] *)
Definition handle_message (utterance : string) : M W string :=
  let normalized := strip utterance in
  if is_empty normalized then
    ret "Could you share more detail so I can help?"
  else if mem (lower normalized) cancel_keywords then
    let! _ := reset in
    ret cancel_reply
  else
    let! st := get_state in
    let! rerouted :=
      (if active st then maybe_reroute utterance else ret None) in
    match rerouted with
    | Some text => ret text
    | None =>
        let! routed := route_to_handler utterance in
        let result := snd routed in
        let! _ := reset_if_completed result in
        ret (reply result)
    end.

End Engine.

(** ** The in-memory services ([services.py]) *)

Module InMemory.

Record account_row : Type := mkAccount {
  acc_id : string;
  acc_full_name : value;
  acc_account_type : value;
  acc_initial_deposit : string
}.

Record transfer_row : Type := mkTransfer {
  trx_id : string;
  trx_from_account : value;
  trx_to_account : value;
  trx_amount : string
}.

Record message_row : Type := mkMessage {
  msg_id : string;
  msg_topic : value;
  msg_message : value
}.

(** The three service objects of the test fixture. *)
Record store : Type := mkStore {
  opened_accounts : list account_row;
  transfers : list transfer_row;
  messages : list message_row
}.

Definition empty_store : store := mkStore [] [] [].

Fixpoint zeros (n : nat) : string :=
  match n with
  | O => ""
  | S n' => String "0" (zeros n')
  end.

(** [f"{n:04d}"] *)
Definition format_04d (n : nat) : string :=
  let digits := NilZero.string_of_uint (Nat.to_uint n) in
  zeros (4 - String.length digits) ++ digits.

Section WithFormatting.

Variable fmt : Formatting.

(** [f"{v:.2f}"] inside a service. *)
Definition fixed2 (v : value) : outcome string :=
  match v with
  | VFloat x => Ret (format_2f fmt x)
  | VStr _ => Raise ValueError
  end.

Definition in_memory_open_account (full_name account_type initial_deposit : value)
    (s : store) : outcome string * store :=
  let account_id := "ACC" ++ format_04d (List.length (opened_accounts s) + 1) in
  match fixed2 initial_deposit with
  | Raise e => (Raise e, s)
  | Ret shown =>
      (Ret account_id,
       mkStore (opened_accounts s
                ++ [mkAccount account_id full_name account_type shown])%list
               (transfers s) (messages s))
  end.

Definition in_memory_transfer (from_account to_account amount : value)
    (s : store) : outcome string * store :=
  let transfer_id := "TRX" ++ format_04d (List.length (transfers s) + 1) in
  match fixed2 amount with
  | Raise e => (Raise e, s)
  | Ret shown =>
      (Ret transfer_id,
       mkStore (opened_accounts s)
               (transfers s
                ++ [mkTransfer transfer_id from_account to_account shown])%list
               (messages s))
  end.

Definition in_memory_send_message (topic message : value)
    (s : store) : outcome string * store :=
  let ticket_id := "MSG" ++ format_04d (List.length (messages s) + 1) in
  (Ret ticket_id,
   mkStore (opened_accounts s) (transfers s)
           (messages s ++ [mkMessage ticket_id topic message])%list).

Definition services : Services store :=
  mkServices store in_memory_open_account in_memory_transfer
             in_memory_send_message.

End WithFormatting.

End InMemory.

(** ** A configuration to run the examples with

    The formatting built-ins and the catalog file are outside the sources;
    the theorems below hold for all of them.  The examples run with the
    stand-ins of this module.  [title_from] is [str.title] on ASCII text.
    [fixed2] is [f"{x:.2f}"] for amounts written with at most two decimals
    (beyond that it rounds the decimal literal, not the double); it also
    stands in for [f"{x}"], which is reached only when a float sits in a
    slot for text, as no dialogue makes it.  [intents] is a catalog of the
    shape the configuration file has, with keywords that route the
    utterances of the test suite. *)

Module Sample.

Definition is_lower_letter (c : ascii) : bool :=
  ((97 <=? code c) && (code c <=? 122))%N.
Definition is_upper_letter (c : ascii) : bool :=
  ((65 <=? code c) && (code c <=? 90))%N.
Definition upper_char (c : ascii) : ascii :=
  if is_lower_letter c then ascii_of_N (code c - 32) else c.

(** [str.title] on ASCII: a letter after a non-letter is upper-cased, a
    letter after a letter lower-cased. *)
Fixpoint title_from (after_letter : bool) (s : string) : string :=
  match s with
  | EmptyString => EmptyString
  | String c s' =>
      let letter := is_lower_letter c || is_upper_letter c in
      String (if after_letter then lower_char c else upper_char c)
             (title_from letter s')
  end.

Definition decimal (z : Z) : string :=
  NilZero.string_of_uint (N.to_uint (Z.to_N z)).

Definition two_digits (z : Z) : string :=
  (if (z <? 10)%Z then "0" else "") ++ decimal z.

(** The amount in hundredths, rounding half to even beyond two decimals. *)
Definition hundredths (mant exp10 : Z) : Z :=
  if (-2 <=? exp10)%Z then (mant * 10 ^ (exp10 + 2))%Z
  else
    let d := (10 ^ (- exp10 - 2))%Z in
    let q := (mant / d)%Z in
    let r := (mant mod d)%Z in
    if (2 * r <? d)%Z then q
    else if (d <? 2 * r)%Z then (q + 1)%Z
    else if Z.even q then q else (q + 1)%Z.

Definition fixed2 (x : pyfloat) : string :=
  match x with
  | PyFinite neg m e =>
      let h := hundredths m e in
      (if neg then "-" else "") ++ decimal (h / 100) ++ "." ++ two_digits (h mod 100)
  | PyInf neg => if neg then "-inf" else "inf"
  | PyNan => "nan"
  end.

Definition fmt : Formatting := mkFormatting (title_from false) fixed2 fixed2.

Definition intents : list IntentConfig :=
  [ mkIntent "account_opening" "account_opening"
             ["open account"; "open an account"; "new account"]
             {[ "account_type" := ["checking"; "savings"] ]};
    mkIntent "money_transfer" "money_transfer"
             ["transfer"; "send money"] ∅;
    mkIntent "secure_advisor_message" "advisor_message"
             ["advisor"] ∅ ].

Definition world0 : World InMemory.store :=
  mkWorld empty_state InMemory.empty_store [].

Definition turn (utterance : string) :=
  handle_message (InMemory.services fmt) fmt intents utterance.

(** A dialogue: the outcome of each turn, a reply or an exception, and
    the world after the last turn. *)
Fixpoint dialogue (utterances : list string) (w : World InMemory.store)
    : list (outcome string) * World InMemory.store :=
  match utterances with
  | [] => ([], w)
  | u :: us =>
      let '(r, w') := turn u w in
      let '(rs, w'') := dialogue us w' in
      (r :: rs, w'')
  end.

(** Worlds in the middle of a flow, as the dialogues of the test suite
    reach them. *)
Definition in_flow (f_intent f_key f_step : string)
    (sl : gmap string value) : World InMemory.store :=
  mkWorld (mkState (Some f_intent) (Some f_key) (Some f_step) sl)
          InMemory.empty_store [].

Definition account_confirming : World InMemory.store :=
  in_flow "account_opening" "account_opening" "confirm_submission"
    {[ "full_name" := VStr "Alice Johnson";
       "account_type" := VStr "checking";
       "initial_deposit" := VFloat (PyFinite false 500 0) ]}.

Definition transfer_confirming : World InMemory.store :=
  in_flow "money_transfer" "money_transfer" "confirm_transfer"
    {[ "from_account" := VStr "CHK-001";
       "to_account" := VStr "SAV-002";
       "amount" := VFloat (PyFinite false 7525 (-2)) ]}.

Definition advisor_confirming : World InMemory.store :=
  in_flow "secure_advisor_message" "advisor_message" "confirm_message"
    {[ "topic" := VStr "Retirement planning";
       "message" := VStr "I have a question about contribution limits." ]}.

Definition naming_account : World InMemory.store :=
  in_flow "account_opening" "account_opening" "collect_account_type"
    {[ "full_name" := VStr "Jordan Doe" ]}.

Definition choosing_destination : World InMemory.store :=
  in_flow "money_transfer" "money_transfer" "collect_to_account"
    {[ "from_account" := VStr "CHK-001" ]}.

Definition entering_amount : World InMemory.store :=
  in_flow "money_transfer" "money_transfer" "collect_amount"
    {[ "from_account" := VStr "CHK-001"; "to_account" := VStr "CHK-002" ]}.

End Sample.

(** ** The three flows, as the specification lists them

    The tables below are the vocabulary of the statements: which handler
    serves a flow, its identity, its first and its confirmation step, the
    words that confirm, and the texts of its replies.  The theorems relate
    the code above to them. *)

Inductive flow : Type := AccountOpening | MoneyTransfer | AdvisorMessaging.

Definition flow_intent_name (f : flow) : string :=
  match f with
  | AccountOpening => "account_opening"
  | MoneyTransfer => "money_transfer"
  | AdvisorMessaging => "secure_advisor_message"
  end.

Definition flow_key (f : flow) : string :=
  match f with
  | AccountOpening => "account_opening"
  | MoneyTransfer => "money_transfer"
  | AdvisorMessaging => "advisor_message"
  end.

Definition flow_first_step (f : flow) : string :=
  match f with
  | AccountOpening => "collect_full_name"
  | MoneyTransfer => "collect_from_account"
  | AdvisorMessaging => "collect_topic"
  end.

Definition flow_confirm_step (f : flow) : string :=
  match f with
  | AccountOpening => "confirm_submission"
  | MoneyTransfer => "confirm_transfer"
  | AdvisorMessaging => "confirm_message"
  end.

Definition first_prompt (f : flow) : string :=
  match f with
  | AccountOpening => "Sure, let's open a new account. What's your full name?"
  | MoneyTransfer => "Sure thing. Which account should the money come from?"
  | AdvisorMessaging => "Happy to help. What would you like to discuss with your advisor?"
  end.

(** The words each handler takes for a yes. *)
Definition affirmative (f : flow) : list string :=
  match f with
  | AccountOpening | MoneyTransfer => ["yes"; "y"; "confirm"]
  | AdvisorMessaging => ["yes"; "y"; "send"]
  end.

Definition negative : list string := ["no"; "n"; "cancel"].

Definition success_reply (f : flow) (id : string) : string :=
  match f with
  | AccountOpening =>
      "All set! Your new account (" ++ id
      ++ ") is ready. Is there anything else I can help you with?"
  | MoneyTransfer =>
      "Done! Transfer " ++ id ++ " is complete. Anything else I can help with?"
  | AdvisorMessaging =>
      "All right, I've delivered that message. Your advisor will reply under ticket "
      ++ id ++ "."
  end.

Definition decline_reply (f : flow) : string :=
  match f with
  | AccountOpening =>
      "No problem, I won't submit that application. Let me know if you need anything else."
  | MoneyTransfer =>
      "Okay, I canceled that transfer. Let me know if you change your mind."
  | AdvisorMessaging =>
      "Okay, I won't send that. Let me know if you want to try again."
  end.

(** The commit a flow makes from its collected slots; [None] while a slot
    is missing. *)
Definition commit_call (f : flow) (sl : gmap string value) : option service_call :=
  match f with
  | AccountOpening =>
      match sl !! "full_name", sl !! "account_type", sl !! "initial_deposit" with
      | Some a, Some b, Some c => Some (OpenAccount a b c)
      | _, _, _ => None
      end
  | MoneyTransfer =>
      match sl !! "from_account", sl !! "to_account", sl !! "amount" with
      | Some a, Some b, Some c => Some (Transfer a b c)
      | _, _, _ => None
      end
  | AdvisorMessaging =>
      match sl !! "topic", sl !! "message" with
      | Some a, Some b => Some (SendMessage a b)
      | _, _ => None
      end
  end.

(** The service method a recorded call went to. *)
Definition run_service {W} (svc : Services W) (c : service_call)
    : W -> outcome string * W :=
  match c with
  | OpenAccount a b c => open_account svc a b c
  | Transfer a b c => transfer svc a b c
  | SendMessage a b => send_message svc a b
  end.

(** The handler object of a flow, as [_build_handlers] makes it. *)
Definition flow_handler {W} (svc : Services W) (fmt : Formatting)
    (account_types : list string) (f : flow) : Handler W :=
  match f with
  | AccountOpening => AccountOpeningHandler svc fmt account_types
  | MoneyTransfer => MoneyTransferHandler svc fmt
  | AdvisorMessaging => AdvisorMessagingHandler svc fmt
  end.

(** The handler the engine built for a flow from the catalog. *)
Definition engine_handler {W} (svc : Services W) (fmt : Formatting)
    (intents : list IntentConfig) (f : flow) : Handler W :=
  flow_handler svc fmt
    (normalize_account_types (account_types_or_default intents)) f.

(** The state right after [start]. *)
Definition started (f : flow) : ConversationState :=
  mkState (Some (flow_intent_name f)) (Some (flow_key f))
          (Some (flow_first_step f)) ∅.

(** The confirmation method of the handler of a flow. *)
Definition confirmation {W} (svc : Services W) (f : flow) (utterance : string)
    : M W HandlerResult :=
  match f with
  | AccountOpening => ao_handle_confirmation svc utterance
  | MoneyTransfer => mt_handle_confirmation svc utterance
  | AdvisorMessaging => am_handle_confirmation svc utterance
  end.

(** A computation that reads the world and leaves it as it was. *)
Definition read_only {W A} (m : M W A) : Prop := forall w, snd (m w) = w.

(** Passing an utterance to a handler as the input of the current step,
    with the end of [handle_message]: reset when the flow completed, and
    return the reply. *)
Definition as_step_input {W} (h : Handler W) (utterance : string) : M W string :=
  let! result := handle h utterance in
  let! _ := reset_if_completed result in
  ret (reply result).

(** [k] occurs in [s]: the substring relation that [contains] decides. *)
Definition occurs_in (k s : string) : Prop := exists a b, s = a ++ k ++ b.

(** An intent matches a lower-cased utterance when one of its keywords
    occurs in it. *)
Definition matches (intent : IntentConfig) (cleaned : string) : Prop :=
  exists k, In k (keywords intent) /\ occurs_in k cleaned.

(** A string of whitespace only (the empty string included). *)
Fixpoint all_space (s : string) : bool :=
  match s with
  | EmptyString => true
  | String c s' => is_space c && all_space s'
  end.

(** The fields [intent_name], [handler_key] and [step] are all [None] or
    all set. *)
Definition consistent (st : ConversationState) : Prop :=
  (intent_name st = None /\ handler_key st = None /\ step st = None)
  \/ (intent_name st <> None /\ handler_key st <> None /\ step st <> None).

(** What a handler may do to the state while it handles a step: the flow
    stays, and the step stays or is set to a step. *)
Definition keeps_flow (st st' : ConversationState) : Prop :=
  intent_name st' = intent_name st
  /\ handler_key st' = handler_key st
  /\ (step st' = step st \/ step st' <> None).

Definition flow_step {W A} (m : M W A) : Prop :=
  forall w, keeps_flow (conv w) (conv (snd (m w))).

(** A conversation: the world after the engine took the utterances in
    turn, whether a turn returned or raised. *)
Fixpoint run {W} (svc : Services W) (fmt : Formatting)
    (intents : list IntentConfig) (utterances : list string) (w : World W)
    : World W :=
  match utterances with
  | [] => w
  | u :: us => run svc fmt intents us (snd (handle_message svc fmt intents u w))
  end.

(** ** Vocabulary of the further properties *)

(** The step names a handler dispatches on. *)
Definition flow_steps (f : flow) : list string :=
  match f with
  | AccountOpening =>
      ["collect_full_name"; "collect_account_type"; "collect_initial_deposit";
       "confirm_submission"]
  | MoneyTransfer =>
      ["collect_from_account"; "collect_to_account"; "collect_amount";
       "confirm_transfer"]
  | AdvisorMessaging => ["collect_topic"; "collect_message"; "confirm_message"]
  end.

(** What [handle] answers on a step it does not know. *)
Definition abort_reply (f : flow) : string :=
  match f with
  | AccountOpening => "Let's restart that account application."
  | MoneyTransfer => "Let's cancel that transfer for now."
  | AdvisorMessaging => "Let's try composing that message again later."
  end.

(** What the confirmation step answers to neither a yes nor a no. *)
Definition retry_reply (f : flow) : string :=
  match f with
  | AccountOpening =>
      "Please reply with yes or no so I know whether to submit the application."
  | MoneyTransfer => "Please respond with yes or no so I can complete the transfer."
  | AdvisorMessaging =>
      "Please answer yes or no so I know whether to send the message."
  end.

Definition blank_reply : string := "Could you share more detail so I can help?".

Definition fallback_reply : string :=
  "I'm not sure how to help with that just yet, but I can open accounts, transfer funds, or message your advisor.".

(** The reroute check lets the turn through to the active flow: the router
    finds nothing in the utterance, or an intent of the active handler. *)
Definition stays_in_flow (intents : list IntentConfig) (utterance : string)
    (st : ConversationState) : Prop :=
  IntentRouter.match_ intents utterance = None
  \/ (exists i, IntentRouter.match_ intents utterance = Some i
                /\ Some (handler i) = handler_key st).

(** The steps that collect a text as it is: flow, step, slot, next step
    and the reply to a blank answer. *)
Inductive text_step : Type := FullName | FromAccount | Topic | Message.

Definition ts_flow (t : text_step) : flow :=
  match t with
  | FullName => AccountOpening
  | FromAccount => MoneyTransfer
  | Topic | Message => AdvisorMessaging
  end.

Definition ts_step (t : text_step) : string :=
  match t with
  | FullName => "collect_full_name"
  | FromAccount => "collect_from_account"
  | Topic => "collect_topic"
  | Message => "collect_message"
  end.

Definition ts_slot (t : text_step) : string :=
  match t with
  | FullName => "full_name"
  | FromAccount => "from_account"
  | Topic => "topic"
  | Message => "message"
  end.

Definition ts_next (t : text_step) : string :=
  match t with
  | FullName => "collect_account_type"
  | FromAccount => "collect_to_account"
  | Topic => "collect_message"
  | Message => "confirm_message"
  end.

Definition ts_blank_reply (t : text_step) : string :=
  match t with
  | FullName => "I didn't catch your name. Could you share your full name?"
  | FromAccount =>
      "I need the account number to continue. Which account should we use?"
  | Topic => "Please share a short topic so your advisor knows what to expect."
  | Message =>
      "I'll need a bit more detail to send a helpful message. What should I include?"
  end.

(** The two steps that collect an amount. *)
Inductive numeric_step : Type := InitialDeposit | Amount.

Definition ns_flow (n : numeric_step) : flow :=
  match n with InitialDeposit => AccountOpening | Amount => MoneyTransfer end.

Definition ns_step (n : numeric_step) : string :=
  match n with
  | InitialDeposit => "collect_initial_deposit"
  | Amount => "collect_amount"
  end.

Definition ns_slot (n : numeric_step) : string :=
  match n with InitialDeposit => "initial_deposit" | Amount => "amount" end.

Definition ns_unreadable_reply (n : numeric_step) : string :=
  match n with
  | InitialDeposit => "Please provide the deposit amount as a number."
  | Amount => "I wasn't able to read that dollar amount. How much should I transfer?"
  end.

Definition ns_nonpositive_reply (n : numeric_step) : string :=
  match n with
  | InitialDeposit =>
      "The deposit amount must be greater than zero. How much would you like to deposit?"
  | Amount => "The transfer amount must be greater than zero. How much should I move?"
  end.

(** The world after a step stored [v] under [key] and moved to [next]. *)
Definition advanced {W} (key : string) (v : value) (next : string) (w : World W)
    : World W :=
  mkWorld (set_step (Some next) (set_slots (<[key := v]> (slots (conv w))) (conv w)))
          (ext w) (calls w).

(** A computation that leaves the services alone: their state and the
    record of calls are after it what they were before. *)
Definition quiet {W A} (m : M W A) : Prop :=
  forall w, ext (snd (m w)) = ext w /\ calls (snd (m w)) = calls w.

(** A computation that removes no slot. *)
Definition keeps_slots {W A} (m : M W A) : Prop :=
  forall w key, is_Some (slots (conv w) !! key) ->
                is_Some (slots (conv (snd (m w))) !! key).

(** The slots of a flow in the order its steps fill them, each with the
    kind of value its step stores. *)
Inductive slot_kind : Type := Text | Number.

Definition flow_slots (f : flow) : list (string * slot_kind) :=
  match f with
  | AccountOpening =>
      [("full_name", Text); ("account_type", Text); ("initial_deposit", Number)]
  | MoneyTransfer =>
      [("from_account", Text); ("to_account", Text); ("amount", Number)]
  | AdvisorMessaging => [("topic", Text); ("message", Text)]
  end.

Definition has_slot (sl : gmap string value) (ks : string * slot_kind) : Prop :=
  match snd ks with
  | Text => exists s, sl !! fst ks = Some (VStr s)
  | Number => exists x, sl !! fst ks = Some (VFloat x)
  end.

(** The state is in flow [f], at its [n]-th step, and the slots of the
    steps before it are filled with values of their kind. *)
Definition in_flow_at (f : flow) (n : nat) (st : ConversationState) : Prop :=
  intent_name st = Some (flow_intent_name f)
  /\ handler_key st = Some (flow_key f)
  /\ step st = nth_error (flow_steps f) n
  /\ step st <> None
  /\ Forall (has_slot (slots st)) (firstn n (flow_slots f)).

(** A state as the engine makes them: no flow at all, or a flow at one of
    its steps with what the earlier steps collected. *)
Definition well_formed (st : ConversationState) : Prop :=
  (intent_name st = None /\ handler_key st = None /\ step st = None)
  \/ (exists f n, in_flow_at f n st).

(** The kind of a value. *)
Definition kind_of (v : value) : slot_kind :=
  match v with VStr _ => Text | VFloat _ => Number end.

(** What a turn of a handler does to a state that is in flow [f]: the
    state stays in the flow, and if the turn raises, it was the commit of a
    confirmed flow whose service raised. *)
Definition turn_in_flow {W} (svc : Services W) (f : flow) (utterance : string)
    (w : World W) (r : outcome HandlerResult * World W) : Prop :=
  (exists n', in_flow_at f n' (conv (snd r)))
  /\ (forall x, fst r = Raise x ->
        exists c, step (conv w) = Some (flow_confirm_step f)
                  /\ In (lower (strip utterance)) (affirmative f)
                  /\ commit_call f (slots (conv w)) = Some c
                  /\ fst (run_service svc c (ext w)) = Raise x).

(** The two ways a turn of a conversation can raise: the catalog names a
    handler key that is not registered, or the service raised at a commit. *)
Definition not_registered_error (i : IntentConfig) : exn :=
  HandlerNotFoundError ("No handler registered for key '" ++ handler i ++ "'").

Definition fails_properly {W} (svc : Services W) (intents : list IntentConfig)
    (utterance : string) (w : World W) (x : exn) : Prop :=
  (exists i, IntentRouter.match_ intents utterance = Some i
             /\ (forall f, handler i <> flow_key f)
             /\ x = not_registered_error i)
  \/ (exists f c, handler_key (conv w) = Some (flow_key f)
                  /\ step (conv w) = Some (flow_confirm_step f)
                  /\ In (lower (strip utterance)) (affirmative f)
                  /\ commit_call f (slots (conv w)) = Some c
                  /\ fst (run_service svc c (ext w)) = Raise x).

Definition proper_turn {W} (svc : Services W) (intents : list IntentConfig)
    (utterance : string) (w : World W) {A} (r : outcome A * World W) : Prop :=
  well_formed (conv (snd r))
  /\ forall x, fst r = Raise x -> fails_properly svc intents utterance w x.

(** The engine hands the utterance to the handler of the active flow [f]:
    it is not blank, not a cancel phrase, and the reroute check finds no
    intent of another handler in it. *)
Definition passes (intents : list IntentConfig) (f : flow) (utterance : string)
    : Prop :=
  all_space utterance = false
  /\ ~ In (lower (strip utterance)) cancel_keywords
  /\ (IntentRouter.match_ intents utterance = None
      \/ exists i, IntentRouter.match_ intents utterance = Some i
                   /\ handler i = flow_key f).

(** The utterance opens flow [f]: it is not blank, not a cancel phrase, and
    the router matches it to an intent of the handler of [f]. *)
Definition opens (intents : list IntentConfig) (f : flow) (utterance : string)
    : Prop :=
  all_space utterance = false
  /\ ~ In (lower (strip utterance)) cancel_keywords
  /\ exists i, IntentRouter.match_ intents utterance = Some i
               /\ handler i = flow_key f.

(** The in-memory services after a sequence of calls, successful or not. *)
Fixpoint serve (fmt : Formatting) (cs : list service_call) (s : InMemory.store)
    : InMemory.store :=
  match cs with
  | [] => s
  | c :: cs' => serve fmt cs' (snd (run_service (InMemory.services fmt) c s))
  end.

(** Identifiers in sequence: the k-th is the prefix followed by k, written
    with at least four digits. *)
Definition numbered (prefix : string) (ids : list string) : Prop :=
  ids = map (fun k => prefix ++ InMemory.format_04d k) (seq 1 (List.length ids)).

(** Reading a string of digits back as a number. *)
Definition read_number (s : string) : option nat :=
  option_map Nat.of_uint (NilEmpty.uint_of_string s).

(** The rows of each in-memory service carry identifiers in sequence. *)
Definition store_numbered (s : InMemory.store) : Prop :=
  numbered "ACC" (map InMemory.acc_id (InMemory.opened_accounts s))
  /\ numbered "TRX" (map InMemory.trx_id (InMemory.transfers s))
  /\ numbered "MSG" (map InMemory.msg_id (InMemory.messages s)).

(** Every identifier the in-memory services have given out. *)
Definition all_ids (s : InMemory.store) : list string :=
  (map InMemory.acc_id (InMemory.opened_accounts s)
   ++ map InMemory.trx_id (InMemory.transfers s)
   ++ map InMemory.msg_id (InMemory.messages s))%list.

(** * Theorems *)

(** ** The model on the dialogues of the test suite *)

Example strip_ex : strip "  Alice Johnson " = "Alice Johnson".
Proof. reflexivity. Qed.

Example lower_ex : lower "Start OVER" = "start over".
Proof. reflexivity. Qed.

Example contains_ex : contains "transfer" "can you transfer money for me?" = true.
Proof. reflexivity. Qed.

Example float_500 : float_of_string "500" = Some (PyFinite false 500 0).
Proof. reflexivity. Qed.

Example float_75_25 : float_of_string "75.25" = Some (PyFinite false 7525 (-2)).
Proof. reflexivity. Qed.

Example float_minus_50 : float_of_string "-50" = Some (PyFinite true 50 0).
Proof. reflexivity. Qed.

Example float_twenty : float_of_string "twenty" = None.
Proof. reflexivity. Qed.

Example float_exp : float_of_string "1_000.5e-3" = Some (PyFinite false 10005 (-4)).
Proof. reflexivity. Qed.

Example float_bad_underscore : float_of_string "1__0" = None.
Proof. reflexivity. Qed.

Example float_nan : float_of_string "NaN" = Some PyNan.
Proof. reflexivity. Qed.

Example float_underflow :
  option_map le_zero (float_of_string "1e-400") = Some true
  /\ option_map le_zero (float_of_string "5e-324") = Some false.
Proof. vm_compute. split; reflexivity. Qed.

Example account_opening_happy_path :
  fst (Sample.dialogue
         ["I want to open a new account"; "Alice Johnson"; "checking"; "500"; "yes"]
         Sample.world0)
  = [ Ret "Sure, let's open a new account. What's your full name?";
      Ret "Thanks. What type of account would you like to open? Options: Checking, Savings.";
      Ret "Got it. How much would you like to deposit to get started?";
      Ret "Open a Checking account for Alice Johnson with an initial deposit of $500.00. Does everything look correct? (yes/no)";
      Ret "All set! Your new account (ACC0001) is ready. Is there anything else I can help you with?" ].
Proof. vm_compute. reflexivity. Qed.

Example money_transfer_validation_error :
  let '(replies, w) :=
    Sample.dialogue ["transfer money"; "CHK-001"; "CHK-002"; "-50"; "twenty"]
                    Sample.world0 in
  nth_error replies 3
    = Some (Ret "The transfer amount must be greater than zero. How much should I move?")
  /\ nth_error replies 4
    = Some (Ret "I wasn't able to read that dollar amount. How much should I transfer?")
  /\ step (conv w) = Some "collect_amount".
Proof. vm_compute. repeat split. Qed.

Example advisor_messaging_user_declines :
  let '(replies, w) :=
    Sample.dialogue ["contact advisor"; "College savings";
                     "How should I rebalance my accounts?"; "no"]
                    Sample.world0 in
  nth_error replies 3
    = Some (Ret "Okay, I won't send that. Let me know if you want to try again.")
  /\ InMemory.messages (ext w) = [] /\ calls w = [] /\ active (conv w) = false.
Proof. vm_compute. repeat split. Qed.

(** ** Running the monad *)

Ltac run_monad :=
  repeat (progress unfold bind, ret, raise, lift, get_state, modify_state,
            reset, slot, store_slot, reset_if_completed, call_service in * );
  cbn [fst snd conv ext calls intent_name handler_key step slots
       reply completed error] in *.

Lemma reset_state_empty (st : ConversationState) : reset_state st = empty_state.
Proof. reflexivity. Qed.

Lemma step_is_true (st : ConversationState) (s : string) :
  step st = Some s -> step_is st s = true.
Proof. intros H. unfold step_is. rewrite H. apply bool_decide_eq_true. reflexivity. Qed.

Lemma step_is_other (st : ConversationState) (s s' : string) :
  step st = Some s -> s <> s' -> step_is st s' = false.
Proof.
  intros H Hne. unfold step_is. rewrite H. apply bool_decide_eq_false.
  intros E. inversion E. contradiction.
Qed.

Lemma mem_In (x : string) (l : list string) : mem x l = true <-> In x l.
Proof.
  unfold mem. rewrite existsb_exists. split.
  - intros [y [Hy E]]. apply String.eqb_eq in E. subst. exact Hy.
  - intros H. exists x. split; [exact H | apply String.eqb_refl].
Qed.

Lemma mem_not_In (x : string) (l : list string) : mem x l = false <-> ~ In x l.
Proof.
  rewrite <- mem_In. destruct (mem x l); split; intros H; try reflexivity;
    try discriminate; try (intros E; discriminate E). exfalso. apply H. reflexivity.
Qed.

(** *** Computations that only read *)

Lemma read_only_ret {W A} (a : A) : read_only (@ret W A a).
Proof. intros w. reflexivity. Qed.

Lemma read_only_raise {W A} (e : exn) : read_only (@raise W A e).
Proof. intros w. reflexivity. Qed.

Lemma read_only_get_state {W} : read_only (@get_state W).
Proof. intros w. reflexivity. Qed.

Lemma read_only_bind {W A B} (m : M W A) (k : A -> M W B) :
  read_only m -> (forall a, read_only (k a)) -> read_only (bind m k).
Proof.
  intros Hm Hk w. unfold bind. specialize (Hm w).
  destruct (m w) as [[a|e] w']; cbn [snd] in *; subst w'.
  - apply Hk.
  - reflexivity.
Qed.

Lemma read_only_slot {W} (key : string) : read_only (@slot W key).
Proof.
  unfold slot. apply read_only_bind; [apply read_only_get_state |].
  intros st. destruct (slots st !! key); [apply read_only_ret | apply read_only_raise].
Qed.

Lemma read_only_py_title {W} (fmt : Formatting) (v : value) :
  read_only (@py_title W fmt v).
Proof. destruct v; [apply read_only_ret | apply read_only_raise]. Qed.

Lemma read_only_py_format_2f {W} (fmt : Formatting) (v : value) :
  read_only (@py_format_2f W fmt v).
Proof. destruct v; [apply read_only_raise | apply read_only_ret]. Qed.

Ltac prove_read_only :=
  repeat first
    [ apply read_only_ret
    | apply read_only_raise
    | apply read_only_get_state
    | apply read_only_slot
    | apply read_only_py_title
    | apply read_only_py_format_2f
    | apply read_only_bind; [| intros ?]
    | match goal with
      | |- read_only (if ?b then _ else _) => destruct b
      end ].

Lemma ao_prompt_read_only {W} (fmt : Formatting) (account_types : list string) :
  read_only (@ao_prompt_for_current_step W fmt account_types).
Proof. unfold ao_prompt_for_current_step. prove_read_only. Qed.

Lemma mt_prompt_read_only {W} (fmt : Formatting) :
  read_only (@mt_prompt_for_current_step W fmt).
Proof. unfold mt_prompt_for_current_step. prove_read_only. Qed.

Lemma am_prompt_read_only {W} (fmt : Formatting) :
  read_only (@am_prompt_for_current_step W fmt).
Proof. unfold am_prompt_for_current_step. prove_read_only. Qed.

(** *** start *)

(** C8.  For each of the three handlers and every prior state, whatever
    flow, step and slots it holds, [start] sets [intent_name] and
    [handler_key] to the handler's identity, [step] to the first step of
    the flow, empties the slots, leaves the services alone, and returns the
    prompt of the first step. *)
Theorem start_sets_identity_and_clears_slots
    {W} (svc : Services W) (fmt : Formatting) (account_types : list string)
    (f : flow) (w : World W) :
  let h := flow_handler svc fmt account_types f in
  hd_intent_name h = flow_intent_name f
  /\ hd_handler_key h = flow_key f
  /\ first_step h = flow_first_step f
  /\ start h w
     = (Ret (prompt (first_prompt f)),
        mkWorld (mkState (Some (hd_intent_name h)) (Some (hd_handler_key h))
                         (Some (first_step h)) ∅)
                (ext w) (calls w)).
Proof.
  destruct f; cbn zeta; repeat split.
Qed.

(** What [start] returns is what the handler prompts with whenever the
    state is at the first step of its flow. *)
Lemma first_prompt_at_first_step
    {W} (svc : Services W) (fmt : Formatting) (account_types : list string)
    (f : flow) (w : World W) :
  step (conv w) = Some (flow_first_step f) ->
  prompt_for_current_step (flow_handler svc fmt account_types f) w
  = (Ret (prompt (first_prompt f)), w).
Proof.
  intros H. destruct f; cbn in *;
    unfold ao_prompt_for_current_step, mt_prompt_for_current_step,
           am_prompt_for_current_step; run_monad;
    rewrite (step_is_true _ _ H); reflexivity.
Qed.

(** *** Cancellation *)

Lemma nonempty_of_lower_mem (s : string) (l : list string) :
  In (lower s) l -> ~ In "" l -> is_empty s = false.
Proof.
  intros H Hn. destruct s; [| reflexivity]. exfalso. apply Hn. exact H.
Qed.

Lemma cancel_keywords_nonempty : ~ In "" cancel_keywords.
Proof. rewrite <- mem_not_In. reflexivity. Qed.

Lemma handle_message_cancel
    {W} (svc : Services W) (fmt : Formatting) (intents : list IntentConfig)
    (utterance : string) (w : World W) :
  In (lower (strip utterance)) cancel_keywords ->
  handle_message svc fmt intents utterance w
  = (Ret cancel_reply, mkWorld empty_state (ext w) (calls w)).
Proof.
  intros H. unfold handle_message.
  rewrite (nonempty_of_lower_mem _ _ H cancel_keywords_nonempty).
  apply mem_In in H. rewrite H. reflexivity.
Qed.

(** C4.  In every conversation state (any flow, any step, or none) and for
    every utterance whose trimmed, lower-cased form is one of the cancel
    phrases, [handle_message] returns the cancellation acknowledgment and
    leaves the state at its cleared defaults; no service is called. *)
Theorem cancel_phrase_resets_state
    {W} (svc : Services W) (fmt : Formatting) (intents : list IntentConfig)
    (utterance : string) (w : World W) :
  In (lower (strip utterance))
     ["cancel"; "stop"; "start over"; "nevermind"; "never mind"] ->
  handle_message svc fmt intents utterance w
  = (Ret "Okay, I've canceled the current request. How else can I help?",
     mkWorld empty_state (ext w) (calls w)).
Proof. apply handle_message_cancel. Qed.

Lemma cancel_phrase_resets_state_witness :
  In (lower (strip "  Never Mind ")) ["cancel"; "stop"; "start over"; "nevermind"; "never mind"]
  /\ handle_message (InMemory.services Sample.fmt) Sample.fmt Sample.intents
       "  Never Mind "
       (mkWorld (mkState (Some "money_transfer") (Some "money_transfer")
                         (Some "collect_amount")
                         {[ "from_account" := VStr "CHK-001" ]})
                InMemory.empty_store [])
     = (Ret "Okay, I've canceled the current request. How else can I help?",
        mkWorld empty_state InMemory.empty_store []).
Proof.
  split.
  - vm_compute. tauto.
  - apply (cancel_phrase_resets_state (InMemory.services Sample.fmt) Sample.fmt
             Sample.intents "  Never Mind ").
    vm_compute. tauto.
Defined.

(** *** The confirmation step *)

(** Decide the comparisons of a known step with the step names. *)
Ltac decide_steps H :=
  unfold step_is; rewrite H;
  repeat match goal with
         | |- context [bool_decide ?P] =>
             let b := eval vm_compute in (bool_decide P) in
             change (bool_decide P) with b
         end;
  cbv iota.

Lemma handle_at_confirm_step
    {W} (svc : Services W) (fmt : Formatting) (account_types : list string)
    (f : flow) (utterance : string) (w : World W) :
  step (conv w) = Some (flow_confirm_step f) ->
  handle (flow_handler svc fmt account_types f) utterance w
  = confirmation svc f utterance w.
Proof.
  intros H. destruct f; cbn in *;
    unfold ao_handle, mt_handle, am_handle; run_monad;
    decide_steps H; reflexivity.
Qed.

Lemma negative_not_affirmative (f : flow) (x : string) :
  In x negative -> mem x (affirmative f) = false.
Proof.
  intros H. cbn in H.
  destruct H as [<-|[<-|[<-|[]]]]; destruct f; reflexivity.
Qed.

Lemma confirmation_affirmative
    {W} (svc : Services W) (f : flow) (utterance : string) (w : World W)
    (c : service_call) (r : outcome string) (e : W) :
  In (lower (strip utterance)) (affirmative f) ->
  commit_call f (slots (conv w)) = Some c ->
  run_service svc c (ext w) = (r, e) ->
  confirmation svc f utterance w
  = (match r with
     | Ret id => Ret (finished (success_reply f id))
     | Raise x => Raise x
     end,
     mkWorld (conv w) e (calls w ++ [c])%list).
Proof.
  intros Hyes Hc Hr. apply mem_In in Hyes.
  destruct f; cbn [affirmative commit_call confirmation] in Hyes, Hc |- *;
    unfold ao_handle_confirmation, mt_handle_confirmation, am_handle_confirmation;
    rewrite Hyes;
    unfold call_open_account, call_transfer, call_send_message; run_monad.
  - destruct (slots (conv w) !! "full_name") as [a|]; [|discriminate].
    destruct (slots (conv w) !! "account_type") as [b|]; [|discriminate].
    destruct (slots (conv w) !! "initial_deposit") as [d|]; [|discriminate].
    injection Hc as <-. cbn in Hr |- *. rewrite Hr. destruct r; reflexivity.
  - destruct (slots (conv w) !! "from_account") as [a|]; [|discriminate].
    destruct (slots (conv w) !! "to_account") as [b|]; [|discriminate].
    destruct (slots (conv w) !! "amount") as [d|]; [|discriminate].
    injection Hc as <-. cbn in Hr |- *. rewrite Hr. destruct r; reflexivity.
  - destruct (slots (conv w) !! "topic") as [a|]; [|discriminate].
    destruct (slots (conv w) !! "message") as [b|]; [|discriminate].
    injection Hc as <-. cbn in Hr |- *. rewrite Hr. destruct r; reflexivity.
Qed.

Lemma confirmation_negative
    {W} (svc : Services W) (f : flow) (utterance : string) (w : World W) :
  In (lower (strip utterance)) negative ->
  confirmation svc f utterance w = (Ret (finished (decline_reply f)), w).
Proof.
  intros Hno. pose proof (negative_not_affirmative f _ Hno) as Hna.
  apply mem_In in Hno.
  destruct f; cbn [affirmative confirmation] in Hna |- *;
    unfold ao_handle_confirmation, mt_handle_confirmation, am_handle_confirmation;
    rewrite Hna; unfold negative in Hno; rewrite Hno; reflexivity.
Qed.

(** C1 (as amended).  At the confirmation step of a flow whose slots are
    collected, an utterance whose trimmed, lower-cased form is one of the
    handler's own affirmative words - "yes", "y", "confirm" for account
    opening and money transfer; "yes", "y", "send" for advisor messaging -
    makes the handler call its service once, with the collected values;
    when the service returns an identifier the handler returns the success
    reply with [completed = true] and [error = false], the conversation
    state untouched. *)
Theorem affirmative_confirmation_commits
    {W} (svc : Services W) (fmt : Formatting) (account_types : list string)
    (f : flow) (utterance : string) (w : World W)
    (c : service_call) (id : string) (e : W) :
  step (conv w) = Some (flow_confirm_step f) ->
  In (lower (strip utterance)) (affirmative f) ->
  commit_call f (slots (conv w)) = Some c ->
  run_service svc c (ext w) = (Ret id, e) ->
  handle (flow_handler svc fmt account_types f) utterance w
  = (Ret (mkResult (success_reply f id) true false),
     mkWorld (conv w) e (calls w ++ [c])%list).
Proof.
  intros Hstep Hyes Hc Hr.
  rewrite (handle_at_confirm_step svc fmt account_types f utterance w Hstep).
  rewrite (confirmation_affirmative svc f utterance w c (Ret id) e Hyes Hc Hr).
  reflexivity.
Qed.

Lemma affirmative_confirmation_commits_witness :
  handle (flow_handler (InMemory.services Sample.fmt) Sample.fmt
                       ["checking"; "savings"] MoneyTransfer)
         " Confirm" Sample.transfer_confirming
  = (Ret (mkResult "Done! Transfer TRX0001 is complete. Anything else I can help with?"
                   true false),
     mkWorld (conv Sample.transfer_confirming)
             (InMemory.mkStore []
                [InMemory.mkTransfer "TRX0001" (VStr "CHK-001") (VStr "SAV-002") "75.25"]
                [])
             [Transfer (VStr "CHK-001") (VStr "SAV-002")
                       (VFloat (PyFinite false 7525 (-2)))]).
Proof.
  apply (affirmative_confirmation_commits (InMemory.services Sample.fmt) Sample.fmt
           ["checking"; "savings"] MoneyTransfer " Confirm"
           Sample.transfer_confirming
           (Transfer (VStr "CHK-001") (VStr "SAV-002")
                     (VFloat (PyFinite false 7525 (-2))))
           "TRX0001"
           (InMemory.mkStore []
              [InMemory.mkTransfer "TRX0001" (VStr "CHK-001") (VStr "SAV-002") "75.25"]
              [])).
  - reflexivity.
  - vm_compute. tauto.
  - vm_compute. reflexivity.
  - vm_compute. reflexivity.
Defined.

(** C1 as stated fails for advisor messaging: its handler does not take
    "confirm" for a yes.  At [confirm_message] the word gets the yes-or-no
    error reply, nothing is completed and no service is called. *)
Lemma advisor_does_not_take_confirm :
  step (conv Sample.advisor_confirming) = Some (flow_confirm_step AdvisorMessaging)
  /\ lower (strip "confirm") = "confirm"
  /\ handle (flow_handler (InMemory.services Sample.fmt) Sample.fmt
                          ["checking"; "savings"] AdvisorMessaging)
            "confirm" Sample.advisor_confirming
     = (Ret (mkResult "Please answer yes or no so I know whether to send the message."
                      false true),
        Sample.advisor_confirming)
  /\ calls Sample.advisor_confirming = [].
Proof. vm_compute. repeat split. Qed.

(** A declined confirmation: the decline reply, [completed = true], and
    the world as it was. *)
Lemma negative_confirmation_declines
    {W} (svc : Services W) (fmt : Formatting) (account_types : list string)
    (f : flow) (utterance : string) (w : World W) :
  step (conv w) = Some (flow_confirm_step f) ->
  In (lower (strip utterance)) negative ->
  handle (flow_handler svc fmt account_types f) utterance w
  = (Ret (mkResult (decline_reply f) true false), w).
Proof.
  intros Hstep Hno.
  rewrite (handle_at_confirm_step svc fmt account_types f utterance w Hstep).
  apply confirmation_negative. exact Hno.
Qed.

(** C10.  In every conversation state, one at a confirmation step included,
    an utterance whose trimmed, lower-cased form is "cancel" is answered by
    the engine's cancel check: [handle_message] returns the generic
    cancellation acknowledgment, clears the state and calls no service,
    whatever the catalog and the handlers are.  The handler's negative
    branch, which lists "cancel" too, would have answered with its decline
    reply, a different text; through [handle_message] it is not reached for
    that word. *)
Theorem cancel_is_answered_by_the_engine
    {W} (svc : Services W) (fmt : Formatting) (intents : list IntentConfig)
    (utterance : string) (w : World W) :
  lower (strip utterance) = "cancel" ->
  handle_message svc fmt intents utterance w
  = (Ret cancel_reply, mkWorld empty_state (ext w) (calls w))
  /\ forall f : flow,
       decline_reply f <> cancel_reply
       /\ (step (conv w) = Some (flow_confirm_step f) ->
           handle (engine_handler svc fmt intents f) utterance w
           = (Ret (mkResult (decline_reply f) true false), w)).
Proof.
  intros H. split.
  - apply handle_message_cancel. rewrite H. left. reflexivity.
  - intros f. split.
    + destruct f; discriminate.
    + intros Hstep. apply negative_confirmation_declines; [exact Hstep |].
      rewrite H. right. right. left. reflexivity.
Qed.

Lemma cancel_is_answered_by_the_engine_witness :
  handle_message (InMemory.services Sample.fmt) Sample.fmt Sample.intents
                 "Cancel " Sample.transfer_confirming
  = (Ret cancel_reply, mkWorld empty_state InMemory.empty_store [])
  /\ handle (engine_handler (InMemory.services Sample.fmt) Sample.fmt
                            Sample.intents MoneyTransfer)
            "Cancel " Sample.transfer_confirming
     = (Ret (mkResult "Okay, I canceled that transfer. Let me know if you change your mind."
                      true false),
        Sample.transfer_confirming).
Proof.
  pose proof (cancel_is_answered_by_the_engine
                (InMemory.services Sample.fmt) Sample.fmt Sample.intents
                "Cancel " Sample.transfer_confirming eq_refl) as [H1 H2].
  split.
  - exact H1.
  - apply (H2 MoneyTransfer). reflexivity.
Defined.

(** *** Money transfer: the destination account *)

Lemma is_empty_false (s : string) : s <> "" -> is_empty s = false.
Proof. destruct s; [contradiction | reflexivity]. Qed.

(** C7.  At [collect_to_account], whatever source account was collected
    (any non-empty text, in any letter case), an utterance that reads, once
    trimmed, as that same text is rejected: the reply is the dedicated
    error, [error = true], and neither the step nor the slots change. *)
Theorem same_destination_is_rejected
    {W} (svc : Services W) (fmt : Formatting)
    (utterance from_account : string) (w : World W) :
  step (conv w) = Some "collect_to_account" ->
  slots (conv w) !! "from_account" = Some (VStr from_account) ->
  from_account <> "" ->
  strip utterance = from_account ->
  handle (MoneyTransferHandler svc fmt) utterance w
  = (Ret (mkResult "The destination must be different from the source account. Where should the funds go?"
                   false true),
     w).
Proof.
  intros Hstep Hfrom Hne Heq.
  cbn [handle MoneyTransferHandler]. unfold mt_handle. run_monad.
  decide_steps Hstep. unfold mt_handle_to_account. run_monad.
  rewrite Heq, (is_empty_false _ Hne), Hfrom.
  cbn [equals_slot]. rewrite String.eqb_refl. reflexivity.
Qed.

Lemma same_destination_is_rejected_witness :
  handle (MoneyTransferHandler (InMemory.services Sample.fmt) Sample.fmt)
         " CHK-001 " Sample.choosing_destination
  = (Ret (mkResult "The destination must be different from the source account. Where should the funds go?"
                   false true),
     Sample.choosing_destination).
Proof.
  apply (same_destination_is_rejected (InMemory.services Sample.fmt) Sample.fmt
           " CHK-001 " "CHK-001" Sample.choosing_destination).
  - reflexivity.
  - vm_compute. reflexivity.
  - discriminate.
  - reflexivity.
Defined.

(** The source account the handler collects is the trimmed utterance, and
    it is collected only when that is not empty: the values the previous
    theorem ranges over. *)
Lemma collected_source_is_trimmed
    {W} (svc : Services W) (fmt : Formatting) (utterance : string) (w : World W) :
  step (conv w) = Some "collect_from_account" ->
  let w' := snd (handle (MoneyTransferHandler svc fmt) utterance w) in
  (strip utterance = "" /\ w' = w)
  \/ (strip utterance <> ""
      /\ step (conv w') = Some "collect_to_account"
      /\ slots (conv w') !! "from_account" = Some (VStr (strip utterance))).
Proof.
  intros Hstep. cbn [handle MoneyTransferHandler]. unfold mt_handle. run_monad.
  decide_steps Hstep. unfold mt_handle_from_account.
  destruct (strip utterance) as [|c s] eqn:E; cbn [is_empty].
  - left. split; reflexivity.
  - right. split; [discriminate |].
    unfold mt_prompt_for_current_step. run_monad. split; [reflexivity |].
    apply lookup_insert_eq.
Qed.

(** *** The numeric steps *)

Lemma le_zero_false (x : pyfloat) :
  le_zero x = false <-> gt_zero x = true \/ x = PyNan.
Proof.
  destruct x as [neg m e | neg |]; cbn [le_zero gt_zero].
  - destruct neg, (rounds_to_zero m e); cbn; split; intros H;
      try discriminate; try (left; reflexivity); try reflexivity;
      destruct H as [H|H]; discriminate.
  - destruct neg; cbn; split; intros H; try discriminate;
      try (left; reflexivity); try reflexivity;
      destruct H as [H|H]; discriminate.
  - split; intros _; [right |]; reflexivity.
Qed.

(** Money transfer, [collect_amount]: text that [float] does not read, or
    an amount that compares [<= 0], is answered with [error = true] and
    changes nothing. *)
Lemma transfer_amount_rejected
    {W} (svc : Services W) (fmt : Formatting) (utterance : string) (w : World W) :
  step (conv w) = Some "collect_amount" ->
  float_of_string (strip (remove_commas utterance)) = None
  \/ (exists x, float_of_string (strip (remove_commas utterance)) = Some x
                /\ le_zero x = true) ->
  exists text,
    handle (MoneyTransferHandler svc fmt) utterance w
    = (Ret (mkResult text false true), w).
Proof.
  intros Hstep H. cbn [handle MoneyTransferHandler]. unfold mt_handle. run_monad.
  decide_steps Hstep. unfold mt_handle_amount.
  destruct H as [-> | [x [-> Hx]]].
  - eexists. reflexivity.
  - rewrite Hx. eexists. reflexivity.
Qed.

(** Money transfer, [collect_amount]: an amount that does not compare
    [<= 0] is stored and the step moves to the confirmation. *)
Lemma transfer_amount_accepted
    {W} (svc : Services W) (fmt : Formatting) (utterance : string) (w : World W)
    (x : pyfloat) :
  step (conv w) = Some "collect_amount" ->
  float_of_string (strip (remove_commas utterance)) = Some x ->
  le_zero x = false ->
  let w' := snd (handle (MoneyTransferHandler svc fmt) utterance w) in
  step (conv w') = Some "confirm_transfer"
  /\ slots (conv w') = <["amount" := VFloat x]> (slots (conv w)).
Proof.
  intros Hstep Hx Hle. cbn [handle MoneyTransferHandler]. unfold mt_handle. run_monad.
  decide_steps Hstep. unfold mt_handle_amount. rewrite Hx, Hle.
  run_monad. cbv zeta.
  match goal with
  | |- context [mt_prompt_for_current_step fmt ?v] =>
      pose proof (mt_prompt_read_only fmt v) as Hro;
      destruct (mt_prompt_for_current_step fmt v) as [[r|x0] w1]
  end; cbn [snd] in *; subst w1; split; reflexivity.
Qed.

(** Account opening, [collect_initial_deposit]: the same two facts. *)
Lemma deposit_rejected
    {W} (svc : Services W) (fmt : Formatting) (account_types : list string)
    (utterance : string) (w : World W) :
  step (conv w) = Some "collect_initial_deposit" ->
  float_of_string (strip (remove_commas utterance)) = None
  \/ (exists x, float_of_string (strip (remove_commas utterance)) = Some x
                /\ le_zero x = true) ->
  exists text,
    handle (AccountOpeningHandler svc fmt account_types) utterance w
    = (Ret (mkResult text false true), w).
Proof.
  intros Hstep H. cbn [handle AccountOpeningHandler]. unfold ao_handle. run_monad.
  decide_steps Hstep. unfold ao_handle_initial_deposit.
  destruct H as [-> | [x [-> Hx]]].
  - eexists. reflexivity.
  - rewrite Hx. eexists. reflexivity.
Qed.

Lemma deposit_accepted
    {W} (svc : Services W) (fmt : Formatting) (account_types : list string)
    (utterance : string) (w : World W) (x : pyfloat) :
  step (conv w) = Some "collect_initial_deposit" ->
  float_of_string (strip (remove_commas utterance)) = Some x ->
  le_zero x = false ->
  let w' := snd (handle (AccountOpeningHandler svc fmt account_types) utterance w) in
  step (conv w') = Some "confirm_submission"
  /\ slots (conv w') = <["initial_deposit" := VFloat x]> (slots (conv w)).
Proof.
  intros Hstep Hx Hle. cbn [handle AccountOpeningHandler]. unfold ao_handle. run_monad.
  decide_steps Hstep. unfold ao_handle_initial_deposit. rewrite Hx, Hle.
  run_monad. cbv zeta.
  match goal with
  | |- context [ao_prompt_for_current_step fmt account_types ?v] =>
      pose proof (ao_prompt_read_only fmt account_types v) as Hro;
      destruct (ao_prompt_for_current_step fmt account_types v) as [[r|x0] w1]
  end; cbn [snd] in *; subst w1; split; reflexivity.
Qed.

(** C2 (the code at the failing input).  At [collect_amount] the utterance
    "nan" is read by [float] as a NaN, which is not greater than zero, and
    yet is not rejected: the comparison [amount <= 0] is false on it, the
    NaN is stored as the amount, the step moves on to [confirm_transfer] and
    the result has [error = false]. *)
Theorem nan_amount_advances_the_transfer :
  float_of_string (strip (remove_commas "nan")) = Some PyNan
  /\ gt_zero PyNan = false
  /\ handle (MoneyTransferHandler (InMemory.services Sample.fmt) Sample.fmt)
            "nan" Sample.entering_amount
     = (Ret (mkResult "Transfer $nan from CHK-001 to CHK-002. Does that look right? (yes/no)"
                      false false),
        Sample.in_flow "money_transfer" "money_transfer" "confirm_transfer"
          {[ "from_account" := VStr "CHK-001"; "to_account" := VStr "CHK-002";
             "amount" := VFloat PyNan ]}).
Proof. vm_compute. repeat split. Qed.

(** The initial deposit of an account takes the same path. *)
Lemma nan_deposit_advances_the_application :
  handle (AccountOpeningHandler (InMemory.services Sample.fmt) Sample.fmt
                                ["checking"; "savings"])
         "NaN"
         (Sample.in_flow "account_opening" "account_opening" "collect_initial_deposit"
            {[ "full_name" := VStr "Alex Smith"; "account_type" := VStr "savings" ]})
  = (Ret (mkResult "Open a Savings account for Alex Smith with an initial deposit of $nan. Does everything look correct? (yes/no)"
                   false false),
     Sample.in_flow "account_opening" "account_opening" "confirm_submission"
       {[ "full_name" := VStr "Alex Smith"; "account_type" := VStr "savings";
          "initial_deposit" := VFloat PyNan ]}).
Proof. vm_compute. reflexivity. Qed.

(** *** The router *)

Lemma starts_with_spec (p s : string) :
  starts_with p s = true <-> exists b, s = p ++ b.
Proof.
  revert s. induction p as [|a p IH]; intros s; cbn.
  - split; [intros _; exists s; reflexivity | reflexivity].
  - destruct s as [|c s]; cbn.
    + split; [discriminate | intros [b Hb]; discriminate].
    + rewrite andb_true_iff, Ascii.eqb_eq, IH. split.
      * intros [-> [b ->]]. exists b. reflexivity.
      * intros [b Hb]. injection Hb as -> ->. split; [reflexivity | eauto].
Qed.

Lemma contains_spec (k s : string) : contains k s = true <-> occurs_in k s.
Proof.
  unfold occurs_in. induction s as [|c s IH].
  - cbn [contains]. rewrite orb_false_r, starts_with_spec. split.
    + intros [b Hb]. exists "", b. exact Hb.
    + intros [a [b Hab]]. destruct a; [exists b; exact Hab | discriminate].
  - cbn [contains]. rewrite orb_true_iff, starts_with_spec, IH. split.
    + intros [[b Hb] | [a [b Hab]]].
      * exists "", b. exact Hb.
      * exists (String c a), b. cbn. rewrite Hab. reflexivity.
    + intros [a [b Hab]]. destruct a as [|c' a].
      * left. exists b. exact Hab.
      * right. cbn in Hab. injection Hab as -> ->. eauto.
Qed.

Lemma any_keyword_in_spec (intent : IntentConfig) (cleaned : string) :
  IntentRouter.any_keyword_in (keywords intent) cleaned = true
  <-> matches intent cleaned.
Proof.
  unfold matches. induction (keywords intent) as [|k ks IH]; cbn.
  - split; [discriminate | intros [k [[] _]]].
  - destruct (contains k cleaned) eqn:E.
    + split; [| reflexivity]. intros _. exists k. split; [left; reflexivity |].
      apply contains_spec. exact E.
    + rewrite IH. split.
      * intros [k' [Hin Hocc]]. exists k'. split; [right; exact Hin | exact Hocc].
      * intros [k' [[<- | Hin] Hocc]].
        -- apply contains_spec in Hocc. congruence.
        -- exists k'. split; assumption.
Qed.

Lemma not_matches (intent : IntentConfig) (cleaned : string) :
  IntentRouter.any_keyword_in (keywords intent) cleaned = false
  <-> ~ matches intent cleaned.
Proof.
  rewrite <- any_keyword_in_spec.
  destruct (IntentRouter.any_keyword_in (keywords intent) cleaned); split;
    intros H; try reflexivity; try discriminate; try (intros E; discriminate E).
  exfalso. apply H. reflexivity.
Qed.

Lemma scan_Some (intents : list IntentConfig) (cleaned : string) (i : IntentConfig) :
  IntentRouter.scan intents cleaned = Some i
  <-> exists before after,
        intents = (before ++ i :: after)%list
        /\ matches i cleaned
        /\ forall j, In j before -> ~ matches j cleaned.
Proof.
  induction intents as [|x l IH]; cbn [IntentRouter.scan].
  - split; [discriminate |]. intros [before [after [H _]]].
    destruct before; discriminate.
  - destruct (IntentRouter.any_keyword_in (keywords x) cleaned) eqn:E.
    + split.
      * intros [= <-]. exists [], l. split; [reflexivity |].
        split; [apply any_keyword_in_spec; exact E | intros j []].
      * intros [before [after [H [Hi Hb]]]]. destruct before as [|y before].
        -- cbn in H. injection H as -> _. reflexivity.
        -- cbn in H. injection H as <- _. exfalso.
           apply (Hb x); [left; reflexivity | apply any_keyword_in_spec; exact E].
    + rewrite IH. split.
      * intros [before [after [-> [Hi Hb]]]]. exists (x :: before), after.
        split; [reflexivity |]. split; [exact Hi |].
        intros j [<- | Hj]; [apply not_matches; exact E | apply Hb; exact Hj].
      * intros [before [after [H [Hi Hb]]]]. destruct before as [|y before].
        -- cbn in H. injection H as -> _. apply any_keyword_in_spec in Hi. congruence.
        -- cbn in H. injection H as <- ->. exists before, after.
           split; [reflexivity |]. split; [exact Hi |].
           intros j Hj. apply Hb. right. exact Hj.
Qed.

Lemma scan_None (intents : list IntentConfig) (cleaned : string) :
  IntentRouter.scan intents cleaned = None
  <-> forall j, In j intents -> ~ matches j cleaned.
Proof.
  induction intents as [|x l IH]; cbn [IntentRouter.scan].
  - split; [intros _ j [] | reflexivity].
  - destruct (IntentRouter.any_keyword_in (keywords x) cleaned) eqn:E.
    + split; [discriminate |]. intros H. exfalso.
      apply (H x); [left; reflexivity | apply any_keyword_in_spec; exact E].
    + rewrite IH. split.
      * intros H j [<- | Hj]; [apply not_matches; exact E | apply H; exact Hj].
      * intros H j Hj. apply H. right. exact Hj.
Qed.

(** Whitespace-only strings. *)

Lemma is_space_lower_char (c : ascii) : is_space (lower_char c) = is_space c.
Proof. destruct c as [[] [] [] [] [] [] [] []]; reflexivity. Qed.

Lemma all_space_lower (s : string) : all_space (lower s) = all_space s.
Proof.
  induction s as [|c s IH]; [reflexivity |].
  cbn. rewrite is_space_lower_char, IH. reflexivity.
Qed.

Lemma all_space_app (a b : string) :
  all_space (a ++ b) = all_space a && all_space b.
Proof.
  induction a as [|c a IH]; [reflexivity |].
  simpl. rewrite IH. apply andb_assoc.
Qed.

Lemma rstrip_empty (s : string) : rstrip s = "" <-> all_space s = true.
Proof.
  induction s as [|c s IH]; cbn.
  - split; reflexivity.
  - destruct (is_space c); cbn.
    + destruct (rstrip s) eqn:E; cbn.
      * split; [intros _; apply IH; reflexivity | reflexivity].
      * split; [discriminate |]. intros H. apply IH in H. discriminate.
    + split; discriminate.
Qed.

Lemma lstrip_all_space (s : string) : all_space (lstrip s) = all_space s.
Proof.
  induction s as [|c s IH]; [reflexivity |].
  cbn. destruct (is_space c) eqn:E; cbn; [exact IH | rewrite E; reflexivity].
Qed.

Lemma strip_empty (s : string) : strip s = "" <-> all_space s = true.
Proof. unfold strip. rewrite rstrip_empty, lstrip_all_space. reflexivity. Qed.

Lemma blank_of_occurs_in_blank (k s : string) :
  occurs_in k s -> all_space s = true -> all_space k = true.
Proof.
  intros [a [b ->]] H. rewrite !all_space_app in H.
  apply andb_true_iff in H as [_ H]. apply andb_true_iff in H as [H _]. exact H.
Qed.

(** C5 as stated fails: a whitespace-only utterance is not told apart from
    other text, so a catalog with a blank keyword matches it. *)
Lemma blank_utterance_can_match :
  strip " " = ""
  /\ IntentRouter.match_ [mkIntent "help" "advisor_message" ["help"; " "] ∅] " "
     = Some (mkIntent "help" "advisor_message" ["help"; " "] ∅).
Proof. split; reflexivity. Qed.

(** C5 (as amended).  For every catalog and utterance, [match] returns no
    intent for the empty utterance; for any other utterance it returns the
    first intent of the catalog one of whose keywords occurs in the
    lower-cased utterance, and no intent when there is none.  For a
    whitespace-only utterance that is no intent as long as no keyword of the
    catalog is blank.  The router is a function of the catalog and the
    utterance and has no state to change. *)
Theorem router_returns_first_match
    (intents : list IntentConfig) (utterance : string) :
  (utterance = "" -> IntentRouter.match_ intents utterance = None)
  /\ (utterance <> "" ->
      forall i, IntentRouter.match_ intents utterance = Some i
                <-> exists before after,
                      intents = (before ++ i :: after)%list
                      /\ matches i (lower utterance)
                      /\ forall j, In j before -> ~ matches j (lower utterance))
  /\ (utterance <> "" ->
      (IntentRouter.match_ intents utterance = None
       <-> forall j, In j intents -> ~ matches j (lower utterance)))
  /\ (strip utterance = "" ->
      (forall j k, In j intents -> In k (keywords j) -> strip k <> "") ->
      IntentRouter.match_ intents utterance = None).
Proof.
  unfold IntentRouter.match_. repeat split.
  - intros ->. reflexivity.
  - rewrite (is_empty_false _ H). apply scan_Some.
  - rewrite (is_empty_false _ H). apply scan_Some.
  - rewrite (is_empty_false _ H). apply scan_None.
  - rewrite (is_empty_false _ H). apply scan_None.
  - intros Hblank Hkeys. destruct (is_empty utterance); [reflexivity |].
    apply scan_None. intros j Hj [k [Hk Hocc]].
    apply (Hkeys j k Hj Hk). apply strip_empty.
    apply (blank_of_occurs_in_blank k (lower utterance) Hocc).
    rewrite all_space_lower. apply strip_empty. exact Hblank.
Qed.

Lemma router_returns_first_match_witness :
  IntentRouter.match_ Sample.intents "   " = None
  /\ IntentRouter.match_ Sample.intents "Please TRANSFER to my new account"
     = nth_error Sample.intents 0.
Proof.
  pose proof (router_returns_first_match Sample.intents "   ") as [_ [_ [_ H]]].
  pose proof (router_returns_first_match Sample.intents
                "Please TRANSFER to my new account") as [_ [H2 _]].
  split.
  - apply H; [reflexivity |].
    intros j k Hj Hk. vm_compute in Hj.
    destruct Hj as [<- | [<- | [<- | []]]]; vm_compute in Hk;
      repeat (destruct Hk as [<- | Hk]; [discriminate |]); destruct Hk.
  - cbn [nth_error Sample.intents]. apply H2; [discriminate |].
    exists [], (tl Sample.intents). split; [reflexivity |].
    split; [| intros j []].
    exists "new account". split; [right; right; left; reflexivity |].
    exists "please transfer to my ", "". reflexivity.
Defined.

(** *** The engine *)

Lemma handlers_get_flow
    {W} (svc : Services W) (fmt : Formatting) (intents : list IntentConfig)
    (f : flow) :
  handlers_get svc fmt intents (flow_key f) = Some (engine_handler svc fmt intents f).
Proof. destruct f; reflexivity. Qed.

Lemma handlers_get_Some
    {W} (svc : Services W) (fmt : Formatting) (intents : list IntentConfig)
    (key : string) (h : Handler W) :
  handlers_get svc fmt intents key = Some h ->
  exists f, key = flow_key f /\ h = engine_handler svc fmt intents f.
Proof.
  unfold handlers_get, build_handlers. intros H.
  apply lookup_insert_Some in H as [[<- <-] | [_ H]].
  { exists AccountOpening. split; reflexivity. }
  apply lookup_insert_Some in H as [[<- <-] | [_ H]].
  { exists MoneyTransfer. split; reflexivity. }
  apply lookup_singleton_Some in H as [<- <-].
  exists AdvisorMessaging. split; reflexivity.
Qed.

Lemma start_flow_handler
    {W} (svc : Services W) (fmt : Formatting) (account_types : list string)
    (f : flow) (w : World W) :
  start (flow_handler svc fmt account_types f) w
  = (Ret (prompt (first_prompt f)), mkWorld (started f) (ext w) (calls w)).
Proof. destruct f; reflexivity. Qed.

Lemma maybe_reroute_same_flow
    {W} (svc : Services W) (fmt : Formatting) (intents : list IntentConfig)
    (utterance : string) (w : World W) :
  IntentRouter.match_ intents utterance = None
  \/ (exists i, IntentRouter.match_ intents utterance = Some i
                /\ Some (handler i) = handler_key (conv w)) ->
  maybe_reroute svc fmt intents utterance w = (Ret None, w).
Proof.
  intros [H | [i [H Hkey]]]; unfold maybe_reroute; rewrite H; run_monad.
  - reflexivity.
  - rewrite bool_decide_eq_false_2; [reflexivity |]. intros Hne. apply Hne. exact Hkey.
Qed.

Lemma maybe_reroute_other_flow
    {W} (svc : Services W) (fmt : Formatting) (intents : list IntentConfig)
    (utterance : string) (w : World W) (i : IntentConfig) (f : flow) :
  IntentRouter.match_ intents utterance = Some i ->
  Some (handler i) <> handler_key (conv w) ->
  handler i = flow_key f ->
  maybe_reroute svc fmt intents utterance w
  = (Ret (Some (first_prompt f)), mkWorld (started f) (ext w) (calls w)).
Proof.
  intros H Hne Hf. unfold maybe_reroute. rewrite H. run_monad.
  rewrite bool_decide_eq_true_2 by exact Hne.
  rewrite Hf, handlers_get_flow. run_monad.
  unfold engine_handler. rewrite start_flow_handler. reflexivity.
Qed.

Lemma route_to_handler_active
    {W} (svc : Services W) (fmt : Formatting) (intents : list IntentConfig)
    (utterance : string) (w : World W) (f : flow) :
  active (conv w) = true ->
  handler_key (conv w) = Some (flow_key f) ->
  route_to_handler svc fmt intents utterance w
  = (let! result := handle (engine_handler svc fmt intents f) utterance in
     ret (Some (engine_handler svc fmt intents f), result)) w.
Proof.
  intros Hact Hkey. unfold route_to_handler. run_monad.
  rewrite Hact, Hkey. cbn [negb].
  change (default "" (Some (flow_key f))) with (flow_key f).
  rewrite handlers_get_flow. reflexivity.
Qed.

Lemma handle_message_continues
    {W} (svc : Services W) (fmt : Formatting) (intents : list IntentConfig)
    (utterance : string) (w : World W) (f : flow) :
  is_empty (strip utterance) = false ->
  ~ In (lower (strip utterance)) cancel_keywords ->
  active (conv w) = true ->
  handler_key (conv w) = Some (flow_key f) ->
  IntentRouter.match_ intents utterance = None
  \/ (exists i, IntentRouter.match_ intents utterance = Some i
                /\ Some (handler i) = handler_key (conv w)) ->
  handle_message svc fmt intents utterance w
  = as_step_input (engine_handler svc fmt intents f) utterance w.
Proof.
  intros Hne Hnc Hact Hkey Hsame. apply mem_not_In in Hnc.
  unfold handle_message. rewrite Hne, Hnc.
  unfold bind at 1. unfold get_state at 1. cbv beta iota. rewrite Hact.
  unfold bind at 1. rewrite (maybe_reroute_same_flow svc fmt intents utterance w Hsame).
  cbv beta iota.
  unfold bind at 1. rewrite (route_to_handler_active svc fmt intents utterance w f Hact Hkey).
  unfold as_step_input. unfold bind.
  destruct (handle (engine_handler svc fmt intents f) utterance w) as [[r|x] w'];
    cbn [snd ret]; reflexivity.
Qed.

Lemma handle_message_reroutes
    {W} (svc : Services W) (fmt : Formatting) (intents : list IntentConfig)
    (utterance : string) (w : World W) (i : IntentConfig) (f : flow) :
  is_empty (strip utterance) = false ->
  ~ In (lower (strip utterance)) cancel_keywords ->
  active (conv w) = true ->
  IntentRouter.match_ intents utterance = Some i ->
  Some (handler i) <> handler_key (conv w) ->
  handler i = flow_key f ->
  handle_message svc fmt intents utterance w
  = (Ret (first_prompt f), mkWorld (started f) (ext w) (calls w)).
Proof.
  intros Hne Hnc Hact Hm Hother Hf. apply mem_not_In in Hnc.
  unfold handle_message. rewrite Hne, Hnc.
  unfold bind at 1. unfold get_state at 1. cbv beta iota. rewrite Hact.
  unfold bind at 1.
  rewrite (maybe_reroute_other_flow svc fmt intents utterance w i f Hm Hother Hf).
  reflexivity.
Qed.

Lemma active_of_fields (st : ConversationState) :
  intent_name st <> None -> handler_key st <> None -> active st = true.
Proof.
  intros H1 H2. unfold active.
  rewrite !bool_decide_eq_true_2 by assumption. reflexivity.
Qed.

(** C3 (as amended).  In every active state, for every utterance that is
    not blank and is not a cancel phrase: if the router matches the raw
    utterance to an intent whose handler key is registered and differs from
    the active one, [handle_message] drops the state with all its slots,
    starts the matched handler and returns its first-step prompt, calling no
    service; if the router finds no match, or the matched intent has the
    active handler key, [handle_message] passes the utterance to the active
    handler as the input of the current step. *)
Theorem different_intent_reroutes_else_step_input
    {W} (svc : Services W) (fmt : Formatting) (intents : list IntentConfig)
    (utterance : string) (w : World W) :
  strip utterance <> "" ->
  ~ In (lower (strip utterance)) cancel_keywords ->
  active (conv w) = true ->
  (forall i f,
      IntentRouter.match_ intents utterance = Some i ->
      Some (handler i) <> handler_key (conv w) ->
      handler i = flow_key f ->
      handle_message svc fmt intents utterance w
      = (Ret (first_prompt f), mkWorld (started f) (ext w) (calls w)))
  /\ (forall f,
         handler_key (conv w) = Some (flow_key f) ->
         IntentRouter.match_ intents utterance = None
         \/ (exists i, IntentRouter.match_ intents utterance = Some i
                       /\ Some (handler i) = handler_key (conv w)) ->
         handle_message svc fmt intents utterance w
         = as_step_input (engine_handler svc fmt intents f) utterance w).
Proof.
  intros Hne Hnc Hact. apply is_empty_false in Hne. split.
  - intros i f Hm Hother Hf. eapply handle_message_reroutes; eassumption.
  - intros f Hkey Hsame. apply handle_message_continues; assumption.
Qed.

Lemma different_intent_reroutes_else_step_input_witness :
  handle_message (InMemory.services Sample.fmt) Sample.fmt Sample.intents
                 "transfer money" Sample.naming_account
  = (Ret "Sure thing. Which account should the money come from?",
     mkWorld (started MoneyTransfer) InMemory.empty_store [])
  /\ handle_message (InMemory.services Sample.fmt) Sample.fmt Sample.intents
                    "Savings" Sample.naming_account
     = as_step_input
         (engine_handler (InMemory.services Sample.fmt) Sample.fmt Sample.intents
                         AccountOpening)
         "Savings" Sample.naming_account.
Proof.
  split.
  - assert (Hne : strip "transfer money" <> "") by discriminate.
    assert (Hnc : ~ In (lower (strip "transfer money")) cancel_keywords).
    { vm_compute. intros H. repeat (destruct H as [H | H]; [discriminate |]). exact H. }
    pose proof (different_intent_reroutes_else_step_input
                  (InMemory.services Sample.fmt) Sample.fmt Sample.intents
                  "transfer money" Sample.naming_account Hne Hnc eq_refl) as [H _].
    apply (H (mkIntent "money_transfer" "money_transfer"
                       ["transfer"; "send money"] ∅) MoneyTransfer).
    + reflexivity.
    + discriminate.
    + reflexivity.
  - assert (Hne : strip "Savings" <> "") by discriminate.
    assert (Hnc : ~ In (lower (strip "Savings")) cancel_keywords).
    { vm_compute. intros H. repeat (destruct H as [H | H]; [discriminate |]). exact H. }
    pose proof (different_intent_reroutes_else_step_input
                  (InMemory.services Sample.fmt) Sample.fmt Sample.intents
                  "Savings" Sample.naming_account Hne Hnc eq_refl) as [_ H].
    apply (H AccountOpening).
    + reflexivity.
    + left. reflexivity.
Defined.

(** C3 as stated fails on a cancel phrase: in an active flow the router
    finds no match for "cancel", and yet the word is not passed to the
    active handler as step input (which would have answered with its own
    error and kept the flow); the engine clears the state. *)
Lemma cancel_is_not_step_input :
  active (conv Sample.naming_account) = true
  /\ IntentRouter.match_ Sample.intents "cancel" = None
  /\ handle_message (InMemory.services Sample.fmt) Sample.fmt Sample.intents
                    "cancel" Sample.naming_account
     = (Ret cancel_reply, mkWorld empty_state InMemory.empty_store [])
  /\ as_step_input
       (engine_handler (InMemory.services Sample.fmt) Sample.fmt Sample.intents
                       AccountOpening)
       "cancel" Sample.naming_account
     = (Ret "I didn't recognize that account type. Please choose one of the following: Checking, Savings.",
        Sample.naming_account).
Proof. vm_compute. repeat split. Qed.

Lemma affirmative_is_not_cancel (f : flow) (x : string) :
  In x (affirmative f) -> x <> "" /\ ~ In x cancel_keywords.
Proof.
  intros H. split.
  - intros ->. destruct f; cbn in H; intuition discriminate.
  - intros Hc. destruct f; cbn in H, Hc;
      repeat (destruct H as [<- | H]; [intuition discriminate |]); exact H.
Qed.

Lemma strip_nonempty_of_lower (s : string) : lower s <> "" -> is_empty s = false.
Proof. destruct s; [intros H; contradiction H; reflexivity | reflexivity]. Qed.

(** C6.  A flow is at its confirmation step and the turn is a confirmation
    (the reroute check finds no other intent in the utterance).  After an
    affirmative turn - the slots being collected and the service returning
    an identifier - and after a negative turn (trimmed, lower-cased
    utterance "no", "n" or "cancel"), [state.active] is false; in the
    negative case no service is called and the services are as they were. *)
Theorem confirmation_turn_ends_the_flow
    {W} (svc : Services W) (fmt : Formatting) (intents : list IntentConfig)
    (f : flow) (utterance : string) (w : World W) :
  step (conv w) = Some (flow_confirm_step f) ->
  handler_key (conv w) = Some (flow_key f) ->
  intent_name (conv w) <> None ->
  IntentRouter.match_ intents utterance = None
  \/ (exists i, IntentRouter.match_ intents utterance = Some i
                /\ handler i = flow_key f) ->
  (In (lower (strip utterance)) (affirmative f) ->
   forall c id e,
     commit_call f (slots (conv w)) = Some c ->
     run_service svc c (ext w) = (Ret id, e) ->
     handle_message svc fmt intents utterance w
     = (Ret (success_reply f id), mkWorld empty_state e (calls w ++ [c])%list)
     /\ active (conv (snd (handle_message svc fmt intents utterance w))) = false)
  /\ (In (lower (strip utterance)) negative ->
      (exists text,
          handle_message svc fmt intents utterance w
          = (Ret text, mkWorld empty_state (ext w) (calls w)))
      /\ active (conv (snd (handle_message svc fmt intents utterance w))) = false).
Proof.
  intros Hstep Hkey Hname Hroute.
  assert (Hact : active (conv w) = true).
  { apply active_of_fields; [exact Hname | rewrite Hkey; discriminate]. }
  assert (Hsame : IntentRouter.match_ intents utterance = None
                  \/ (exists i, IntentRouter.match_ intents utterance = Some i
                                /\ Some (handler i) = handler_key (conv w))).
  { destruct Hroute as [H | [i [H Hi]]]; [left; exact H |].
    right. exists i. split; [exact H | rewrite Hkey, Hi; reflexivity]. }
  split.
  - intros Hyes c id e Hc Hr.
    destruct (affirmative_is_not_cancel f _ Hyes) as [Hne Hnc].
    assert (E : handle_message svc fmt intents utterance w
                = (Ret (success_reply f id),
                   mkWorld empty_state e (calls w ++ [c])%list)).
    { rewrite (handle_message_continues svc fmt intents utterance w f
                 (strip_nonempty_of_lower _ Hne) Hnc Hact Hkey Hsame).
      unfold as_step_input, bind, engine_handler.
      rewrite (handle_at_confirm_step svc fmt _ f utterance w Hstep).
      rewrite (confirmation_affirmative svc f utterance w c (Ret id) e Hyes Hc Hr).
      reflexivity. }
    rewrite E. split; reflexivity.
  - intros Hno.
    destruct (string_dec (lower (strip utterance)) "cancel") as [Hc | Hc].
    + rewrite (handle_message_cancel svc fmt intents utterance w)
        by (rewrite Hc; left; reflexivity).
      split; [eexists; reflexivity | reflexivity].
    + assert (Hne : lower (strip utterance) <> "").
      { intros E. rewrite E in Hno. cbn in Hno. intuition discriminate. }
      assert (Hnc : ~ In (lower (strip utterance)) cancel_keywords).
      { intros Hin. cbn in Hno, Hin.
        destruct Hno as [E | [E | [E | []]]]; rewrite <- E in Hin, Hc;
          try (contradiction Hc; reflexivity); intuition discriminate. }
      rewrite (handle_message_continues svc fmt intents utterance w f
                 (strip_nonempty_of_lower _ Hne) Hnc Hact Hkey Hsame).
      unfold as_step_input, bind, engine_handler.
      rewrite (handle_at_confirm_step svc fmt _ f utterance w Hstep).
      rewrite (confirmation_negative svc f utterance w Hno).
      split; [eexists; reflexivity | reflexivity].
Qed.

Lemma confirmation_turn_ends_the_flow_witness :
  (handle_message (InMemory.services Sample.fmt) Sample.fmt Sample.intents
                  "yes" Sample.advisor_confirming
   = (Ret "All right, I've delivered that message. Your advisor will reply under ticket MSG0001.",
      mkWorld empty_state
              (InMemory.mkStore [] []
                 [InMemory.mkMessage "MSG0001" (VStr "Retirement planning")
                    (VStr "I have a question about contribution limits.")])
              [SendMessage (VStr "Retirement planning")
                           (VStr "I have a question about contribution limits.")])
   /\ active (conv (snd (handle_message (InMemory.services Sample.fmt) Sample.fmt
                           Sample.intents "yes" Sample.advisor_confirming)))
      = false)
  /\ ((exists text,
          handle_message (InMemory.services Sample.fmt) Sample.fmt Sample.intents
                         " No" Sample.advisor_confirming
          = (Ret text, mkWorld empty_state InMemory.empty_store []))
      /\ active (conv (snd (handle_message (InMemory.services Sample.fmt) Sample.fmt
                              Sample.intents " No" Sample.advisor_confirming)))
         = false).
Proof.
  split.
  - pose proof (confirmation_turn_ends_the_flow
                  (InMemory.services Sample.fmt) Sample.fmt Sample.intents
                  AdvisorMessaging "yes" Sample.advisor_confirming
                  eq_refl eq_refl ltac:(discriminate) (or_introl eq_refl)) as [H _].
    apply (H ltac:(vm_compute; tauto)
             (SendMessage (VStr "Retirement planning")
                          (VStr "I have a question about contribution limits."))
             "MSG0001"
             (InMemory.mkStore [] []
                [InMemory.mkMessage "MSG0001" (VStr "Retirement planning")
                   (VStr "I have a question about contribution limits.")])).
    + vm_compute. reflexivity.
    + vm_compute. reflexivity.
  - pose proof (confirmation_turn_ends_the_flow
                  (InMemory.services Sample.fmt) Sample.fmt Sample.intents
                  AdvisorMessaging " No" Sample.advisor_confirming
                  eq_refl eq_refl ltac:(discriminate) (or_introl eq_refl)) as [_ H].
    apply H. vm_compute. tauto.
Defined.

(** *** The invariant of the state *)

Lemma keeps_flow_refl (st : ConversationState) : keeps_flow st st.
Proof. repeat split. left. reflexivity. Qed.

Lemma keeps_flow_trans (a b c : ConversationState) :
  keeps_flow a b -> keeps_flow b c -> keeps_flow a c.
Proof.
  intros [H1 [H2 H3]] [K1 [K2 K3]]. repeat split; try congruence.
  destruct K3 as [K3 | K3]; [| right; exact K3].
  destruct H3 as [H3 | H3]; [left | right]; congruence.
Qed.

Lemma flow_step_read_only {W A} (m : M W A) : read_only m -> flow_step m.
Proof. intros H w. rewrite (H w). apply keeps_flow_refl. Qed.

Lemma flow_step_bind {W A B} (m : M W A) (k : A -> M W B) :
  flow_step m -> (forall a, flow_step (k a)) -> flow_step (bind m k).
Proof.
  intros Hm Hk w. unfold bind. specialize (Hm w).
  destruct (m w) as [[a|e] w']; cbn [snd] in *.
  - eapply keeps_flow_trans; [exact Hm | apply Hk].
  - exact Hm.
Qed.

Lemma flow_step_store_slot {W} (key : string) (v : value) :
  flow_step (@store_slot W key v).
Proof. intros w. repeat split. left. reflexivity. Qed.

Lemma flow_step_set_step {W} (s : string) :
  flow_step (@modify_state W (set_step (Some s))).
Proof. intros w. repeat split. right. discriminate. Qed.

Lemma flow_step_call_service {W} (c : service_call) (r : W -> outcome string * W) :
  flow_step (call_service c r).
Proof.
  intros w. unfold call_service. destruct (r (ext w)). apply keeps_flow_refl.
Qed.

Ltac prove_flow_step :=
  repeat first
    [ apply flow_step_store_slot
    | apply flow_step_set_step
    | apply flow_step_call_service
    | apply flow_step_read_only;
      first [ apply read_only_ret | apply read_only_raise | apply read_only_get_state
            | apply read_only_slot | apply ao_prompt_read_only
            | apply mt_prompt_read_only | apply am_prompt_read_only ]
    | apply flow_step_bind; [| intros ?]
    | match goal with
      | |- flow_step (if ?b then _ else _) => destruct b
      | |- flow_step (match ?o with Some _ => _ | None => _ end) => destruct o
      end ].

Lemma handle_keeps_flow
    {W} (svc : Services W) (fmt : Formatting) (account_types : list string)
    (f : flow) (utterance : string) :
  flow_step (handle (flow_handler svc fmt account_types f) utterance).
Proof.
  destruct f; cbn [handle flow_handler AccountOpeningHandler MoneyTransferHandler
                   AdvisorMessagingHandler].
  - unfold ao_handle, ao_handle_full_name, ao_handle_account_type,
      ao_handle_initial_deposit, ao_handle_confirmation, call_open_account.
    prove_flow_step.
  - unfold mt_handle, mt_handle_from_account, mt_handle_to_account,
      mt_handle_amount, mt_handle_confirmation, call_transfer.
    prove_flow_step.
  - unfold am_handle, am_handle_topic, am_handle_message,
      am_handle_confirmation, call_send_message.
    prove_flow_step.
Qed.

Lemma consistent_empty : consistent empty_state.
Proof. left. repeat split. Qed.

Lemma consistent_started (f : flow) : consistent (started f).
Proof. right. repeat split; discriminate. Qed.

Lemma active_true (st : ConversationState) :
  active st = true -> intent_name st <> None /\ handler_key st <> None.
Proof.
  unfold active. intros H. apply andb_true_iff in H as [H1 H2].
  apply bool_decide_eq_true in H1, H2. split; assumption.
Qed.

Lemma consistent_keeps_flow (st st' : ConversationState) :
  consistent st -> active st = true -> keeps_flow st st' -> consistent st'.
Proof.
  intros Hc Ha [H1 [H2 H3]]. apply active_true in Ha as [Hn Hk].
  destruct Hc as [[Hc _] | [_ [_ Hs]]]; [contradiction |].
  right. rewrite H1, H2. repeat split; try assumption.
  destruct H3 as [H3 | H3]; [rewrite H3; exact Hs | exact H3].
Qed.

Lemma consistent_after_reset_if_completed
    {W} (result : HandlerResult) (w : World W) :
  consistent (conv w) ->
  consistent (conv (snd (reset_if_completed result w))).
Proof.
  intros H. unfold reset_if_completed. destruct (completed result).
  - apply consistent_empty.
  - exact H.
Qed.

Lemma maybe_reroute_consistent
    {W} (svc : Services W) (fmt : Formatting) (intents : list IntentConfig)
    (utterance : string) (w : World W) :
  consistent (conv w) ->
  consistent (conv (snd (maybe_reroute svc fmt intents utterance w))).
Proof.
  intros H. unfold maybe_reroute.
  destruct (IntentRouter.match_ intents utterance) as [i|]; run_monad; [| exact H].
  destruct (bool_decide (Some (handler i) <> handler_key (conv w))); [| exact H].
  destruct (handlers_get svc fmt intents (handler i)) as [h|] eqn:E; [| exact H].
  apply handlers_get_Some in E as [f [_ ->]]. run_monad.
  unfold engine_handler. rewrite start_flow_handler. cbn.
  apply consistent_started.
Qed.

Lemma route_to_handler_consistent
    {W} (svc : Services W) (fmt : Formatting) (intents : list IntentConfig)
    (utterance : string) (w : World W) :
  consistent (conv w) ->
  consistent (conv (snd (route_to_handler svc fmt intents utterance w))).
Proof.
  intros H. unfold route_to_handler. run_monad.
  destruct (active (conv w)) eqn:Ha; cbn [negb].
  - destruct (handlers_get svc fmt intents (default "" (handler_key (conv w))))
      as [h|] eqn:E.
    + apply handlers_get_Some in E as [f [_ ->]]. unfold engine_handler.
      match goal with
      | |- context [handle ?h utterance w] =>
          pose proof (handle_keeps_flow svc fmt
                        (normalize_account_types (account_types_or_default intents))
                        f utterance w) as K;
          destruct (handle h utterance w) as [[r|x] w']
      end; cbn [snd] in *; exact (consistent_keeps_flow _ _ H Ha K).
    + apply consistent_empty.
  - destruct (IntentRouter.match_ intents utterance) as [i|]; [| exact H].
    destruct (handlers_get svc fmt intents (handler i)) as [h|] eqn:E; [| exact H].
    apply handlers_get_Some in E as [f [_ ->]].
    unfold engine_handler. rewrite start_flow_handler. cbn.
    apply consistent_started.
Qed.

Lemma handle_message_consistent
    {W} (svc : Services W) (fmt : Formatting) (intents : list IntentConfig)
    (utterance : string) (w : World W) :
  consistent (conv w) ->
  consistent (conv (snd (handle_message svc fmt intents utterance w))).
Proof.
  intros H. unfold handle_message.
  destruct (is_empty (strip utterance)); [exact H |].
  destruct (mem (lower (strip utterance)) cancel_keywords); [apply consistent_empty |].
  unfold bind at 1. unfold get_state at 1. cbv beta iota.
  assert (K : consistent
                (conv (snd ((if active (conv w)
                             then maybe_reroute svc fmt intents utterance
                             else ret None) w)))).
  { destruct (active (conv w)); [apply maybe_reroute_consistent |]; exact H. }
  unfold bind at 1.
  destruct ((if active (conv w)
             then maybe_reroute svc fmt intents utterance
             else ret None) w) as [[[text|]|x] w1]; cbn [snd] in K; try exact K.
  unfold bind at 1.
  pose proof (route_to_handler_consistent svc fmt intents utterance w1 K) as K2.
  destruct (route_to_handler svc fmt intents utterance w1) as [[[h r]|x] w2];
    cbn [snd] in K2 |- *; [| exact K2].
  unfold bind.
  pose proof (consistent_after_reset_if_completed r w2 K2) as K3.
  destruct (reset_if_completed r w2) as [[[]|x] w3]; cbn [snd] in K3 |- *; exact K3.
Qed.

Lemma run_consistent
    {W} (svc : Services W) (fmt : Formatting) (intents : list IntentConfig)
    (utterances : list string) (w : World W) :
  consistent (conv w) ->
  consistent (conv (run svc fmt intents utterances w)).
Proof.
  revert w. induction utterances as [|u us IH]; intros w H; cbn [run].
  - exact H.
  - apply IH. apply handle_message_consistent. exact H.
Qed.

Lemma consistent_active (st : ConversationState) :
  consistent st -> (active st = true <-> step st <> None).
Proof.
  intros [[H1 [H2 H3]] | [H1 [H2 H3]]].
  - unfold active. rewrite H1, H3. split; [discriminate | intros H; contradiction].
  - split; [intros _; exact H3 | intros _; apply active_of_fields; assumption].
Qed.

(** C9.  Start from the empty conversation state and let the engine take
    any utterances in turn.  After every call of [handle_message] - one that
    returns, and also one that raises - the fields [intent_name],
    [handler_key] and [step] are all [None] or all set; so [state.active] is
    true exactly when [step] is set. *)
Theorem state_fields_stay_consistent
    {W} (svc : Services W) (fmt : Formatting) (intents : list IntentConfig)
    (services0 : W) (utterances : list string) :
  let st := conv (run svc fmt intents utterances
                      (mkWorld empty_state services0 [])) in
  consistent st /\ (active st = true <-> step st <> None).
Proof.
  cbv zeta.
  assert (H : consistent (conv (run svc fmt intents utterances
                                    (mkWorld empty_state services0 [])))).
  { apply run_consistent. apply consistent_empty. }
  split; [exact H | apply consistent_active; exact H].
Qed.

(** * Further properties of the code *)

(** ** The engine on its edges ([engine.py]) *)

Lemma step_is_false (st : ConversationState) (s : string) :
  step st <> Some s -> step_is st s = false.
Proof. intros H. unfold step_is. apply bool_decide_eq_false_2. exact H. Qed.

Lemma all_space_false_strip (s : string) :
  all_space s = false -> is_empty (strip s) = false.
Proof.
  intros H. destruct (strip s) eqn:E; [| reflexivity].
  apply strip_empty in E. congruence.
Qed.

Lemma handlers_get_None
    {W} (svc : Services W) (fmt : Formatting) (intents : list IntentConfig)
    (key : string) :
  (forall f, key <> flow_key f) -> handlers_get svc fmt intents key = None.
Proof.
  intros H. destruct (handlers_get svc fmt intents key) as [h|] eqn:E; [| reflexivity].
  apply handlers_get_Some in E as [f [E _]]. exfalso. exact (H f E).
Qed.

(** X1.  An utterance of whitespace only (the empty one included) gets the
    request for more detail in every state, and nothing changes: neither
    the conversation state nor the services, and the router is not asked. *)
Theorem blank_utterance_changes_nothing
    {W} (svc : Services W) (fmt : Formatting) (intents : list IntentConfig)
    (utterance : string) (w : World W) :
  all_space utterance = true ->
  handle_message svc fmt intents utterance w = (Ret blank_reply, w).
Proof.
  intros H. apply strip_empty in H. unfold handle_message. rewrite H. reflexivity.
Qed.

Lemma blank_utterance_changes_nothing_witness :
  handle_message (InMemory.services Sample.fmt) Sample.fmt Sample.intents
                 "   " Sample.transfer_confirming
  = (Ret "Could you share more detail so I can help?", Sample.transfer_confirming).
Proof.
  apply (blank_utterance_changes_nothing (InMemory.services Sample.fmt) Sample.fmt
           Sample.intents "   " Sample.transfer_confirming).
  reflexivity.
Defined.

Lemma handle_message_inactive
    {W} (svc : Services W) (fmt : Formatting) (intents : list IntentConfig)
    (utterance : string) (w : World W) :
  all_space utterance = false ->
  ~ In (lower (strip utterance)) cancel_keywords ->
  active (conv w) = false ->
  handle_message svc fmt intents utterance w
  = (let! routed := route_to_handler svc fmt intents utterance in
     let! _ := reset_if_completed (snd routed) in
     ret (reply (snd routed))) w.
Proof.
  intros Hne Hnc Hact. apply all_space_false_strip in Hne. apply mem_not_In in Hnc.
  unfold handle_message. rewrite Hne, Hnc.
  unfold bind at 1. unfold get_state at 1. cbv beta iota. rewrite Hact.
  reflexivity.
Qed.

(** X2.  With no flow active, an utterance in which the router finds no
    intent gets the fixed reply that lists what the assistant can do;
    conversation state and services stay as they were. *)
Theorem unmatched_utterance_gets_fallback
    {W} (svc : Services W) (fmt : Formatting) (intents : list IntentConfig)
    (utterance : string) (w : World W) :
  all_space utterance = false ->
  ~ In (lower (strip utterance)) cancel_keywords ->
  active (conv w) = false ->
  IntentRouter.match_ intents utterance = None ->
  handle_message svc fmt intents utterance w = (Ret fallback_reply, w).
Proof.
  intros Hne Hnc Hact Hm.
  rewrite (handle_message_inactive svc fmt intents utterance w Hne Hnc Hact).
  unfold route_to_handler. run_monad. rewrite Hact, Hm. reflexivity.
Qed.

Lemma unmatched_utterance_gets_fallback_witness :
  handle_message (InMemory.services Sample.fmt) Sample.fmt Sample.intents
                 "hello" Sample.world0
  = (Ret fallback_reply, Sample.world0).
Proof.
  apply (unmatched_utterance_gets_fallback (InMemory.services Sample.fmt) Sample.fmt
           Sample.intents "hello" Sample.world0).
  - reflexivity.
  - vm_compute. intros H. repeat (destruct H as [H | H]; [discriminate |]). exact H.
  - reflexivity.
  - reflexivity.
Defined.

(** X3.  With no flow active, an utterance the router matches to an intent
    of a registered handler starts that handler's flow: the reply is the
    first-step prompt, the state holds the handler's identity, its first
    step and no slots (whatever slots an inactive state still held), and no
    service is called. *)
Theorem matched_utterance_starts_flow
    {W} (svc : Services W) (fmt : Formatting) (intents : list IntentConfig)
    (utterance : string) (w : World W) (i : IntentConfig) (f : flow) :
  all_space utterance = false ->
  ~ In (lower (strip utterance)) cancel_keywords ->
  active (conv w) = false ->
  IntentRouter.match_ intents utterance = Some i ->
  handler i = flow_key f ->
  handle_message svc fmt intents utterance w
  = (Ret (first_prompt f), mkWorld (started f) (ext w) (calls w)).
Proof.
  intros Hne Hnc Hact Hm Hf.
  rewrite (handle_message_inactive svc fmt intents utterance w Hne Hnc Hact).
  unfold route_to_handler. run_monad. rewrite Hact, Hm. cbn [negb].
  rewrite Hf, handlers_get_flow. unfold engine_handler.
  rewrite start_flow_handler. reflexivity.
Qed.

Lemma matched_utterance_starts_flow_witness :
  handle_message (InMemory.services Sample.fmt) Sample.fmt Sample.intents
                 "I need to message my advisor" Sample.world0
  = (Ret "Happy to help. What would you like to discuss with your advisor?",
     mkWorld (started AdvisorMessaging) InMemory.empty_store []).
Proof.
  apply (matched_utterance_starts_flow (InMemory.services Sample.fmt) Sample.fmt
           Sample.intents "I need to message my advisor" Sample.world0
           (mkIntent "secure_advisor_message" "advisor_message" ["advisor"] ∅)
           AdvisorMessaging).
  - reflexivity.
  - vm_compute. intros H. repeat (destruct H as [H | H]; [discriminate |]). exact H.
  - reflexivity.
  - reflexivity.
  - reflexivity.
Defined.

(** X4.  When the router matches an intent whose handler key is none of the
    three registered ones, and the engine has to look the handler up (no
    flow is active, or the key differs from the active one), the turn
    raises [HandlerNotFoundError] naming that key, and nothing changes: an
    active flow stays where it was. *)
Theorem unregistered_intent_raises
    {W} (svc : Services W) (fmt : Formatting) (intents : list IntentConfig)
    (utterance : string) (w : World W) (i : IntentConfig) :
  all_space utterance = false ->
  ~ In (lower (strip utterance)) cancel_keywords ->
  IntentRouter.match_ intents utterance = Some i ->
  (forall f, handler i <> flow_key f) ->
  active (conv w) = false \/ Some (handler i) <> handler_key (conv w) ->
  handle_message svc fmt intents utterance w
  = (Raise (HandlerNotFoundError
              ("No handler registered for key '" ++ handler i ++ "'")),
     w).
Proof.
  intros Hne Hnc Hm Hunreg Hcase.
  pose proof (handlers_get_None svc fmt intents (handler i) Hunreg) as Hget.
  destruct (active (conv w)) eqn:Hact.
  - destruct Hcase as [Hcase | Hother]; [discriminate |].
    apply all_space_false_strip in Hne. apply mem_not_In in Hnc.
    unfold handle_message. rewrite Hne, Hnc.
    unfold bind at 1. unfold get_state at 1. cbv beta iota. rewrite Hact.
    unfold bind at 1. unfold maybe_reroute. rewrite Hm. run_monad.
    rewrite bool_decide_eq_true_2 by exact Hother. rewrite Hget. reflexivity.
  - rewrite (handle_message_inactive svc fmt intents utterance w Hne Hnc Hact).
    unfold route_to_handler. run_monad. rewrite Hact, Hm. cbn [negb].
    rewrite Hget. reflexivity.
Qed.

Lemma unregistered_intent_raises_witness :
  handle_message (InMemory.services Sample.fmt) Sample.fmt
                 [mkIntent "loans" "loan_request" ["loan"] ∅]
                 "I want a loan" Sample.naming_account
  = (Raise (HandlerNotFoundError "No handler registered for key 'loan_request'"),
     Sample.naming_account).
Proof.
  apply (unregistered_intent_raises (InMemory.services Sample.fmt) Sample.fmt
           [mkIntent "loans" "loan_request" ["loan"] ∅]
           "I want a loan" Sample.naming_account
           (mkIntent "loans" "loan_request" ["loan"] ∅)).
  - reflexivity.
  - vm_compute. intros H. repeat (destruct H as [H | H]; [discriminate |]). exact H.
  - reflexivity.
  - intros f. destruct f; discriminate.
  - right. discriminate.
Defined.

(** X5.  A state that names an active handler key which is not registered
    (no conversation reaches one, see X20) is cleared by the
    next turn that the reroute check lets through, and the turn raises
    [HandlerNotFoundError].  The state is cleared before the message is
    built, so the message reads 'None' in place of the missing key. *)
Theorem unregistered_active_handler_resets
    {W} (svc : Services W) (fmt : Formatting) (intents : list IntentConfig)
    (utterance : string) (w : World W) :
  all_space utterance = false ->
  ~ In (lower (strip utterance)) cancel_keywords ->
  active (conv w) = true ->
  (forall f, default "" (handler_key (conv w)) <> flow_key f) ->
  stays_in_flow intents utterance (conv w) ->
  handle_message svc fmt intents utterance w
  = (Raise (HandlerNotFoundError "Active handler 'None' is not registered"),
     mkWorld empty_state (ext w) (calls w)).
Proof.
  intros Hne Hnc Hact Hunreg Hstay.
  apply all_space_false_strip in Hne. apply mem_not_In in Hnc.
  unfold handle_message. rewrite Hne, Hnc.
  unfold bind at 1. unfold get_state at 1. cbv beta iota. rewrite Hact.
  unfold bind at 1.
  rewrite (maybe_reroute_same_flow svc fmt intents utterance w Hstay).
  cbv beta iota. unfold bind at 1. unfold route_to_handler. run_monad.
  rewrite Hact. cbn [negb].
  rewrite (handlers_get_None svc fmt intents _ Hunreg). reflexivity.
Qed.

Lemma unregistered_active_handler_resets_witness :
  handle_message (InMemory.services Sample.fmt) Sample.fmt Sample.intents
                 "ten thousand"
                 (Sample.in_flow "loans" "loan_request" "collect_sum" ∅)
  = (Raise (HandlerNotFoundError "Active handler 'None' is not registered"),
     Sample.world0).
Proof.
  apply (unregistered_active_handler_resets (InMemory.services Sample.fmt)
           Sample.fmt Sample.intents "ten thousand"
           (Sample.in_flow "loans" "loan_request" "collect_sum" ∅)).
  - reflexivity.
  - vm_compute. intros H. repeat (destruct H as [H | H]; [discriminate |]). exact H.
  - reflexivity.
  - intros f. destruct f; discriminate.
  - left. reflexivity.
Defined.

Lemma handle_unknown_step
    {W} (svc : Services W) (fmt : Formatting) (account_types : list string)
    (f : flow) (utterance : string) (w : World W) :
  (forall s, In s (flow_steps f) -> step (conv w) <> Some s) ->
  handle (flow_handler svc fmt account_types f) utterance w
  = (Ret (aborted (abort_reply f)), w).
Proof.
  intros H.
  destruct f; cbn [handle flow_handler AccountOpeningHandler MoneyTransferHandler
                   AdvisorMessagingHandler];
    unfold ao_handle, mt_handle, am_handle; run_monad;
    rewrite !step_is_false by (apply H; cbn; tauto); reflexivity.
Qed.

(** X6.  A step name the active handler does not know (a missing step
    included) ends the flow instead of looping: the handler answers with
    its restart text, flagged completed and error, and the engine clears the
    state.  No service is called. *)
Theorem unknown_step_ends_the_flow
    {W} (svc : Services W) (fmt : Formatting) (intents : list IntentConfig)
    (f : flow) (utterance : string) (w : World W) :
  all_space utterance = false ->
  ~ In (lower (strip utterance)) cancel_keywords ->
  active (conv w) = true ->
  handler_key (conv w) = Some (flow_key f) ->
  (forall s, In s (flow_steps f) -> step (conv w) <> Some s) ->
  stays_in_flow intents utterance (conv w) ->
  handle (engine_handler svc fmt intents f) utterance w
  = (Ret (mkResult (abort_reply f) true true), w)
  /\ handle_message svc fmt intents utterance w
     = (Ret (abort_reply f), mkWorld empty_state (ext w) (calls w)).
Proof.
  intros Hne Hnc Hact Hkey Hstep Hstay.
  pose proof (handle_unknown_step svc fmt
                (normalize_account_types (account_types_or_default intents))
                f utterance w Hstep) as Hh.
  split; [exact Hh |].
  rewrite (handle_message_continues svc fmt intents utterance w f
             (all_space_false_strip _ Hne) Hnc Hact Hkey Hstay).
  unfold as_step_input, bind, engine_handler. rewrite Hh. reflexivity.
Qed.

Lemma unknown_step_ends_the_flow_witness :
  handle_message (InMemory.services Sample.fmt) Sample.fmt Sample.intents
                 "SAV-002"
                 (Sample.in_flow "money_transfer" "money_transfer" "collect_topic"
                    {[ "from_account" := VStr "CHK-001" ]})
  = (Ret "Let's cancel that transfer for now.", Sample.world0).
Proof.
  apply (unknown_step_ends_the_flow (InMemory.services Sample.fmt) Sample.fmt
           Sample.intents MoneyTransfer "SAV-002"
           (Sample.in_flow "money_transfer" "money_transfer" "collect_topic"
              {[ "from_account" := VStr "CHK-001" ]})).
  - reflexivity.
  - vm_compute. intros H. repeat (destruct H as [H | H]; [discriminate |]). exact H.
  - reflexivity.
  - reflexivity.
  - intros s Hs. cbn in Hs.
    repeat (destruct Hs as [<- | Hs]; [discriminate |]). destruct Hs.
  - left. reflexivity.
Defined.

(** ** The confirmation step on its edges ([handlers.py]) *)

Lemma handle_message_at_confirm_step
    {W} (svc : Services W) (fmt : Formatting) (intents : list IntentConfig)
    (f : flow) (utterance : string) (w : World W) :
  all_space utterance = false ->
  ~ In (lower (strip utterance)) cancel_keywords ->
  intent_name (conv w) <> None ->
  handler_key (conv w) = Some (flow_key f) ->
  step (conv w) = Some (flow_confirm_step f) ->
  stays_in_flow intents utterance (conv w) ->
  handle_message svc fmt intents utterance w
  = (let! result := confirmation svc f utterance in
     let! _ := reset_if_completed result in
     ret (reply result)) w.
Proof.
  intros Hne Hnc Hname Hkey Hstep Hstay.
  assert (Hact : active (conv w) = true).
  { apply active_of_fields; [exact Hname | rewrite Hkey; discriminate]. }
  rewrite (handle_message_continues svc fmt intents utterance w f
             (all_space_false_strip _ Hne) Hnc Hact Hkey Hstay).
  unfold as_step_input, bind, engine_handler.
  rewrite (handle_at_confirm_step svc fmt _ f utterance w Hstep). reflexivity.
Qed.

Lemma confirmation_unclear
    {W} (svc : Services W) (f : flow) (utterance : string) (w : World W) :
  ~ In (lower (strip utterance)) (affirmative f) ->
  ~ In (lower (strip utterance)) negative ->
  confirmation svc f utterance w = (Ret (failure (retry_reply f)), w).
Proof.
  intros Hy Hn. apply mem_not_In in Hy, Hn.
  destruct f; cbn [confirmation affirmative] in *;
    unfold ao_handle_confirmation, mt_handle_confirmation, am_handle_confirmation;
    unfold negative in Hn; rewrite Hy, Hn; reflexivity.
Qed.

(** X7.  At a confirmation step, an answer that is neither one of the
    handler's affirmative words nor "no", "n" or "cancel" is asked again:
    the reply asks for yes or no, the flow stays at the confirmation step
    with its slots, and no service is called. *)
Theorem unclear_confirmation_asks_again
    {W} (svc : Services W) (fmt : Formatting) (intents : list IntentConfig)
    (f : flow) (utterance : string) (w : World W) :
  all_space utterance = false ->
  ~ In (lower (strip utterance)) cancel_keywords ->
  intent_name (conv w) <> None ->
  handler_key (conv w) = Some (flow_key f) ->
  step (conv w) = Some (flow_confirm_step f) ->
  stays_in_flow intents utterance (conv w) ->
  ~ In (lower (strip utterance)) (affirmative f) ->
  ~ In (lower (strip utterance)) negative ->
  handle (engine_handler svc fmt intents f) utterance w
  = (Ret (mkResult (retry_reply f) false true), w)
  /\ handle_message svc fmt intents utterance w = (Ret (retry_reply f), w).
Proof.
  intros Hne Hnc Hname Hkey Hstep Hstay Hy Hn. split.
  - unfold engine_handler.
    rewrite (handle_at_confirm_step svc fmt _ f utterance w Hstep).
    apply confirmation_unclear; assumption.
  - rewrite (handle_message_at_confirm_step svc fmt intents f utterance w
               Hne Hnc Hname Hkey Hstep Hstay).
    unfold bind. rewrite (confirmation_unclear svc f utterance w Hy Hn).
    reflexivity.
Qed.

Lemma unclear_confirmation_asks_again_witness :
  handle_message (InMemory.services Sample.fmt) Sample.fmt Sample.intents
                 "maybe" Sample.account_confirming
  = (Ret "Please reply with yes or no so I know whether to submit the application.",
     Sample.account_confirming).
Proof.
  apply (unclear_confirmation_asks_again (InMemory.services Sample.fmt) Sample.fmt
           Sample.intents AccountOpening "maybe" Sample.account_confirming).
  - reflexivity.
  - vm_compute. intros H. repeat (destruct H as [H | H]; [discriminate |]). exact H.
  - discriminate.
  - reflexivity.
  - reflexivity.
  - left. reflexivity.
  - vm_compute. intros H. repeat (destruct H as [H | H]; [discriminate |]). exact H.
  - vm_compute. intros H. repeat (destruct H as [H | H]; [discriminate |]). exact H.
Defined.

Lemma confirmation_missing_slot
    {W} (svc : Services W) (f : flow) (utterance : string) (w : World W) :
  In (lower (strip utterance)) (affirmative f) ->
  commit_call f (slots (conv w)) = None ->
  exists key,
    slots (conv w) !! key = None
    /\ confirmation svc f utterance w = (Raise (KeyError key), w).
Proof.
  intros Hyes Hc. apply mem_In in Hyes.
  destruct f; cbn [affirmative commit_call confirmation] in Hyes, Hc |- *;
    unfold ao_handle_confirmation, mt_handle_confirmation, am_handle_confirmation;
    rewrite Hyes;
    unfold call_open_account, call_transfer, call_send_message; run_monad.
  - destruct (slots (conv w) !! "full_name") as [a|] eqn:E1;
      [| exists "full_name"; split; [exact E1 | reflexivity]].
    destruct (slots (conv w) !! "account_type") as [b|] eqn:E2;
      [| exists "account_type"; split; [exact E2 | reflexivity]].
    destruct (slots (conv w) !! "initial_deposit") as [d|] eqn:E3;
      [discriminate | exists "initial_deposit"; split; [exact E3 | reflexivity]].
  - destruct (slots (conv w) !! "from_account") as [a|] eqn:E1;
      [| exists "from_account"; split; [exact E1 | reflexivity]].
    destruct (slots (conv w) !! "to_account") as [b|] eqn:E2;
      [| exists "to_account"; split; [exact E2 | reflexivity]].
    destruct (slots (conv w) !! "amount") as [d|] eqn:E3;
      [discriminate | exists "amount"; split; [exact E3 | reflexivity]].
  - destruct (slots (conv w) !! "topic") as [a|] eqn:E1;
      [| exists "topic"; split; [exact E1 | reflexivity]].
    destruct (slots (conv w) !! "message") as [b|] eqn:E2;
      [discriminate | exists "message"; split; [exact E2 | reflexivity]].
Qed.

(** X8.  A yes at a confirmation step whose slots are not all there makes
    no commit: the handler raises [KeyError] for a slot that is absent,
    before it reaches its service, and the turn leaves the conversation
    state, the services and the record of calls as they were. *)
Theorem confirmation_without_slots_raises
    {W} (svc : Services W) (fmt : Formatting) (intents : list IntentConfig)
    (f : flow) (utterance : string) (w : World W) :
  intent_name (conv w) <> None ->
  handler_key (conv w) = Some (flow_key f) ->
  step (conv w) = Some (flow_confirm_step f) ->
  stays_in_flow intents utterance (conv w) ->
  In (lower (strip utterance)) (affirmative f) ->
  commit_call f (slots (conv w)) = None ->
  exists key,
    slots (conv w) !! key = None
    /\ handle (engine_handler svc fmt intents f) utterance w = (Raise (KeyError key), w)
    /\ handle_message svc fmt intents utterance w = (Raise (KeyError key), w).
Proof.
  intros Hname Hkey Hstep Hstay Hyes Hc.
  destruct (affirmative_is_not_cancel f _ Hyes) as [Hne Hnc].
  assert (Hns : all_space utterance = false).
  { destruct (all_space utterance) eqn:E; [| reflexivity].
    apply strip_empty in E. rewrite E in Hne. contradiction Hne. reflexivity. }
  destruct (confirmation_missing_slot svc f utterance w Hyes Hc) as [key [Hk Hr]].
  exists key. split; [exact Hk |]. split.
  - unfold engine_handler.
    rewrite (handle_at_confirm_step svc fmt _ f utterance w Hstep). exact Hr.
  - rewrite (handle_message_at_confirm_step svc fmt intents f utterance w
               Hns Hnc Hname Hkey Hstep Hstay).
    unfold bind. rewrite Hr. reflexivity.
Qed.

Lemma confirmation_without_slots_raises_witness :
  exists key,
    slots (conv (Sample.in_flow "secure_advisor_message" "advisor_message"
                   "confirm_message" {[ "topic" := VStr "Fees" ]})) !! key = None
    /\ handle (engine_handler (InMemory.services Sample.fmt) Sample.fmt
                              Sample.intents AdvisorMessaging)
              "send"
              (Sample.in_flow "secure_advisor_message" "advisor_message"
                 "confirm_message" {[ "topic" := VStr "Fees" ]})
       = (Raise (KeyError key),
          Sample.in_flow "secure_advisor_message" "advisor_message"
            "confirm_message" {[ "topic" := VStr "Fees" ]})
    /\ handle_message (InMemory.services Sample.fmt) Sample.fmt Sample.intents
                      "send"
                      (Sample.in_flow "secure_advisor_message" "advisor_message"
                         "confirm_message" {[ "topic" := VStr "Fees" ]})
       = (Raise (KeyError key),
          Sample.in_flow "secure_advisor_message" "advisor_message"
            "confirm_message" {[ "topic" := VStr "Fees" ]}).
Proof.
  apply (confirmation_without_slots_raises (InMemory.services Sample.fmt)
           Sample.fmt Sample.intents AdvisorMessaging "send"
           (Sample.in_flow "secure_advisor_message" "advisor_message"
              "confirm_message" {[ "topic" := VStr "Fees" ]})).
  - discriminate.
  - reflexivity.
  - reflexivity.
  - left. reflexivity.
  - vm_compute. tauto.
  - vm_compute. reflexivity.
Defined.

(** X9.  When the service raises at the commit, the exception leaves
    [handle_message] as it is; the call is on record, the services are as
    the failed call left them, and the conversation state is untouched: the
    flow is still at its confirmation step with all its slots, so the
    answer can be given again. *)
Theorem failed_commit_keeps_the_flow
    {W} (svc : Services W) (fmt : Formatting) (intents : list IntentConfig)
    (f : flow) (utterance : string) (w : World W)
    (c : service_call) (x : exn) (e : W) :
  intent_name (conv w) <> None ->
  handler_key (conv w) = Some (flow_key f) ->
  step (conv w) = Some (flow_confirm_step f) ->
  stays_in_flow intents utterance (conv w) ->
  In (lower (strip utterance)) (affirmative f) ->
  commit_call f (slots (conv w)) = Some c ->
  run_service svc c (ext w) = (Raise x, e) ->
  handle_message svc fmt intents utterance w
  = (Raise x, mkWorld (conv w) e (calls w ++ [c])%list).
Proof.
  intros Hname Hkey Hstep Hstay Hyes Hc Hr.
  destruct (affirmative_is_not_cancel f _ Hyes) as [Hne Hnc].
  assert (Hns : all_space utterance = false).
  { destruct (all_space utterance) eqn:E; [| reflexivity].
    apply strip_empty in E. rewrite E in Hne. contradiction Hne. reflexivity. }
  rewrite (handle_message_at_confirm_step svc fmt intents f utterance w
             Hns Hnc Hname Hkey Hstep Hstay).
  unfold bind.
  rewrite (confirmation_affirmative svc f utterance w c (Raise x) e Hyes Hc Hr).
  reflexivity.
Qed.

Lemma failed_commit_keeps_the_flow_witness :
  handle_message (InMemory.services Sample.fmt) Sample.fmt Sample.intents
                 "yes"
                 (Sample.in_flow "account_opening" "account_opening"
                    "confirm_submission"
                    {[ "full_name" := VStr "Alice Johnson";
                       "account_type" := VStr "checking";
                       "initial_deposit" := VStr "500" ]})
  = (Raise ValueError,
     mkWorld (conv (Sample.in_flow "account_opening" "account_opening"
                      "confirm_submission"
                      {[ "full_name" := VStr "Alice Johnson";
                         "account_type" := VStr "checking";
                         "initial_deposit" := VStr "500" ]}))
             InMemory.empty_store
             ([] ++ [OpenAccount (VStr "Alice Johnson") (VStr "checking")
                                 (VStr "500")])%list).
Proof.
  apply (failed_commit_keeps_the_flow (InMemory.services Sample.fmt) Sample.fmt
           Sample.intents AccountOpening "yes"
           (Sample.in_flow "account_opening" "account_opening"
              "confirm_submission"
              {[ "full_name" := VStr "Alice Johnson";
                 "account_type" := VStr "checking";
                 "initial_deposit" := VStr "500" ]})
           (OpenAccount (VStr "Alice Johnson") (VStr "checking") (VStr "500"))
           ValueError InMemory.empty_store).
  - discriminate.
  - reflexivity.
  - reflexivity.
  - left. reflexivity.
  - vm_compute. tauto.
  - vm_compute. reflexivity.
  - vm_compute. reflexivity.
Defined.

(** ** The collecting steps ([handlers.py]) *)

Lemma prompt_result_read_only
    {W} (svc : Services W) (fmt : Formatting) (account_types : list string)
    (f : flow) :
  read_only (prompt_for_current_step (flow_handler svc fmt account_types f)).
Proof.
  destruct f; cbn [prompt_for_current_step flow_handler AccountOpeningHandler
                   MoneyTransferHandler AdvisorMessagingHandler].
  - apply ao_prompt_read_only.
  - apply mt_prompt_read_only.
  - apply am_prompt_read_only.
Qed.

(** X10.  The steps that collect a name, a source account, a topic or a
    message take the utterance trimmed.  A blank answer is refused with
    [error = true] and changes nothing; any other answer is stored under
    the step's slot, the other slots and the services are left alone, the
    step moves to the next one and the outcome of the turn is the
    handler's prompt for that step. *)
Theorem text_step_collects
    {W} (svc : Services W) (fmt : Formatting) (account_types : list string)
    (t : text_step) (utterance : string) (w : World W) :
  step (conv w) = Some (ts_step t) ->
  let h := flow_handler svc fmt account_types (ts_flow t) in
  (strip utterance = "" ->
   handle h utterance w = (Ret (mkResult (ts_blank_reply t) false true), w))
  /\ (strip utterance <> "" ->
      let w' := advanced (ts_slot t) (VStr (strip utterance)) (ts_next t) w in
      handle h utterance w = prompt_for_current_step h w'
      /\ snd (handle h utterance w) = w').
Proof.
  intros Hstep h. subst h. split.
  - intros Hblank.
    destruct t; cbn [handle flow_handler ts_flow AccountOpeningHandler
                     MoneyTransferHandler AdvisorMessagingHandler] in *;
      unfold ao_handle, mt_handle, am_handle; run_monad; decide_steps Hstep;
      unfold ao_handle_full_name, mt_handle_from_account, am_handle_topic,
             am_handle_message;
      rewrite Hblank; reflexivity.
  - intros Hne w'.
    assert (E : handle (flow_handler svc fmt account_types (ts_flow t)) utterance w
                = prompt_for_current_step
                    (flow_handler svc fmt account_types (ts_flow t)) w').
    { subst w'. apply is_empty_false in Hne.
      destruct t; cbn [handle flow_handler ts_flow prompt_for_current_step
                       AccountOpeningHandler MoneyTransferHandler
                       AdvisorMessagingHandler] in *;
        unfold ao_handle, mt_handle, am_handle; run_monad; decide_steps Hstep;
        unfold ao_handle_full_name, mt_handle_from_account, am_handle_topic,
               am_handle_message;
        rewrite Hne; reflexivity. }
    split; [exact E |]. rewrite E. apply prompt_result_read_only.
Qed.

Lemma text_step_collects_witness :
  handle (flow_handler (InMemory.services Sample.fmt) Sample.fmt
                       ["checking"; "savings"] AccountOpening)
         "  Alice Johnson " (mkWorld (started AccountOpening) InMemory.empty_store [])
  = (Ret (mkResult "Thanks. What type of account would you like to open? Options: Checking, Savings."
                   false false),
     Sample.in_flow "account_opening" "account_opening" "collect_account_type"
       {[ "full_name" := VStr "Alice Johnson" ]}).
Proof.
  pose proof (text_step_collects (InMemory.services Sample.fmt) Sample.fmt
                ["checking"; "savings"] FullName "  Alice Johnson "
                (mkWorld (started AccountOpening) InMemory.empty_store [])
                eq_refl) as [_ H].
  destruct (H ltac:(discriminate)) as [E _].
  refine (eq_trans E _). vm_compute. reflexivity.
Defined.

(** X11.  The destination step of a transfer: a blank answer is refused;
    an answer that, trimmed, is not the very text stored as the source
    account (another letter case is another text) is stored under
    [to_account] and the step moves on to the amount. *)
Theorem destination_step_collects
    {W} (svc : Services W) (fmt : Formatting) (utterance : string) (w : World W) :
  step (conv w) = Some "collect_to_account" ->
  (strip utterance = "" ->
   handle (MoneyTransferHandler svc fmt) utterance w
   = (Ret (mkResult "Please tell me where to send the money." false true), w))
  /\ (strip utterance <> "" ->
      slots (conv w) !! "from_account" <> Some (VStr (strip utterance)) ->
      handle (MoneyTransferHandler svc fmt) utterance w
      = (Ret (mkResult "How much money should I transfer?" false false),
         advanced "to_account" (VStr (strip utterance)) "collect_amount" w)).
Proof.
  intros Hstep. cbn [handle MoneyTransferHandler]. unfold mt_handle. run_monad.
  decide_steps Hstep. unfold mt_handle_to_account. cbv zeta. split.
  - intros ->. reflexivity.
  - intros Hne Hdiff. rewrite (is_empty_false _ Hne). run_monad.
    assert (E : equals_slot (strip utterance) (slots (conv w) !! "from_account") = false).
    { destruct (slots (conv w) !! "from_account") as [[s|x]|]; cbn; try reflexivity.
      apply String.eqb_neq. intros Heq. apply Hdiff. rewrite Heq. reflexivity. }
    rewrite E. unfold mt_prompt_for_current_step. run_monad. reflexivity.
Qed.

Lemma destination_step_collects_witness :
  handle (MoneyTransferHandler (InMemory.services Sample.fmt) Sample.fmt)
         "chk-001" Sample.choosing_destination
  = (Ret (mkResult "How much money should I transfer?" false false),
     Sample.in_flow "money_transfer" "money_transfer" "collect_amount"
       {[ "from_account" := VStr "CHK-001"; "to_account" := VStr "chk-001" ]}).
Proof.
  pose proof (destination_step_collects (InMemory.services Sample.fmt) Sample.fmt
                "chk-001" Sample.choosing_destination eq_refl) as [_ H].
  refine (eq_trans (H ltac:(discriminate) ltac:(vm_compute; discriminate)) _).
  vm_compute. reflexivity.
Defined.

(** X12.  The account-type step compares the trimmed, lower-cased answer
    with the handler's account types.  A listed type is stored in lower
    case and the step moves on to the deposit; anything else is refused
    with the list of choices, and nothing changes. *)
Theorem account_type_step_validates
    {W} (svc : Services W) (fmt : Formatting) (account_types : list string)
    (utterance : string) (w : World W) :
  step (conv w) = Some "collect_account_type" ->
  let h := AccountOpeningHandler svc fmt account_types in
  (In (lower (strip utterance)) account_types ->
   handle h utterance w
   = (Ret (mkResult "Got it. How much would you like to deposit to get started?"
                    false false),
      advanced "account_type" (VStr (lower (strip utterance)))
               "collect_initial_deposit" w))
  /\ (~ In (lower (strip utterance)) account_types ->
      handle h utterance w
      = (Ret (mkResult
                ("I didn't recognize that account type. Please choose one of the following: "
                 ++ join ", " (map (title fmt) account_types) ++ ".")
                false true),
         w)).
Proof.
  intros Hstep h. subst h. cbn [handle AccountOpeningHandler].
  unfold ao_handle. run_monad. decide_steps Hstep. unfold ao_handle_account_type.
  cbv zeta. split.
  - intros Hin. apply mem_In in Hin. rewrite Hin. cbn [negb].
    unfold ao_prompt_for_current_step. run_monad. reflexivity.
  - intros Hnot. apply mem_not_In in Hnot. rewrite Hnot. reflexivity.
Qed.

Lemma account_type_step_validates_witness :
  handle (AccountOpeningHandler (InMemory.services Sample.fmt) Sample.fmt
                                ["checking"; "savings"])
         " SAVINGS " Sample.naming_account
  = (Ret (mkResult "Got it. How much would you like to deposit to get started?"
                   false false),
     Sample.in_flow "account_opening" "account_opening" "collect_initial_deposit"
       {[ "full_name" := VStr "Jordan Doe"; "account_type" := VStr "savings" ]})
  /\ handle (AccountOpeningHandler (InMemory.services Sample.fmt) Sample.fmt
                                   ["checking"; "savings"])
            "investment" Sample.naming_account
     = (Ret (mkResult "I didn't recognize that account type. Please choose one of the following: Checking, Savings."
                      false true),
        Sample.naming_account).
Proof.
  pose proof (account_type_step_validates (InMemory.services Sample.fmt) Sample.fmt
                ["checking"; "savings"] " SAVINGS " Sample.naming_account eq_refl)
    as [H1 _].
  pose proof (account_type_step_validates (InMemory.services Sample.fmt) Sample.fmt
                ["checking"; "savings"] "investment" Sample.naming_account eq_refl)
    as [_ H2].
  split.
  - refine (eq_trans (H1 ltac:(vm_compute; tauto)) _). vm_compute. reflexivity.
  - refine (eq_trans (H2 _) _).
    + vm_compute. intros H. repeat (destruct H as [H | H]; [discriminate |]). exact H.
    + vm_compute. reflexivity.
Defined.

Lemma handle_numeric_step
    {W} (svc : Services W) (fmt : Formatting) (account_types : list string)
    (n : numeric_step) (utterance : string) (w : World W) :
  step (conv w) = Some (ns_step n) ->
  handle (flow_handler svc fmt account_types (ns_flow n)) utterance w
  = match float_of_string (strip (remove_commas utterance)) with
    | None => (Ret (failure (ns_unreadable_reply n)), w)
    | Some x =>
        if le_zero x then (Ret (failure (ns_nonpositive_reply n)), w)
        else prompt_for_current_step
               (flow_handler svc fmt account_types (ns_flow n))
               (advanced (ns_slot n) (VFloat x) (flow_confirm_step (ns_flow n)) w)
    end.
Proof.
  intros Hstep.
  destruct n; cbn [handle flow_handler ns_flow prompt_for_current_step
                   AccountOpeningHandler MoneyTransferHandler] in *;
    unfold ao_handle, mt_handle; run_monad; decide_steps Hstep;
    unfold ao_handle_initial_deposit, mt_handle_amount; cbv zeta;
    destruct (float_of_string (strip (remove_commas utterance))) as [x|];
    try reflexivity; destruct (le_zero x); reflexivity.
Qed.

(** X13.  The two amount steps (initial deposit, transfer amount) read the
    utterance with the commas removed and trimmed.  Text that is not a
    number is refused, and so is a number that is zero or negative, each
    with its own reply, [error = true] and nothing changed; a number
    greater than zero is stored as a float under the step's slot and the
    step moves to the confirmation. *)
Theorem numeric_step_validates
    {W} (svc : Services W) (fmt : Formatting) (account_types : list string)
    (n : numeric_step) (utterance : string) (w : World W) :
  step (conv w) = Some (ns_step n) ->
  let h := flow_handler svc fmt account_types (ns_flow n) in
  let cleaned := strip (remove_commas utterance) in
  (float_of_string cleaned = None ->
   handle h utterance w = (Ret (mkResult (ns_unreadable_reply n) false true), w))
  /\ (forall x, float_of_string cleaned = Some x -> le_zero x = true ->
      handle h utterance w
      = (Ret (mkResult (ns_nonpositive_reply n) false true), w))
  /\ (forall x, float_of_string cleaned = Some x -> gt_zero x = true ->
      snd (handle h utterance w)
      = advanced (ns_slot n) (VFloat x) (flow_confirm_step (ns_flow n)) w).
Proof.
  intros Hstep h cleaned. subst h cleaned.
  rewrite (handle_numeric_step svc fmt account_types n utterance w Hstep).
  repeat split.
  - intros ->. reflexivity.
  - intros x -> ->. reflexivity.
  - intros x -> Hx.
    assert (E : le_zero x = false) by (apply le_zero_false; left; exact Hx).
    rewrite E. apply prompt_result_read_only.
Qed.

Lemma numeric_step_validates_witness :
  handle (flow_handler (InMemory.services Sample.fmt) Sample.fmt
                       ["checking"; "savings"] MoneyTransfer)
         "-50" Sample.entering_amount
  = (Ret (mkResult "The transfer amount must be greater than zero. How much should I move?"
                   false true),
     Sample.entering_amount)
  /\ snd (handle (flow_handler (InMemory.services Sample.fmt) Sample.fmt
                               ["checking"; "savings"] MoneyTransfer)
                 " 1,250.50 " Sample.entering_amount)
     = Sample.in_flow "money_transfer" "money_transfer" "confirm_transfer"
         {[ "from_account" := VStr "CHK-001"; "to_account" := VStr "CHK-002";
            "amount" := VFloat (PyFinite false 125050 (-2)) ]}.
Proof.
  pose proof (numeric_step_validates (InMemory.services Sample.fmt) Sample.fmt
                ["checking"; "savings"] Amount "-50" Sample.entering_amount eq_refl)
    as [_ [H1 _]].
  pose proof (numeric_step_validates (InMemory.services Sample.fmt) Sample.fmt
                ["checking"; "savings"] Amount " 1,250.50 " Sample.entering_amount
                eq_refl) as [_ [_ H2]].
  split.
  - exact (H1 (PyFinite true 50 0) eq_refl eq_refl).
  - refine (eq_trans (H2 (PyFinite false 125050 (-2)) eq_refl eq_refl) _).
    vm_compute. reflexivity.
Defined.

Lemma remove_commas_idempotent (s : string) :
  remove_commas (remove_commas s) = remove_commas s.
Proof.
  induction s as [|c s IH]; [reflexivity |].
  cbn [remove_commas]. destruct (Ascii.eqb c ",") eqn:E; [exact IH |].
  cbn [remove_commas]. rewrite E, IH. reflexivity.
Qed.

(** X14.  At an amount step the commas of the utterance do not count,
    wherever they stand: the utterance and the utterance without its commas
    have the same outcome and leave the same world. *)
Theorem commas_do_not_count
    {W} (svc : Services W) (fmt : Formatting) (account_types : list string)
    (n : numeric_step) (utterance : string) (w : World W) :
  step (conv w) = Some (ns_step n) ->
  handle (flow_handler svc fmt account_types (ns_flow n)) utterance w
  = handle (flow_handler svc fmt account_types (ns_flow n))
           (remove_commas utterance) w.
Proof.
  intros Hstep.
  rewrite !(handle_numeric_step svc fmt account_types n _ w Hstep).
  rewrite remove_commas_idempotent. reflexivity.
Qed.

Lemma commas_do_not_count_witness :
  handle (flow_handler (InMemory.services Sample.fmt) Sample.fmt
                       ["checking"; "savings"] MoneyTransfer)
         ",1,0,00" Sample.entering_amount
  = handle (flow_handler (InMemory.services Sample.fmt) Sample.fmt
                         ["checking"; "savings"] MoneyTransfer)
           (remove_commas ",1,0,00") Sample.entering_amount.
Proof.
  apply (commas_do_not_count (InMemory.services Sample.fmt) Sample.fmt
           ["checking"; "savings"] Amount ",1,0,00" Sample.entering_amount).
  reflexivity.
Defined.

(** ** The handlers the engine builds ([handlers.py], [engine.py]) *)

Lemma dedup_In (seen l : list string) (x : string) :
  In x (dedup seen l) <-> In x l /\ ~ In x seen.
Proof.
  revert seen. induction l as [|y l IH]; intros seen; cbn [dedup].
  - cbn. tauto.
  - destruct (mem y seen) eqn:E.
    + apply mem_In in E. rewrite IH. cbn. split.
      * intros [H1 H2]. tauto.
      * intros [[<- | H1] H2]; [contradiction | tauto].
    + apply mem_not_In in E. cbn [In]. rewrite IH. cbn [In]. split.
      * intros [<- | [H1 H2]]; [tauto |]. split; [tauto |].
        intros H. apply H2. right. exact H.
      * intros [[<- | H1] H2]; [left; reflexivity |].
        destruct (string_dec y x) as [<- | Hne]; [left; reflexivity |].
        right. split; [exact H1 |]. intros [H | H]; [contradiction | contradiction].
Qed.

Lemma dedup_NoDup (seen l : list string) : List.NoDup (dedup seen l).
Proof.
  revert seen. induction l as [|y l IH]; intros seen; cbn [dedup].
  - constructor.
  - destruct (mem y seen); [apply IH |].
    constructor; [| apply IH].
    rewrite dedup_In. intros [_ H]. apply H. left. reflexivity.
Qed.

(** X15.  The account types a handler is built with: each configured type
    in lower case, each once.  So a configured type is recognised whatever
    case the configuration writes it in, and the list of choices never
    repeats one. *)
Theorem account_types_are_lowered_and_distinct (account_types : list string) :
  List.NoDup (normalize_account_types account_types)
  /\ forall x,
       In x (normalize_account_types account_types)
       <-> exists t, In t account_types /\ lower t = x.
Proof.
  unfold normalize_account_types. split; [apply dedup_NoDup |].
  intros x. rewrite dedup_In, in_map_iff. cbn. split.
  - intros [[t [E Ht]] _]. exists t. split; assumption.
  - intros [t [Ht E]]. split; [exists t; split; assumption | tauto].
Qed.

Lemma configured_account_types_none (intents : list IntentConfig) :
  (forall i, In i intents -> handler i <> "account_opening") ->
  configured_account_types intents = [].
Proof.
  induction intents as [|i l IH]; intros H; cbn [configured_account_types].
  - reflexivity.
  - rewrite (proj2 (String.eqb_neq _ _) (H i (or_introl eq_refl))).
    apply IH. intros j Hj. apply H. right. exact Hj.
Qed.

Lemma configured_account_types_first
    (before after : list IntentConfig) (i : IntentConfig) :
  (forall j, In j before -> handler j <> "account_opening") ->
  handler i = "account_opening" ->
  configured_account_types (before ++ i :: after)%list
  = default [] (entities i !! "account_type").
Proof.
  intros Hb Hi. induction before as [|j l IH]; cbn [configured_account_types app].
  - rewrite Hi. reflexivity.
  - rewrite (proj2 (String.eqb_neq _ _) (Hb j (or_introl eq_refl))).
    apply IH. intros k Hk. apply Hb. right. exact Hk.
Qed.

Lemma normalize_nonempty (l : list string) :
  l <> [] -> normalize_account_types l <> [].
Proof.
  destruct l as [|x l]; [contradiction |]. intros _.
  unfold normalize_account_types. cbn. discriminate.
Qed.

(** X16.  The account types of the engine's account-opening handler come
    from the first intent of the catalog handled by "account_opening", and
    from that one only; when there is no such intent, or it lists no
    account type, they are "checking" and "savings".  In every case the
    handler has at least one type to offer. *)
Theorem engine_account_types
    (intents : list IntentConfig) :
  normalize_account_types (account_types_or_default intents) <> []
  /\ ((forall i, In i intents -> handler i <> "account_opening") ->
      normalize_account_types (account_types_or_default intents)
      = ["checking"; "savings"])
  /\ (forall before i after,
         intents = (before ++ i :: after)%list ->
         (forall j, In j before -> handler j <> "account_opening") ->
         handler i = "account_opening" ->
         normalize_account_types (account_types_or_default intents)
         = match entities i !! "account_type" with
           | None | Some [] => ["checking"; "savings"]
           | Some l => normalize_account_types l
           end).
Proof.
  repeat split.
  - apply normalize_nonempty. unfold account_types_or_default.
    destruct (configured_account_types intents); discriminate.
  - intros H. unfold account_types_or_default.
    rewrite (configured_account_types_none intents H). reflexivity.
  - intros before i after -> Hb Hi. unfold account_types_or_default.
    rewrite (configured_account_types_first before after i Hb Hi).
    destruct (entities i !! "account_type") as [[|x l]|]; reflexivity.
Qed.

Lemma engine_account_types_witness :
  normalize_account_types
    (account_types_or_default
       [mkIntent "money_transfer" "money_transfer" ["transfer"] ∅;
        mkIntent "account_opening" "account_opening" ["open account"]
                 {[ "account_type" := ["Checking"; "Savings"; "CHECKING"; "Youth"] ]};
        mkIntent "business_account" "account_opening" ["business"]
                 {[ "account_type" := ["business"] ]}])
  = ["checking"; "savings"; "youth"].
Proof.
  pose proof (engine_account_types
                [mkIntent "money_transfer" "money_transfer" ["transfer"] ∅;
                 mkIntent "account_opening" "account_opening" ["open account"]
                          {[ "account_type" := ["Checking"; "Savings"; "CHECKING"; "Youth"] ]};
                 mkIntent "business_account" "account_opening" ["business"]
                          {[ "account_type" := ["business"] ]}]) as [_ [_ H]].
  refine (eq_trans
            (H [mkIntent "money_transfer" "money_transfer" ["transfer"] ∅]
               (mkIntent "account_opening" "account_opening" ["open account"]
                         {[ "account_type" := ["Checking"; "Savings"; "CHECKING"; "Youth"] ]})
               [mkIntent "business_account" "account_opening" ["business"]
                         {[ "account_type" := ["business"] ]}]
               eq_refl _ eq_refl) _).
  - intros j [<- | []]. discriminate.
  - vm_compute. reflexivity.
Defined.

(** X17.  The engine registers exactly three handlers, each under the
    handler key it writes into the state when it starts.  So looking up
    the key that [start] left in the state finds the very handler that
    started the flow, and a key other than the three finds none. *)
Theorem registry_is_keyed_by_handler_key
    {W} (svc : Services W) (fmt : Formatting) (intents : list IntentConfig)
    (key : string) :
  (forall h, handlers_get svc fmt intents key = Some h ->
             hd_handler_key h = key
             /\ forall w, handlers_get svc fmt intents
                            (default "" (handler_key (conv (snd (start h w)))))
                          = Some h)
  /\ (handlers_get svc fmt intents key = None
      <-> key <> "account_opening" /\ key <> "money_transfer"
          /\ key <> "advisor_message").
Proof.
  split.
  - intros h H. apply handlers_get_Some in H as [f [-> ->]]. split.
    + destruct f; reflexivity.
    + intros w. unfold engine_handler. rewrite start_flow_handler.
      cbn [snd conv started handler_key].
      change (default "" (Some (flow_key f))) with (flow_key f).
      apply handlers_get_flow.
  - split.
    + intros H. repeat split; intros ->.
      * pose proof (handlers_get_flow svc fmt intents AccountOpening) as K.
        cbn [flow_key] in K. congruence.
      * pose proof (handlers_get_flow svc fmt intents MoneyTransfer) as K.
        cbn [flow_key] in K. congruence.
      * pose proof (handlers_get_flow svc fmt intents AdvisorMessaging) as K.
        cbn [flow_key] in K. congruence.
    + intros [H1 [H2 H3]]. apply handlers_get_None. intros f. destruct f; assumption.
Qed.

Lemma account_types_are_lowered_and_distinct_witness :
  List.NoDup (normalize_account_types ["Checking"; "checking"; "Savings"])
  /\ In "savings" (normalize_account_types ["Checking"; "checking"; "Savings"]).
Proof.
  destruct (account_types_are_lowered_and_distinct
              ["Checking"; "checking"; "Savings"]) as [H1 H2].
  split; [exact H1 |]. apply H2. exists "Savings".
  split; [cbn; tauto | reflexivity].
Defined.

Lemma registry_is_keyed_by_handler_key_witness :
  handlers_get (InMemory.services Sample.fmt) Sample.fmt Sample.intents
               "loan_request" = None.
Proof.
  apply (proj2 (registry_is_keyed_by_handler_key
                  (InMemory.services Sample.fmt) Sample.fmt Sample.intents
                  "loan_request")).
  repeat split; discriminate.
Defined.

(** ** When the services are called *)

Lemma quiet_read_only {W A} (m : M W A) : read_only m -> quiet m.
Proof. intros H w. rewrite (H w). split; reflexivity. Qed.

Lemma quiet_modify_state {W} (g : ConversationState -> ConversationState) :
  quiet (@modify_state W g).
Proof. intros w. split; reflexivity. Qed.

Lemma quiet_bind {W A B} (m : M W A) (k : A -> M W B) :
  quiet m -> (forall a, quiet (k a)) -> quiet (bind m k).
Proof.
  intros Hm Hk w. unfold bind. specialize (Hm w).
  destruct (m w) as [[a|e] w']; cbn [snd] in *.
  - destruct (Hk a w') as [H1 H2]. destruct Hm as [H3 H4].
    split; congruence.
  - exact Hm.
Qed.

Ltac prove_quiet :=
  repeat first
    [ apply quiet_modify_state
    | apply quiet_read_only;
      first [ apply read_only_ret | apply read_only_raise | apply read_only_get_state
            | apply read_only_slot | apply ao_prompt_read_only
            | apply mt_prompt_read_only | apply am_prompt_read_only ]
    | apply quiet_bind; [| intros ?]
    | match goal with
      | |- quiet (if ?b then _ else _) => destruct b
      | |- quiet (match ?o with Some _ => _ | None => _ end) => destruct o
      end ].

Lemma quiet_start {W} (svc : Services W) (fmt : Formatting)
    (account_types : list string) (f : flow) :
  quiet (start (flow_handler svc fmt account_types f)).
Proof.
  intros w. rewrite start_flow_handler. split; reflexivity.
Qed.

Lemma quiet_reset_if_completed {W} (r : HandlerResult) :
  quiet (@reset_if_completed W r).
Proof.
  unfold reset_if_completed, reset. destruct (completed r); prove_quiet.
Qed.

Lemma step_is_inv (st : ConversationState) (s : string) :
  step_is st s = true -> step st = Some s.
Proof. unfold step_is. intros H. apply bool_decide_eq_true in H. exact H. Qed.

Lemma collecting_steps_quiet
    {W} (fmt : Formatting) (account_types : list string) (utterance : string) :
  quiet (@ao_handle_full_name W fmt account_types utterance)
  /\ quiet (@ao_handle_account_type W fmt account_types utterance)
  /\ quiet (@ao_handle_initial_deposit W fmt account_types utterance)
  /\ quiet (@mt_handle_from_account W fmt utterance)
  /\ quiet (@mt_handle_to_account W fmt utterance)
  /\ quiet (@mt_handle_amount W fmt utterance)
  /\ quiet (@am_handle_topic W fmt utterance)
  /\ quiet (@am_handle_message W fmt utterance).
Proof.
  unfold ao_handle_full_name, ao_handle_account_type, ao_handle_initial_deposit,
    mt_handle_from_account, mt_handle_to_account, mt_handle_amount,
    am_handle_topic, am_handle_message, store_slot.
  cbv zeta. repeat apply conj; prove_quiet.
Qed.

Lemma handle_quiet_before_confirmation
    {W} (svc : Services W) (fmt : Formatting) (account_types : list string)
    (f : flow) (utterance : string) (w : World W) :
  step (conv w) <> Some (flow_confirm_step f) ->
  ext (snd (handle (flow_handler svc fmt account_types f) utterance w)) = ext w
  /\ calls (snd (handle (flow_handler svc fmt account_types f) utterance w))
     = calls w.
Proof.
  intros Hstep.
  destruct (collecting_steps_quiet (W:=W) fmt account_types utterance)
    as [Q1 [Q2 [Q3 [Q4 [Q5 [Q6 [Q7 Q8]]]]]]].
  destruct f; cbn [handle flow_handler flow_confirm_step AccountOpeningHandler
                   MoneyTransferHandler AdvisorMessagingHandler] in *;
    unfold ao_handle, mt_handle, am_handle; unfold bind, get_state;
    cbv beta iota.
  - destruct (step_is (conv w) "collect_full_name"); [apply Q1 |].
    destruct (step_is (conv w) "collect_account_type"); [apply Q2 |].
    destruct (step_is (conv w) "collect_initial_deposit"); [apply Q3 |].
    destruct (step_is (conv w) "confirm_submission") eqn:E;
      [exfalso; apply Hstep; apply step_is_inv; exact E |].
    split; reflexivity.
  - destruct (step_is (conv w) "collect_from_account"); [apply Q4 |].
    destruct (step_is (conv w) "collect_to_account"); [apply Q5 |].
    destruct (step_is (conv w) "collect_amount"); [apply Q6 |].
    destruct (step_is (conv w) "confirm_transfer") eqn:E;
      [exfalso; apply Hstep; apply step_is_inv; exact E |].
    split; reflexivity.
  - destruct (step_is (conv w) "collect_topic"); [apply Q7 |].
    destruct (step_is (conv w) "collect_message"); [apply Q8 |].
    destruct (step_is (conv w) "confirm_message") eqn:E;
      [exfalso; apply Hstep; apply step_is_inv; exact E |].
    split; reflexivity.
Qed.

Lemma confirmation_without_yes
    {W} (svc : Services W) (f : flow) (utterance : string) (w : World W) :
  ~ In (lower (strip utterance)) (affirmative f) ->
  snd (confirmation svc f utterance w) = w.
Proof.
  intros Hy. destruct (mem (lower (strip utterance)) negative) eqn:E.
  - apply mem_In in E. rewrite (confirmation_negative svc f utterance w E).
    reflexivity.
  - apply mem_not_In in E. rewrite (confirmation_unclear svc f utterance w Hy E).
    reflexivity.
Qed.

Lemma handle_calls
    {W} (svc : Services W) (fmt : Formatting) (account_types : list string)
    (f : flow) (utterance : string) (w : World W) :
  let w' := snd (handle (flow_handler svc fmt account_types f) utterance w) in
  (ext w' = ext w /\ calls w' = calls w)
  \/ (exists c,
         step (conv w) = Some (flow_confirm_step f)
         /\ In (lower (strip utterance)) (affirmative f)
         /\ commit_call f (slots (conv w)) = Some c
         /\ w' = mkWorld (conv w) (snd (run_service svc c (ext w)))
                         (calls w ++ [c])%list).
Proof.
  cbv zeta.
  destruct (decide (step (conv w) = Some (flow_confirm_step f))) as [Hstep | Hstep].
  2: { left. apply handle_quiet_before_confirmation. exact Hstep. }
  rewrite (handle_at_confirm_step svc fmt account_types f utterance w Hstep).
  destruct (mem (lower (strip utterance)) (affirmative f)) eqn:Hyes.
  2: { left. apply mem_not_In in Hyes.
       rewrite (confirmation_without_yes svc f utterance w Hyes).
       split; reflexivity. }
  apply mem_In in Hyes.
  destruct (commit_call f (slots (conv w))) as [c|] eqn:Hc.
  - right. exists c. repeat split; try assumption.
    destruct (run_service svc c (ext w)) as [r e] eqn:Hr.
    rewrite (confirmation_affirmative svc f utterance w c r e Hyes Hc Hr).
    reflexivity.
  - left. destruct (confirmation_missing_slot svc f utterance w Hyes Hc)
      as [key [_ E]].
    rewrite E. split; reflexivity.
Qed.

Lemma maybe_reroute_cases
    {W} (svc : Services W) (fmt : Formatting) (intents : list IntentConfig)
    (utterance : string) (w : World W) :
  maybe_reroute svc fmt intents utterance w = (Ret None, w)
  \/ (exists o w',
         maybe_reroute svc fmt intents utterance w = (o, w')
         /\ o <> Ret None
         /\ ext w' = ext w /\ calls w' = calls w
         /\ (conv w' = conv w \/ exists f, conv w' = started f)).
Proof.
  unfold maybe_reroute.
  destruct (IntentRouter.match_ intents utterance) as [i|]; run_monad;
    [| left; reflexivity].
  destruct (bool_decide (Some (handler i) <> handler_key (conv w)));
    [| left; reflexivity].
  right. destruct (handlers_get svc fmt intents (handler i)) as [h|] eqn:E.
  - apply handlers_get_Some in E as [f [_ ->]]. run_monad.
    unfold engine_handler. rewrite start_flow_handler. cbn.
    eexists. eexists. split; [reflexivity |].
    split; [discriminate |]. repeat split. right. exists f. reflexivity.
  - eexists. eexists. split; [reflexivity |].
    split; [discriminate |]. repeat split. left. reflexivity.
Qed.

Lemma flow_key_of_default (key : option string) (f : flow) :
  default "" key = flow_key f -> key = Some (flow_key f).
Proof.
  destruct key as [k|]; cbn; [intros ->; reflexivity |].
  destruct f; discriminate.
Qed.

Lemma route_to_handler_calls
    {W} (svc : Services W) (fmt : Formatting) (intents : list IntentConfig)
    (utterance : string) (w : World W) :
  let w' := snd (route_to_handler svc fmt intents utterance w) in
  (ext w' = ext w /\ calls w' = calls w)
  \/ (exists f c,
         active (conv w) = true
         /\ handler_key (conv w) = Some (flow_key f)
         /\ step (conv w) = Some (flow_confirm_step f)
         /\ In (lower (strip utterance)) (affirmative f)
         /\ commit_call f (slots (conv w)) = Some c
         /\ w' = mkWorld (conv w) (snd (run_service svc c (ext w)))
                         (calls w ++ [c])%list).
Proof.
  cbv zeta. unfold route_to_handler. run_monad.
  destruct (active (conv w)) eqn:Hact; cbn [negb].
  - destruct (handlers_get svc fmt intents (default "" (handler_key (conv w))))
      as [h|] eqn:E; [| left; split; reflexivity].
    apply handlers_get_Some in E as [f [Hk ->]].
    apply flow_key_of_default in Hk.
    pose proof (handle_calls svc fmt
                  (normalize_account_types (account_types_or_default intents))
                  f utterance w) as H.
    cbv zeta in H. unfold engine_handler.
    destruct (handle (flow_handler svc fmt
                        (normalize_account_types (account_types_or_default intents)) f)
                     utterance w) as [[r|x] w1]; cbn [snd] in *;
      (destruct H as [H | [c [H1 [H2 [H3 H4]]]]];
       [left; exact H | right; exists f, c; repeat split; assumption]).
  - left. destruct (IntentRouter.match_ intents utterance) as [i|];
      [| split; reflexivity].
    destruct (handlers_get svc fmt intents (handler i)) as [h|] eqn:E;
      [| split; reflexivity].
    apply handlers_get_Some in E as [f [_ ->]].
    unfold engine_handler. rewrite start_flow_handler. split; reflexivity.
Qed.

(** X18.  A turn of the engine calls a service at most once, and only to
    commit: when the conversation is at the confirmation step of an active
    flow, the answer is one of that handler's affirmative words, and all
    the slots of the flow are there.  The call is then the flow's commit
    with the collected values.  In every other turn - blank, cancel,
    routing, rerouting, collecting, declining, failing - the services and
    the record of calls are after the turn what they were before. *)
Theorem services_are_called_only_to_commit
    {W} (svc : Services W) (fmt : Formatting) (intents : list IntentConfig)
    (utterance : string) (w : World W) :
  let w' := snd (handle_message svc fmt intents utterance w) in
  (ext w' = ext w /\ calls w' = calls w)
  \/ (exists f c,
         active (conv w) = true
         /\ handler_key (conv w) = Some (flow_key f)
         /\ step (conv w) = Some (flow_confirm_step f)
         /\ In (lower (strip utterance)) (affirmative f)
         /\ commit_call f (slots (conv w)) = Some c
         /\ ext w' = snd (run_service svc c (ext w))
         /\ calls w' = (calls w ++ [c])%list).
Proof.
  cbv zeta.
  pose (P := fun w' : World W =>
    (ext w' = ext w /\ calls w' = calls w)
    \/ (exists f c,
           active (conv w) = true
           /\ handler_key (conv w) = Some (flow_key f)
           /\ step (conv w) = Some (flow_confirm_step f)
           /\ In (lower (strip utterance)) (affirmative f)
           /\ commit_call f (slots (conv w)) = Some c
           /\ ext w' = snd (run_service svc c (ext w))
           /\ calls w' = (calls w ++ [c])%list)).
  change (P (snd (handle_message svc fmt intents utterance w))).
  assert (Hquiet : forall w', ext w' = ext w -> calls w' = calls w -> P w').
  { intros w' H1 H2. left. split; assumption. }
  assert (Hroute :
    P (snd ((let! routed := route_to_handler svc fmt intents utterance in
             let result := snd routed in
             let! _ := reset_if_completed result in
             ret (reply result)) w))).
  { pose proof (route_to_handler_calls svc fmt intents utterance w) as H.
    cbv zeta in H. unfold bind.
    destruct (route_to_handler svc fmt intents utterance w) as [[[h r]|x] w1];
      cbn [snd] in *.
    - destruct (quiet_reset_if_completed r w1) as [Q1 Q2].
      destruct (reset_if_completed r w1) as [[[]|x] w2]; unfold ret;
        cbn [snd] in *;
        (destruct H as [[H1 H2] | [f [c [H1 [H2 [H3 [H4 [H5 H6]]]]]]]];
         [apply Hquiet; congruence
         | right; exists f, c; subst w1; cbn [ext calls] in *;
           repeat split; try assumption; congruence]).
    - destruct H as [[H1 H2] | [f [c [H1 [H2 [H3 [H4 [H5 H6]]]]]]]];
        [apply Hquiet; assumption |].
      right. exists f, c. subst w1. repeat split; assumption. }
  unfold handle_message.
  destruct (is_empty (strip utterance)); [apply Hquiet; reflexivity |].
  destruct (mem (lower (strip utterance)) cancel_keywords);
    [apply Hquiet; reflexivity |].
  unfold bind at 1. unfold get_state at 1. cbv beta iota.
  destruct (active (conv w)) eqn:Hact.
  - unfold bind at 1.
    destruct (maybe_reroute_cases svc fmt intents utterance w)
      as [E | [o [w1 [E [Ho [H1 [H2 _]]]]]]]; rewrite E.
    + exact Hroute.
    + destruct o as [[text|]|x]; cbn [snd];
        try (apply Hquiet; assumption). contradiction Ho. reflexivity.
  - exact Hroute.
Qed.

(** ** Slots within a flow *)

Lemma keeps_slots_read_only {W A} (m : M W A) : read_only m -> keeps_slots m.
Proof. intros H w key Hk. rewrite (H w). exact Hk. Qed.

Lemma keeps_slots_bind {W A B} (m : M W A) (k : A -> M W B) :
  keeps_slots m -> (forall a, keeps_slots (k a)) -> keeps_slots (bind m k).
Proof.
  intros Hm Hk w key Hs. unfold bind. specialize (Hm w key Hs).
  destruct (m w) as [[a|e] w']; cbn [snd] in *.
  - apply Hk. exact Hm.
  - exact Hm.
Qed.

Lemma keeps_slots_store_slot {W} (key : string) (v : value) :
  keeps_slots (@store_slot W key v).
Proof.
  intros w k Hk. cbn. apply lookup_insert_is_Some.
  destruct (decide (key = k)); [left; assumption | right; split; assumption].
Qed.

Lemma keeps_slots_set_step {W} (s : option string) :
  keeps_slots (@modify_state W (set_step s)).
Proof. intros w k Hk. exact Hk. Qed.

Lemma keeps_slots_call_service {W} (c : service_call) (r : W -> outcome string * W) :
  keeps_slots (call_service c r).
Proof.
  intros w k Hk. unfold call_service. destruct (r (ext w)). exact Hk.
Qed.

Ltac prove_keeps_slots :=
  repeat first
    [ apply keeps_slots_store_slot
    | apply keeps_slots_set_step
    | apply keeps_slots_call_service
    | apply keeps_slots_read_only;
      first [ apply read_only_ret | apply read_only_raise | apply read_only_get_state
            | apply read_only_slot | apply ao_prompt_read_only
            | apply mt_prompt_read_only | apply am_prompt_read_only ]
    | apply keeps_slots_bind; [| intros ?]
    | match goal with
      | |- keeps_slots (if ?b then _ else _) => destruct b
      | |- keeps_slots (match ?o with Some _ => _ | None => _ end) => destruct o
      end ].

(** X19.  Within a flow the slots only grow: whatever step a handler
    handles and whatever the utterance, every slot that was filled before
    the turn is filled after it, also when the turn raises.  (Slots are
    emptied by [start] and by [reset] only.) *)
Theorem handlers_never_remove_a_slot
    {W} (svc : Services W) (fmt : Formatting) (account_types : list string)
    (f : flow) (utterance : string) (w : World W) (key : string) :
  is_Some (slots (conv w) !! key) ->
  is_Some (slots (conv (snd (handle (flow_handler svc fmt account_types f)
                                    utterance w))) !! key).
Proof.
  revert w key.
  change (keeps_slots (handle (flow_handler svc fmt account_types f) utterance)).
  destruct f; cbn [handle flow_handler AccountOpeningHandler MoneyTransferHandler
                   AdvisorMessagingHandler].
  - unfold ao_handle, ao_handle_full_name, ao_handle_account_type,
      ao_handle_initial_deposit, ao_handle_confirmation, call_open_account.
    cbv zeta. prove_keeps_slots.
  - unfold mt_handle, mt_handle_from_account, mt_handle_to_account,
      mt_handle_amount, mt_handle_confirmation, call_transfer.
    cbv zeta. prove_keeps_slots.
  - unfold am_handle, am_handle_topic, am_handle_message,
      am_handle_confirmation, call_send_message.
    cbv zeta. prove_keeps_slots.
Qed.

Lemma handlers_never_remove_a_slot_witness :
  is_Some (slots (conv (snd (handle
                               (flow_handler (InMemory.services Sample.fmt)
                                             Sample.fmt ["checking"; "savings"]
                                             MoneyTransfer)
                               "SAV-002" Sample.choosing_destination)))
           !! "from_account").
Proof.
  apply (handlers_never_remove_a_slot (InMemory.services Sample.fmt) Sample.fmt
           ["checking"; "savings"] MoneyTransfer "SAV-002"
           Sample.choosing_destination "from_account").
  vm_compute. eexists. reflexivity.
Defined.

(** ** The states and the exceptions of a conversation *)

Lemma handle_text_step
    {W} (svc : Services W) (fmt : Formatting) (account_types : list string)
    (t : text_step) (utterance : string) (w : World W) :
  step (conv w) = Some (ts_step t) ->
  handle (flow_handler svc fmt account_types (ts_flow t)) utterance w
  = if is_empty (strip utterance)
    then (Ret (failure (ts_blank_reply t)), w)
    else prompt_for_current_step
           (flow_handler svc fmt account_types (ts_flow t))
           (advanced (ts_slot t) (VStr (strip utterance)) (ts_next t) w).
Proof.
  intros Hstep.
  destruct t; cbn [handle flow_handler ts_flow prompt_for_current_step
                   AccountOpeningHandler MoneyTransferHandler
                   AdvisorMessagingHandler] in *;
    unfold ao_handle, mt_handle, am_handle; run_monad; decide_steps Hstep;
    unfold ao_handle_full_name, mt_handle_from_account, am_handle_topic,
           am_handle_message; cbv zeta;
    destruct (is_empty (strip utterance)); reflexivity.
Qed.

Lemma handle_account_type_step
    {W} (svc : Services W) (fmt : Formatting) (account_types : list string)
    (utterance : string) (w : World W) :
  step (conv w) = Some "collect_account_type" ->
  handle (AccountOpeningHandler svc fmt account_types) utterance w
  = if mem (lower (strip utterance)) account_types
    then prompt_for_current_step
           (AccountOpeningHandler svc fmt account_types)
           (advanced "account_type" (VStr (lower (strip utterance)))
                     "collect_initial_deposit" w)
    else (Ret (failure
                 ("I didn't recognize that account type. Please choose one of the following: "
                  ++ choices fmt account_types ++ ".")),
          w).
Proof.
  intros Hstep. cbn [handle prompt_for_current_step AccountOpeningHandler].
  unfold ao_handle. run_monad. decide_steps Hstep. unfold ao_handle_account_type.
  cbv zeta. destruct (mem (lower (strip utterance)) account_types); reflexivity.
Qed.

Lemma handle_destination_step
    {W} (svc : Services W) (fmt : Formatting) (utterance : string) (w : World W) :
  step (conv w) = Some "collect_to_account" ->
  handle (MoneyTransferHandler svc fmt) utterance w
  = if is_empty (strip utterance)
    then (Ret (failure "Please tell me where to send the money."), w)
    else if equals_slot (strip utterance) (slots (conv w) !! "from_account")
    then (Ret (failure "The destination must be different from the source account. Where should the funds go?"),
          w)
    else prompt_for_current_step
           (MoneyTransferHandler svc fmt)
           (advanced "to_account" (VStr (strip utterance)) "collect_amount" w).
Proof.
  intros Hstep. cbn [handle prompt_for_current_step MoneyTransferHandler].
  unfold mt_handle. run_monad. decide_steps Hstep. unfold mt_handle_to_account.
  cbv zeta. destruct (is_empty (strip utterance)); [reflexivity |]. run_monad.
  destruct (equals_slot (strip utterance) (slots (conv w) !! "from_account"));
    reflexivity.
Qed.

Lemma has_slot_insert_same (sl : gmap string value) (key : string) (v : value) :
  has_slot (<[key := v]> sl) (key, kind_of v).
Proof.
  unfold has_slot. cbn [fst snd]. rewrite lookup_insert_eq.
  destruct v; cbn; eexists; reflexivity.
Qed.

Lemma has_slot_insert_other (sl : gmap string value) (key : string) (v : value)
    (ks : string * slot_kind) :
  fst ks <> key -> has_slot sl ks -> has_slot (<[key := v]> sl) ks.
Proof.
  intros Hne. unfold has_slot. rewrite lookup_insert_ne by congruence. tauto.
Qed.

Lemma advanced_in_flow {W} (f : flow) (n : nat) (w : World W)
    (key next : string) (v : value) :
  in_flow_at f n (conv w) ->
  nth_error (flow_slots f) n = Some (key, kind_of v) ->
  nth_error (flow_steps f) (S n) = Some next ->
  in_flow_at f (S n) (conv (advanced key v next w)).
Proof.
  intros (Hi & Hk & Hs & Hn & Hsl) Hslot Hnext.
  unfold in_flow_at. cbn [advanced conv intent_name handler_key step slots
                          set_step set_slots].
  repeat split; try assumption.
  - rewrite Hnext. reflexivity.
  - discriminate.
  - destruct f; destruct n as [|[|[|[|n]]]]; cbn in Hslot, Hsl |- *;
      try discriminate Hslot; injection Hslot as <- Hkind;
      repeat match goal with
             | H : Forall _ (_ :: _) |- _ => inversion H; subst; clear H
             end;
      repeat (constructor; try (apply has_slot_insert_other; [discriminate | assumption]));
      try (rewrite Hkind; apply has_slot_insert_same).
Qed.

Ltac split_slots :=
  repeat match goal with
         | H : Forall _ (_ :: _) |- _ => inversion H; subst; clear H
         | H : Forall _ [] |- _ => clear H
         | H : has_slot _ (_, _) |- _ =>
             unfold has_slot in H; cbn [fst snd] in H; destruct H as [? H]
         end.

Lemma prompt_in_flow {W} (svc : Services W) (fmt : Formatting)
    (account_types : list string) (f : flow) (n : nat) (w : World W) :
  in_flow_at f n (conv w) ->
  exists r, prompt_for_current_step (flow_handler svc fmt account_types f) w
            = (Ret r, w).
Proof.
  intros (Hi & Hk & Hs & Hn & Hsl).
  destruct f; destruct n as [|[|[|[|[|n]]]]]; cbn in Hs, Hsl;
    try (rewrite Hs in Hn; contradiction Hn; reflexivity);
    cbn [prompt_for_current_step flow_handler AccountOpeningHandler
         MoneyTransferHandler AdvisorMessagingHandler];
    unfold ao_prompt_for_current_step, mt_prompt_for_current_step,
           am_prompt_for_current_step; run_monad; decide_steps Hs;
    split_slots;
    repeat (match goal with
            | H : slots (conv w) !! _ = Some _ |- _ => rewrite H
            end;
            cbv beta iota; cbn [py_title py_format_2f]; unfold ret;
            cbv beta iota);
    eexists; reflexivity.
Qed.

Lemma turn_in_flow_stay {W} (svc : Services W) (f : flow) (utterance : string)
    (w : World W) (n : nat) (a : HandlerResult) :
  in_flow_at f n (conv w) -> turn_in_flow svc f utterance w (Ret a, w).
Proof.
  intros H. split; [exists n; exact H | intros x Hx; discriminate Hx].
Qed.

Lemma turn_in_flow_advance {W} (svc : Services W) (fmt : Formatting)
    (account_types : list string) (f : flow) (utterance : string) (w : World W)
    (n : nat) (key next : string) (v : value) :
  in_flow_at f n (conv w) ->
  nth_error (flow_slots f) n = Some (key, kind_of v) ->
  nth_error (flow_steps f) (S n) = Some next ->
  turn_in_flow svc f utterance w
    (prompt_for_current_step (flow_handler svc fmt account_types f)
                             (advanced key v next w)).
Proof.
  intros H Hslot Hnext.
  pose proof (advanced_in_flow f n w key next v H Hslot Hnext) as Ha.
  destruct (prompt_in_flow svc fmt account_types f (S n) _ Ha) as [r E].
  rewrite E. split; [exists (S n); exact Ha | intros x Hx; discriminate Hx].
Qed.

Lemma commit_call_in_flow (f : flow) (n : nat) (st : ConversationState) :
  in_flow_at f n st -> step st = Some (flow_confirm_step f) ->
  exists c, commit_call f (slots st) = Some c.
Proof.
  intros (Hi & Hk & Hs & Hn & Hsl) Hc. rewrite Hc in Hs.
  destruct f; destruct n as [|[|[|[|[|n]]]]]; cbn in Hs, Hsl; try discriminate Hs;
    split_slots; cbn [commit_call];
    repeat match goal with
           | H : slots st !! _ = Some _ |- _ => rewrite H; clear H
           end;
    eexists; reflexivity.
Qed.

Lemma turn_in_flow_confirm {W} (svc : Services W) (fmt : Formatting)
    (account_types : list string) (f : flow) (utterance : string) (w : World W)
    (n : nat) :
  in_flow_at f n (conv w) ->
  step (conv w) = Some (flow_confirm_step f) ->
  turn_in_flow svc f utterance w
    (handle (flow_handler svc fmt account_types f) utterance w).
Proof.
  intros H Hstep.
  rewrite (handle_at_confirm_step svc fmt account_types f utterance w Hstep).
  destruct (mem (lower (strip utterance)) (affirmative f)) eqn:Hyes.
  - apply mem_In in Hyes.
    destruct (commit_call_in_flow f n (conv w) H Hstep) as [c Hc].
    destruct (run_service svc c (ext w)) as [r e] eqn:Hr.
    rewrite (confirmation_affirmative svc f utterance w c r e Hyes Hc Hr).
    split; [exists n; exact H |].
    intros x Hx. exists c. rewrite Hr. cbn [fst] in *.
    repeat split; try assumption.
    destruct r; [discriminate Hx | injection Hx as ->; reflexivity].
  - apply mem_not_In in Hyes.
    destruct (mem (lower (strip utterance)) negative) eqn:Hno.
    + apply mem_In in Hno. rewrite (confirmation_negative svc f utterance w Hno).
      eapply turn_in_flow_stay. exact H.
    + apply mem_not_In in Hno.
      rewrite (confirmation_unclear svc f utterance w Hyes Hno).
      eapply turn_in_flow_stay. exact H.
Qed.

Lemma handle_in_flow {W} (svc : Services W) (fmt : Formatting)
    (account_types : list string) (f : flow) (utterance : string) (w : World W)
    (n : nat) :
  in_flow_at f n (conv w) ->
  turn_in_flow svc f utterance w
    (handle (flow_handler svc fmt account_types f) utterance w).
Proof.
  intros H. pose proof H as (Hi & Hk & Hs & Hn & Hsl).
  destruct f; destruct n as [|[|[|[|[|n]]]]]; cbn in Hs;
    try (rewrite Hs in Hn; contradiction Hn; reflexivity);
    try (apply (turn_in_flow_confirm svc fmt account_types _ utterance w _ H Hs)).
  - pose proof (handle_text_step svc fmt account_types FullName utterance w Hs) as E.
    cbn [ts_flow] in E. rewrite E.
    destruct (is_empty (strip utterance));
      [eapply turn_in_flow_stay; exact H
      | apply (turn_in_flow_advance svc fmt account_types _ utterance w 0 _ _
                 (VStr _) H); reflexivity].
  - pose proof (handle_account_type_step svc fmt account_types utterance w Hs) as E.
    cbn [flow_handler]. rewrite E.
    destruct (mem (lower (strip utterance)) account_types);
      [apply (turn_in_flow_advance svc fmt account_types AccountOpening utterance
                w 1 _ _ (VStr _) H); reflexivity
      | eapply turn_in_flow_stay; exact H].
  - pose proof (handle_numeric_step svc fmt account_types InitialDeposit utterance
                  w Hs) as E.
    cbn [ns_flow] in E. rewrite E.
    destruct (float_of_string (strip (remove_commas utterance))) as [x|];
      [| eapply turn_in_flow_stay; exact H].
    destruct (le_zero x); [eapply turn_in_flow_stay; exact H |].
    apply (turn_in_flow_advance svc fmt account_types _ utterance w 2 _ _
             (VFloat _) H); reflexivity.
  - pose proof (handle_text_step svc fmt account_types FromAccount utterance w Hs) as E.
    cbn [ts_flow] in E. rewrite E.
    destruct (is_empty (strip utterance));
      [eapply turn_in_flow_stay; exact H
      | apply (turn_in_flow_advance svc fmt account_types _ utterance w 0 _ _
                 (VStr _) H); reflexivity].
  - pose proof (handle_destination_step svc fmt utterance w Hs) as E.
    cbn [flow_handler]. rewrite E.
    destruct (is_empty (strip utterance)); [eapply turn_in_flow_stay; exact H |].
    destruct (equals_slot (strip utterance) (slots (conv w) !! "from_account"));
      [eapply turn_in_flow_stay; exact H |].
    apply (turn_in_flow_advance svc fmt account_types MoneyTransfer utterance
             w 1 _ _ (VStr _) H); reflexivity.
  - pose proof (handle_numeric_step svc fmt account_types Amount utterance w Hs) as E.
    cbn [ns_flow] in E. rewrite E.
    destruct (float_of_string (strip (remove_commas utterance))) as [x|];
      [| eapply turn_in_flow_stay; exact H].
    destruct (le_zero x); [eapply turn_in_flow_stay; exact H |].
    apply (turn_in_flow_advance svc fmt account_types _ utterance w 2 _ _
             (VFloat _) H); reflexivity.
  - pose proof (handle_text_step svc fmt account_types Topic utterance w Hs) as E.
    cbn [ts_flow] in E. rewrite E.
    destruct (is_empty (strip utterance));
      [eapply turn_in_flow_stay; exact H
      | apply (turn_in_flow_advance svc fmt account_types _ utterance w 0 _ _
                 (VStr _) H); reflexivity].
  - pose proof (handle_text_step svc fmt account_types Message utterance w Hs) as E.
    cbn [ts_flow] in E. rewrite E.
    destruct (is_empty (strip utterance));
      [eapply turn_in_flow_stay; exact H
      | apply (turn_in_flow_advance svc fmt account_types _ utterance w 1 _ _
                 (VStr _) H); reflexivity].
Qed.

Lemma handlers_get_None_inv
    {W} (svc : Services W) (fmt : Formatting) (intents : list IntentConfig)
    (key : string) :
  handlers_get svc fmt intents key = None -> forall f, key <> flow_key f.
Proof.
  intros H f ->. rewrite handlers_get_flow in H. discriminate H.
Qed.

Lemma well_formed_started (f : flow) : well_formed (started f).
Proof.
  right. exists f, 0. unfold in_flow_at. cbn.
  repeat split; try discriminate; destruct f; try reflexivity; try discriminate;
    constructor.
Qed.

Lemma well_formed_empty : well_formed empty_state.
Proof. left. repeat split. Qed.

Lemma well_formed_active (st : ConversationState) :
  well_formed st -> active st = true -> exists f n, in_flow_at f n st.
Proof.
  intros [[H1 _] | H] Ha; [| exact H].
  apply active_true in Ha as [Ha _]. contradiction.
Qed.

Lemma maybe_reroute_proper
    {W} (svc : Services W) (fmt : Formatting) (intents : list IntentConfig)
    (utterance : string) (w : World W) :
  well_formed (conv w) ->
  maybe_reroute svc fmt intents utterance w = (Ret None, w)
  \/ (exists text w',
         maybe_reroute svc fmt intents utterance w = (Ret (Some text), w')
         /\ well_formed (conv w'))
  \/ (exists x,
         maybe_reroute svc fmt intents utterance w = (Raise x, w)
         /\ fails_properly svc intents utterance w x).
Proof.
  intros Hwf. unfold maybe_reroute.
  destruct (IntentRouter.match_ intents utterance) as [i|] eqn:Hm; run_monad;
    [| left; reflexivity].
  destruct (bool_decide (Some (handler i) <> handler_key (conv w)));
    [| left; reflexivity].
  right. destruct (handlers_get svc fmt intents (handler i)) as [h|] eqn:E.
  - left. apply handlers_get_Some in E as [f [_ ->]]. run_monad.
    unfold engine_handler. rewrite start_flow_handler. cbn.
    eexists. eexists. split; [reflexivity | apply well_formed_started].
  - right. eexists. split; [reflexivity |].
    left. exists i. split; [exact Hm |].
    split; [apply (handlers_get_None_inv svc fmt intents _ E) | reflexivity].
Qed.

Lemma route_to_handler_proper
    {W} (svc : Services W) (fmt : Formatting) (intents : list IntentConfig)
    (utterance : string) (w : World W) :
  well_formed (conv w) ->
  proper_turn svc intents utterance w
    (route_to_handler svc fmt intents utterance w).
Proof.
  intros Hwf. destruct (active (conv w)) eqn:Hact.
  - destruct (well_formed_active _ Hwf Hact) as [f [n Hin]].
    pose proof Hin as (_ & Hk & _).
    rewrite (route_to_handler_active svc fmt intents utterance w f Hact Hk).
    pose proof (handle_in_flow svc fmt
                  (normalize_account_types (account_types_or_default intents))
                  f utterance w n Hin) as [[n' Hn'] Hx].
    unfold bind, engine_handler.
    destruct (handle (flow_handler svc fmt
                        (normalize_account_types (account_types_or_default intents)) f)
                     utterance w) as [[r|x] w1]; cbn [fst snd] in *.
    + split; [right; exists f, n'; exact Hn' | intros x Hx'; discriminate Hx'].
    + split; [right; exists f, n'; exact Hn' |].
      intros y Hy. injection Hy as <-.
      destruct (Hx x eq_refl) as [c [H1 [H2 [H3 H4]]]].
      right. exists f, c. repeat split; assumption.
  - unfold route_to_handler. run_monad. rewrite Hact. cbn [negb].
    destruct (IntentRouter.match_ intents utterance) as [i|] eqn:Hm.
    + destruct (handlers_get svc fmt intents (handler i)) as [h|] eqn:E.
      * apply handlers_get_Some in E as [f [_ ->]].
        unfold engine_handler. rewrite start_flow_handler.
        split; [apply well_formed_started | intros x Hx; discriminate Hx].
      * split; [exact Hwf |]. intros x Hx. injection Hx as <-.
        left. exists i. split; [exact Hm |].
        split; [apply (handlers_get_None_inv svc fmt intents _ E) | reflexivity].
    + split; [exact Hwf | intros x Hx; discriminate Hx].
Qed.

Lemma handle_message_proper
    {W} (svc : Services W) (fmt : Formatting) (intents : list IntentConfig)
    (utterance : string) (w : World W) :
  well_formed (conv w) ->
  proper_turn svc intents utterance w
    (handle_message svc fmt intents utterance w).
Proof.
  intros Hwf. unfold handle_message.
  destruct (is_empty (strip utterance));
    [split; [exact Hwf | intros x Hx; discriminate Hx] |].
  destruct (mem (lower (strip utterance)) cancel_keywords);
    [split; [apply well_formed_empty | intros x Hx; discriminate Hx] |].
  unfold bind at 1. unfold get_state at 1. cbv beta iota.
  assert (Hroute :
    proper_turn svc intents utterance w
      ((let! routed := route_to_handler svc fmt intents utterance in
        let result := snd routed in
        let! _ := reset_if_completed result in
        ret (reply result)) w)).
  { destruct (route_to_handler_proper svc fmt intents utterance w Hwf) as [H1 H2].
    unfold bind.
    destruct (route_to_handler svc fmt intents utterance w) as [[[h r]|x] w1];
      cbn [fst snd] in *.
    - unfold reset_if_completed, reset, modify_state, ret.
      destruct (completed r); cbn [fst snd conv];
        (split; [try apply well_formed_empty; try exact H1
                | intros x Hx; discriminate Hx]).
    - split; [exact H1 |]. intros y Hy. injection Hy as <-.
      apply (H2 x eq_refl). }
  destruct (active (conv w)).
  - unfold bind at 1.
    destruct (maybe_reroute_proper svc fmt intents utterance w Hwf)
      as [E | [[text [w' [E Hw']]] | [x [E Hx]]]]; rewrite E.
    + exact Hroute.
    + split; [exact Hw' | intros y Hy; discriminate Hy].
    + split; [exact Hwf |]. intros y Hy. injection Hy as <-. exact Hx.
  - exact Hroute.
Qed.

Lemma run_well_formed
    {W} (svc : Services W) (fmt : Formatting) (intents : list IntentConfig)
    (utterances : list string) (w : World W) :
  well_formed (conv w) ->
  well_formed (conv (run svc fmt intents utterances w)).
Proof.
  revert w. induction utterances as [|u us IH]; intros w H; cbn [run].
  - exact H.
  - apply IH. apply (handle_message_proper svc fmt intents u w H).
Qed.

(** X20.  Whatever is said in a conversation that starts from the empty
    state, and whether turns return or raise, the state is always one the
    engine can go on from: either no flow at all, or one of the three flows
    with the identity of its handler, at one of the steps the handler knows,
    with every slot of the earlier steps filled by a value of its kind (a
    text, or a float for the amounts).  So the unknown-step replies, the
    unregistered active handler and a missing slot at a confirmation are
    not met in a conversation. *)
Theorem conversation_states_are_well_formed
    {W} (svc : Services W) (fmt : Formatting) (intents : list IntentConfig)
    (services0 : W) (utterances : list string) :
  well_formed (conv (run svc fmt intents utterances
                         (mkWorld empty_state services0 []))).
Proof.
  apply run_well_formed. apply well_formed_empty.
Qed.

(** X21.  In a conversation that starts from the empty state a turn raises
    for two reasons only: the router matched an intent whose handler key is
    not registered, and the exception is the [HandlerNotFoundError] naming
    that key; or the flow was confirmed and the service raised at the
    commit, and the exception is the service's.  The handlers' own lookups
    and formatting never raise there. *)
Theorem conversation_raises_only_properly
    {W} (svc : Services W) (fmt : Formatting) (intents : list IntentConfig)
    (services0 : W) (utterances : list string) (utterance : string) (x : exn) :
  let w := run svc fmt intents utterances (mkWorld empty_state services0 []) in
  fst (handle_message svc fmt intents utterance w) = Raise x ->
  fails_properly svc intents utterance w x.
Proof.
  cbv zeta. intros H.
  apply (handle_message_proper svc fmt intents utterance _
           (run_well_formed svc fmt intents utterances
              (mkWorld empty_state services0 []) well_formed_empty)).
  exact H.
Qed.

Lemma conversation_raises_only_properly_witness :
  fails_properly (InMemory.services Sample.fmt)
    (Sample.intents ++ [mkIntent "loans" "loan_request" ["loan"] ∅])%list
    "I want a loan"
    (run (InMemory.services Sample.fmt) Sample.fmt
         (Sample.intents ++ [mkIntent "loans" "loan_request" ["loan"] ∅])%list
         ["open account"; "Jordan Doe"]
         (mkWorld empty_state InMemory.empty_store []))
    (HandlerNotFoundError "No handler registered for key 'loan_request'").
Proof.
  apply (conversation_raises_only_properly (InMemory.services Sample.fmt)
           Sample.fmt
           (Sample.intents ++ [mkIntent "loans" "loan_request" ["loan"] ∅])%list
           InMemory.empty_store ["open account"; "Jordan Doe"] "I want a loan").
  vm_compute. reflexivity.
Defined.

(** ** The router and letter case ([router.py]) *)

Lemma lower_char_idempotent (c : ascii) : lower_char (lower_char c) = lower_char c.
Proof. destruct c as [[] [] [] [] [] [] [] []]; reflexivity. Qed.

Lemma lower_idempotent (s : string) : lower (lower s) = lower s.
Proof.
  induction s as [|c s IH]; [reflexivity |].
  cbn [lower]. rewrite lower_char_idempotent, IH. reflexivity.
Qed.

Lemma is_empty_lower (s : string) : is_empty (lower s) = is_empty s.
Proof. destruct s; reflexivity. Qed.

Lemma lower_fixed_prefix (k b : string) :
  lower (k ++ b) = k ++ b -> lower k = k.
Proof.
  induction k as [|c k IH]; [intros _; reflexivity |].
  cbn. intros H. injection H as Hc Hk. rewrite Hc, (IH Hk). reflexivity.
Qed.

Lemma lower_fixed_substring (s k : string) :
  lower s = s -> occurs_in k s -> lower k = k.
Proof.
  intros Hs [a [b ->]]. revert Hs. induction a as [|c a IH]; simpl.
  - apply (lower_fixed_prefix k b).
  - intros H. injection H as _ H. apply IH. exact H.
Qed.

(** X22.  The router does not see the letter case of the utterance: an
    utterance and its lower-cased form get the same answer.  It does see
    the case of the keywords: the keyword that makes an intent match is
    always one written in lower case, so a keyword with a capital letter
    can never match anything. *)
Theorem router_ignores_case_of_utterance
    (intents : list IntentConfig) (utterance : string) :
  IntentRouter.match_ intents (lower utterance)
  = IntentRouter.match_ intents utterance
  /\ forall i, IntentRouter.match_ intents utterance = Some i ->
               exists k, In k (keywords i) /\ lower k = k
                         /\ occurs_in k (lower utterance).
Proof.
  split.
  - unfold IntentRouter.match_. rewrite is_empty_lower, lower_idempotent.
    reflexivity.
  - intros i H. unfold IntentRouter.match_ in H.
    destruct (is_empty utterance); [discriminate H |].
    apply scan_Some in H as [before [after [_ [[k [Hk Hocc]] _]]]].
    exists k. split; [exact Hk |]. split; [| exact Hocc].
    apply (lower_fixed_substring (lower utterance) k);
      [apply lower_idempotent | exact Hocc].
Qed.

Lemma router_ignores_case_of_utterance_witness :
  exists k, In k ["Transfer"; "send money"] /\ lower k = k
            /\ occurs_in k (lower "Please SEND MONEY to Bob").
Proof.
  destruct (router_ignores_case_of_utterance
              [mkIntent "money_transfer" "money_transfer"
                        ["Transfer"; "send money"] ∅]
              "Please SEND MONEY to Bob") as [_ H].
  apply (H (mkIntent "money_transfer" "money_transfer"
                     ["Transfer"; "send money"] ∅)).
  reflexivity.
Defined.

(** ** Whole conversations *)

Lemma handle_message_starts
    {W} (svc : Services W) (fmt : Formatting) (intents : list IntentConfig)
    (f : flow) (utterance : string) (w : World W) :
  active (conv w) = false ->
  opens intents f utterance ->
  handle_message svc fmt intents utterance w
  = (Ret (first_prompt f), mkWorld (started f) (ext w) (calls w)).
Proof.
  intros Hact (Hne & Hnc & i & Hm & Hf).
  rewrite (handle_message_inactive svc fmt intents utterance w Hne Hnc Hact).
  unfold route_to_handler. run_monad. rewrite Hact, Hm. cbn [negb].
  rewrite Hf, handlers_get_flow. unfold engine_handler.
  rewrite start_flow_handler. reflexivity.
Qed.

Lemma prompt_in_flow_text {W} (svc : Services W) (fmt : Formatting)
    (account_types : list string) (f : flow) (n : nat) (w : World W) :
  in_flow_at f n (conv w) ->
  exists text, prompt_for_current_step (flow_handler svc fmt account_types f) w
               = (Ret (prompt text), w).
Proof.
  intros (Hi & Hk & Hs & Hn & Hsl).
  destruct f; destruct n as [|[|[|[|[|n]]]]]; cbn in Hs, Hsl;
    try (rewrite Hs in Hn; contradiction Hn; reflexivity);
    cbn [prompt_for_current_step flow_handler AccountOpeningHandler
         MoneyTransferHandler AdvisorMessagingHandler];
    unfold ao_prompt_for_current_step, mt_prompt_for_current_step,
           am_prompt_for_current_step; run_monad; decide_steps Hs;
    split_slots;
    repeat (match goal with
            | H : slots (conv w) !! _ = Some _ |- _ => rewrite H
            end;
            cbv beta iota; cbn [py_title py_format_2f]; unfold ret;
            cbv beta iota);
    eexists; reflexivity.
Qed.

Lemma handle_message_collects
    {W} (svc : Services W) (fmt : Formatting) (intents : list IntentConfig)
    (f : flow) (n : nat) (utterance : string) (w : World W)
    (key next : string) (v : value) :
  in_flow_at f n (conv w) ->
  passes intents f utterance ->
  handle (engine_handler svc fmt intents f) utterance w
  = prompt_for_current_step (engine_handler svc fmt intents f)
                            (advanced key v next w) ->
  nth_error (flow_slots f) n = Some (key, kind_of v) ->
  nth_error (flow_steps f) (S n) = Some next ->
  in_flow_at f (S n) (conv (advanced key v next w))
  /\ exists text,
       handle_message svc fmt intents utterance w
       = (Ret text, advanced key v next w).
Proof.
  intros Hin (Hne & Hnc & Hroute) Hh Hslot Hnext.
  pose proof Hin as (Hi & Hk & _).
  pose proof (advanced_in_flow f n w key next v Hin Hslot Hnext) as Ha.
  split; [exact Ha |].
  assert (Hact : active (conv w) = true).
  { apply active_of_fields; [rewrite Hi | rewrite Hk]; discriminate. }
  assert (Hstay : stays_in_flow intents utterance (conv w)).
  { destruct Hroute as [H | [i [H Hf]]]; [left; exact H |].
    right. exists i. split; [exact H | rewrite Hk, Hf; reflexivity]. }
  rewrite (handle_message_continues svc fmt intents utterance w f
             (all_space_false_strip _ Hne) Hnc Hact Hk Hstay).
  unfold as_step_input, bind. rewrite Hh.
  destruct (prompt_in_flow_text svc fmt
              (normalize_account_types (account_types_or_default intents))
              f (S n) _ Ha) as [text E].
  unfold engine_handler. rewrite E. exists text. reflexivity.
Qed.

Lemma handle_message_commits
    {W} (svc : Services W) (fmt : Formatting) (intents : list IntentConfig)
    (f : flow) (utterance : string) (w : World W)
    (c : service_call) (id : string) (e : W) :
  intent_name (conv w) <> None ->
  handler_key (conv w) = Some (flow_key f) ->
  step (conv w) = Some (flow_confirm_step f) ->
  passes intents f utterance ->
  In (lower (strip utterance)) (affirmative f) ->
  commit_call f (slots (conv w)) = Some c ->
  run_service svc c (ext w) = (Ret id, e) ->
  handle_message svc fmt intents utterance w
  = (Ret (success_reply f id), mkWorld empty_state e (calls w ++ [c])%list).
Proof.
  intros Hname Hkey Hstep (Hne & Hnc & Hroute) Hyes Hc Hr.
  assert (Hstay : stays_in_flow intents utterance (conv w)).
  { destruct Hroute as [H | [i [H Hf]]]; [left; exact H |].
    right. exists i. split; [exact H | rewrite Hkey, Hf; reflexivity]. }
  rewrite (handle_message_at_confirm_step svc fmt intents f utterance w
             Hne Hnc Hname Hkey Hstep Hstay).
  unfold bind.
  rewrite (confirmation_affirmative svc f utterance w c (Ret id) e Hyes Hc Hr).
  reflexivity.
Qed.

Lemma in_flow_started (f : flow) : in_flow_at f 0 (started f).
Proof.
  unfold in_flow_at. cbn.
  repeat split; try discriminate; destruct f; try reflexivity; try discriminate;
    constructor.
Qed.

(** X23.  A whole transfer.  From any state without an active flow: an
    utterance that opens the transfer flow, then a source account, a
    destination that differs from it, an amount greater than zero and a
    yes - each handed to the flow by the engine - end with exactly one call
    of the transfer service, made with the trimmed source, the trimmed
    destination and the amount read; the reply carries the identifier the
    service returned and the state is cleared. *)
Theorem transfer_conversation_commits
    {W} (svc : Services W) (fmt : Formatting) (intents : list IntentConfig)
    (w : World W) (opening source destination amount yes : string)
    (x : pyfloat) (id : string) (e : W) :
  active (conv w) = false ->
  opens intents MoneyTransfer opening ->
  passes intents MoneyTransfer source ->
  passes intents MoneyTransfer destination ->
  passes intents MoneyTransfer amount ->
  passes intents MoneyTransfer yes ->
  strip destination <> strip source ->
  float_of_string (strip (remove_commas amount)) = Some x ->
  gt_zero x = true ->
  In (lower (strip yes)) ["yes"; "y"; "confirm"] ->
  transfer svc (VStr (strip source)) (VStr (strip destination)) (VFloat x) (ext w)
  = (Ret id, e) ->
  handle_message svc fmt intents yes
    (run svc fmt intents [opening; source; destination; amount] w)
  = (Ret ("Done! Transfer " ++ id ++ " is complete. Anything else I can help with?"),
     mkWorld empty_state e
       (calls w ++ [Transfer (VStr (strip source)) (VStr (strip destination))
                             (VFloat x)])%list).
Proof.
  intros Hact Hopen Hsrc Hdst Hamt Hyes Hdiff Hx Hpos Hword Hsvc.
  cbn [run].
  rewrite (handle_message_starts svc fmt intents MoneyTransfer opening w Hact Hopen).
  cbn [snd].
  set (w1 := mkWorld (started MoneyTransfer) (ext w) (calls w)).
  (* the source account *)
  destruct (handle_message_collects svc fmt intents MoneyTransfer 0 source w1
              "from_account" "collect_to_account" (VStr (strip source))
              (in_flow_started MoneyTransfer) Hsrc) as [Hin2 [t2 E2]];
    [ | reflexivity | reflexivity | ].
  { pose proof (handle_text_step svc fmt
                  (normalize_account_types (account_types_or_default intents))
                  FromAccount source w1 eq_refl) as E.
    rewrite (all_space_false_strip _ (proj1 Hsrc)) in E. exact E. }
  rewrite E2. cbn [snd].
  set (w2 := advanced "from_account" (VStr (strip source)) "collect_to_account" w1)
    in *.
  (* the destination account *)
  destruct (handle_message_collects svc fmt intents MoneyTransfer 1 destination w2
              "to_account" "collect_amount" (VStr (strip destination))
              Hin2 Hdst) as [Hin3 [t3 E3]];
    [ | reflexivity | reflexivity | ].
  { pose proof (handle_destination_step svc fmt destination w2 eq_refl) as E.
    rewrite (all_space_false_strip _ (proj1 Hdst)) in E.
    assert (Q : equals_slot (strip destination) (slots (conv w2) !! "from_account")
                = false).
    { subst w2 w1. cbn [advanced conv slots set_step set_slots started].
      rewrite lookup_insert_eq. cbn [equals_slot].
      apply String.eqb_neq. exact Hdiff. }
    rewrite Q in E. exact E. }
  rewrite E3. cbn [snd].
  set (w3 := advanced "to_account" (VStr (strip destination)) "collect_amount" w2)
    in *.
  (* the amount *)
  destruct (handle_message_collects svc fmt intents MoneyTransfer 2 amount w3
              "amount" "confirm_transfer" (VFloat x) Hin3 Hamt) as [Hin4 [t4 E4]];
    [ | reflexivity | reflexivity | ].
  { pose proof (handle_numeric_step svc fmt
                  (normalize_account_types (account_types_or_default intents))
                  Amount amount w3 eq_refl) as E.
    rewrite Hx in E.
    rewrite (proj2 (le_zero_false x) (or_introl Hpos)) in E. exact E. }
  rewrite E4. cbn [snd].
  (* the confirmation *)
  apply (handle_message_commits svc fmt intents MoneyTransfer yes
           (advanced "amount" (VFloat x) "confirm_transfer" w3)
           (Transfer (VStr (strip source)) (VStr (strip destination)) (VFloat x))
           id e); try reflexivity; try discriminate; try assumption.
Qed.

(** X24.  A whole account opening: opening utterance, name, one of the
    handler's account types in any letter case, a deposit greater than zero
    and a yes end with exactly one call of the account service, made with
    the trimmed name, the account type in lower case and the deposit read;
    the reply carries the new identifier and the state is cleared. *)
Theorem account_conversation_commits
    {W} (svc : Services W) (fmt : Formatting) (intents : list IntentConfig)
    (w : World W) (opening full_name account_type deposit yes : string)
    (x : pyfloat) (id : string) (e : W) :
  active (conv w) = false ->
  opens intents AccountOpening opening ->
  passes intents AccountOpening full_name ->
  passes intents AccountOpening account_type ->
  passes intents AccountOpening deposit ->
  passes intents AccountOpening yes ->
  In (lower (strip account_type))
     (normalize_account_types (account_types_or_default intents)) ->
  float_of_string (strip (remove_commas deposit)) = Some x ->
  gt_zero x = true ->
  In (lower (strip yes)) ["yes"; "y"; "confirm"] ->
  open_account svc (VStr (strip full_name)) (VStr (lower (strip account_type)))
               (VFloat x) (ext w)
  = (Ret id, e) ->
  handle_message svc fmt intents yes
    (run svc fmt intents [opening; full_name; account_type; deposit] w)
  = (Ret ("All set! Your new account (" ++ id
          ++ ") is ready. Is there anything else I can help you with?"),
     mkWorld empty_state e
       (calls w ++ [OpenAccount (VStr (strip full_name))
                                (VStr (lower (strip account_type)))
                                (VFloat x)])%list).
Proof.
  intros Hact Hopen Hname Htype Hdep Hyes Hlisted Hx Hpos Hword Hsvc.
  cbn [run].
  rewrite (handle_message_starts svc fmt intents AccountOpening opening w Hact Hopen).
  cbn [snd].
  set (w1 := mkWorld (started AccountOpening) (ext w) (calls w)).
  destruct (handle_message_collects svc fmt intents AccountOpening 0 full_name w1
              "full_name" "collect_account_type" (VStr (strip full_name))
              (in_flow_started AccountOpening) Hname) as [Hin2 [t2 E2]];
    [ | reflexivity | reflexivity | ].
  { pose proof (handle_text_step svc fmt
                  (normalize_account_types (account_types_or_default intents))
                  FullName full_name w1 eq_refl) as E.
    rewrite (all_space_false_strip _ (proj1 Hname)) in E. exact E. }
  rewrite E2. cbn [snd].
  set (w2 := advanced "full_name" (VStr (strip full_name)) "collect_account_type" w1)
    in *.
  destruct (handle_message_collects svc fmt intents AccountOpening 1 account_type w2
              "account_type" "collect_initial_deposit"
              (VStr (lower (strip account_type))) Hin2 Htype) as [Hin3 [t3 E3]];
    [ | reflexivity | reflexivity | ].
  { pose proof (handle_account_type_step svc fmt
                  (normalize_account_types (account_types_or_default intents))
                  account_type w2 eq_refl) as E.
    rewrite (proj2 (mem_In _ _) Hlisted) in E. exact E. }
  rewrite E3. cbn [snd].
  set (w3 := advanced "account_type" (VStr (lower (strip account_type)))
                      "collect_initial_deposit" w2) in *.
  destruct (handle_message_collects svc fmt intents AccountOpening 2 deposit w3
              "initial_deposit" "confirm_submission" (VFloat x) Hin3 Hdep)
    as [Hin4 [t4 E4]]; [ | reflexivity | reflexivity | ].
  { pose proof (handle_numeric_step svc fmt
                  (normalize_account_types (account_types_or_default intents))
                  InitialDeposit deposit w3 eq_refl) as E.
    rewrite Hx in E.
    rewrite (proj2 (le_zero_false x) (or_introl Hpos)) in E. exact E. }
  rewrite E4. cbn [snd].
  apply (handle_message_commits svc fmt intents AccountOpening yes
           (advanced "initial_deposit" (VFloat x) "confirm_submission" w3)
           (OpenAccount (VStr (strip full_name)) (VStr (lower (strip account_type)))
                        (VFloat x))
           id e); try reflexivity; try discriminate; try assumption.
Qed.

(** X25.  A whole advisor message: opening utterance, topic, message and a
    yes ("yes", "y" or "send") end with exactly one call of the messaging
    service, made with the trimmed topic and the trimmed message; the reply
    carries the ticket identifier and the state is cleared. *)
Theorem advisor_conversation_commits
    {W} (svc : Services W) (fmt : Formatting) (intents : list IntentConfig)
    (w : World W) (opening topic message yes : string) (id : string) (e : W) :
  active (conv w) = false ->
  opens intents AdvisorMessaging opening ->
  passes intents AdvisorMessaging topic ->
  passes intents AdvisorMessaging message ->
  passes intents AdvisorMessaging yes ->
  In (lower (strip yes)) ["yes"; "y"; "send"] ->
  send_message svc (VStr (strip topic)) (VStr (strip message)) (ext w)
  = (Ret id, e) ->
  handle_message svc fmt intents yes
    (run svc fmt intents [opening; topic; message] w)
  = (Ret ("All right, I've delivered that message. Your advisor will reply under ticket "
          ++ id ++ "."),
     mkWorld empty_state e
       (calls w ++ [SendMessage (VStr (strip topic)) (VStr (strip message))])%list).
Proof.
  intros Hact Hopen Htopic Hmsg Hyes Hword Hsvc.
  cbn [run].
  rewrite (handle_message_starts svc fmt intents AdvisorMessaging opening w Hact Hopen).
  cbn [snd].
  set (w1 := mkWorld (started AdvisorMessaging) (ext w) (calls w)).
  destruct (handle_message_collects svc fmt intents AdvisorMessaging 0 topic w1
              "topic" "collect_message" (VStr (strip topic))
              (in_flow_started AdvisorMessaging) Htopic) as [Hin2 [t2 E2]];
    [ | reflexivity | reflexivity | ].
  { pose proof (handle_text_step svc fmt
                  (normalize_account_types (account_types_or_default intents))
                  Topic topic w1 eq_refl) as E.
    rewrite (all_space_false_strip _ (proj1 Htopic)) in E. exact E. }
  rewrite E2. cbn [snd].
  set (w2 := advanced "topic" (VStr (strip topic)) "collect_message" w1) in *.
  destruct (handle_message_collects svc fmt intents AdvisorMessaging 1 message w2
              "message" "confirm_message" (VStr (strip message)) Hin2 Hmsg)
    as [Hin3 [t3 E3]]; [ | reflexivity | reflexivity | ].
  { pose proof (handle_text_step svc fmt
                  (normalize_account_types (account_types_or_default intents))
                  Message message w2 eq_refl) as E.
    rewrite (all_space_false_strip _ (proj1 Hmsg)) in E. exact E. }
  rewrite E3. cbn [snd].
  apply (handle_message_commits svc fmt intents AdvisorMessaging yes
           (advanced "message" (VStr (strip message)) "confirm_message" w2)
           (SendMessage (VStr (strip topic)) (VStr (strip message)))
           id e); try reflexivity; try discriminate; try assumption.
Qed.

Ltac sample_not_cancel :=
  vm_compute; intros H; repeat (destruct H as [H | H]; [discriminate |]); exact H.

Ltac sample_passes :=
  split; [reflexivity | split; [sample_not_cancel | left; reflexivity]].

Ltac sample_opens i :=
  split; [reflexivity | split; [sample_not_cancel
                               | exists i; split; reflexivity]].

Lemma transfer_conversation_commits_witness :
  handle_message (InMemory.services Sample.fmt) Sample.fmt Sample.intents "yes"
    (run (InMemory.services Sample.fmt) Sample.fmt Sample.intents
         ["Can you transfer money for me?"; "CHK-001"; "SAV-002"; "75.25"]
         Sample.world0)
  = (Ret ("Done! Transfer " ++ "TRX0001"
          ++ " is complete. Anything else I can help with?"),
     mkWorld empty_state
       (InMemory.mkStore []
          [InMemory.mkTransfer "TRX0001" (VStr "CHK-001") (VStr "SAV-002") "75.25"]
          [])
       (calls Sample.world0
        ++ [Transfer (VStr (strip "CHK-001")) (VStr (strip "SAV-002"))
                     (VFloat (PyFinite false 7525 (-2)))])%list).
Proof.
  apply (transfer_conversation_commits (InMemory.services Sample.fmt) Sample.fmt
           Sample.intents Sample.world0
           "Can you transfer money for me?" "CHK-001" "SAV-002" "75.25" "yes"
           (PyFinite false 7525 (-2)) "TRX0001").
  - reflexivity.
  - sample_opens (mkIntent "money_transfer" "money_transfer"
                           ["transfer"; "send money"] ∅).
  - sample_passes.
  - sample_passes.
  - sample_passes.
  - sample_passes.
  - discriminate.
  - reflexivity.
  - reflexivity.
  - vm_compute. tauto.
  - vm_compute. reflexivity.
Defined.

Lemma account_conversation_commits_witness :
  handle_message (InMemory.services Sample.fmt) Sample.fmt Sample.intents "yes"
    (run (InMemory.services Sample.fmt) Sample.fmt Sample.intents
         ["I want to open a new account"; "Alice Johnson"; "Checking"; "1,500"]
         Sample.world0)
  = (Ret ("All set! Your new account (" ++ "ACC0001"
          ++ ") is ready. Is there anything else I can help you with?"),
     mkWorld empty_state
       (InMemory.mkStore
          [InMemory.mkAccount "ACC0001" (VStr "Alice Johnson") (VStr "checking")
                              "1500.00"]
          [] [])
       (calls Sample.world0
        ++ [OpenAccount (VStr (strip "Alice Johnson"))
                        (VStr (lower (strip "Checking")))
                        (VFloat (PyFinite false 1500 0))])%list).
Proof.
  apply (account_conversation_commits (InMemory.services Sample.fmt) Sample.fmt
           Sample.intents Sample.world0
           "I want to open a new account" "Alice Johnson" "Checking" "1,500" "yes"
           (PyFinite false 1500 0) "ACC0001").
  - reflexivity.
  - sample_opens (mkIntent "account_opening" "account_opening"
                           ["open account"; "open an account"; "new account"]
                           {[ "account_type" := ["checking"; "savings"] ]}).
  - sample_passes.
  - sample_passes.
  - sample_passes.
  - sample_passes.
  - vm_compute. tauto.
  - reflexivity.
  - reflexivity.
  - vm_compute. tauto.
  - vm_compute. reflexivity.
Defined.

Lemma advisor_conversation_commits_witness :
  handle_message (InMemory.services Sample.fmt) Sample.fmt Sample.intents "Send"
    (run (InMemory.services Sample.fmt) Sample.fmt Sample.intents
         ["I need to message my advisor"; "Retirement planning";
          "I have a question about contribution limits."]
         Sample.world0)
  = (Ret ("All right, I've delivered that message. Your advisor will reply under ticket "
          ++ "MSG0001" ++ "."),
     mkWorld empty_state
       (InMemory.mkStore [] []
          [InMemory.mkMessage "MSG0001" (VStr "Retirement planning")
             (VStr "I have a question about contribution limits.")])
       (calls Sample.world0
        ++ [SendMessage (VStr (strip "Retirement planning"))
              (VStr (strip "I have a question about contribution limits."))])%list).
Proof.
  apply (advisor_conversation_commits (InMemory.services Sample.fmt) Sample.fmt
           Sample.intents Sample.world0
           "I need to message my advisor" "Retirement planning"
           "I have a question about contribution limits." "Send" "MSG0001").
  - reflexivity.
  - sample_opens (mkIntent "secure_advisor_message" "advisor_message"
                           ["advisor"] ∅).
  - sample_passes.
  - sample_passes.
  - sample_passes.
  - vm_compute. tauto.
  - vm_compute. reflexivity.
Defined.

(** ** The in-memory services ([services.py]) *)

Lemma read_number_zero (s : string) :
  read_number (String "0" s) = read_number s.
Proof.
  unfold read_number. cbn [NilEmpty.uint_of_string].
  destruct (NilEmpty.uint_of_string s) as [d|]; reflexivity.
Qed.

Lemma read_number_zeros (k : nat) (s : string) :
  read_number (InMemory.zeros k ++ s) = read_number s.
Proof.
  induction k as [|k IH]; [reflexivity |].
  change (read_number (String "0" (InMemory.zeros k ++ s)) = read_number s).
  rewrite read_number_zero. exact IH.
Qed.

Lemma read_number_decimal (n : nat) :
  read_number (NilZero.string_of_uint (Nat.to_uint n)) = Some n.
Proof.
  unfold read_number, NilZero.string_of_uint.
  destruct (Nat.to_uint n) as [| | | | | | | | | |] eqn:E;
    try (rewrite <- E at 1; rewrite NilEmpty.usu; cbn [option_map];
         rewrite Unsigned.of_to; reflexivity).
  cbn. f_equal. rewrite <- (Unsigned.of_to n), E. reflexivity.
Qed.

Lemma read_number_format (n : nat) : read_number (InMemory.format_04d n) = Some n.
Proof.
  unfold InMemory.format_04d. rewrite read_number_zeros. apply read_number_decimal.
Qed.

Lemma format_04d_injective (n m : nat) :
  InMemory.format_04d n = InMemory.format_04d m -> n = m.
Proof.
  intros H. pose proof (read_number_format n) as Hn.
  rewrite H, read_number_format in Hn. injection Hn as ->. reflexivity.
Qed.

Lemma numbered_nil (prefix : string) : numbered prefix [].
Proof. reflexivity. Qed.

Lemma numbered_snoc (prefix : string) (ids : list string) :
  numbered prefix ids ->
  numbered prefix (ids ++ [prefix ++ InMemory.format_04d (List.length ids + 1)]).
Proof.
  unfold numbered. intros H.
  rewrite length_app. cbn [List.length].
  remember (List.length ids) as n eqn:En.
  rewrite Nat.add_1_r, seq_S, map_app. cbn [map].
  rewrite <- H. reflexivity.
Qed.

Lemma prefixed_injective (prefix a b : string) :
  prefix ++ a = prefix ++ b -> a = b.
Proof.
  induction prefix as [|c p IH]; [intros H; exact H |].
  cbn. intros H. injection H as H. apply IH. exact H.
Qed.

Lemma numbered_NoDup (prefix : string) (ids : list string) :
  numbered prefix ids -> List.NoDup ids.
Proof.
  unfold numbered. intros ->.
  generalize (List.length ids). intros n. generalize 1. 
  induction n as [|n IH]; intros start; cbn [seq map]; constructor.
  - rewrite in_map_iff. intros [k [Hk Hin]].
    apply prefixed_injective, format_04d_injective in Hk. subst k.
    apply in_seq in Hin. destruct Hin as [Hin _].
    exact (Nat.lt_irrefl _ Hin).
  - apply IH.
Qed.

Lemma run_service_numbered (fmt : Formatting) (c : service_call)
    (s : InMemory.store) :
  store_numbered s ->
  store_numbered (snd (run_service (InMemory.services fmt) c s)).
Proof.
  intros (H1 & H2 & H3).
  destruct c as [a b d | a b d | a b]; cbn [run_service InMemory.services
      open_account transfer send_message].
  - unfold InMemory.in_memory_open_account.
    destruct (InMemory.fixed2 fmt d) as [shown|x]; cbn [snd];
      [| repeat split; assumption].
    repeat split; cbn [InMemory.opened_accounts InMemory.transfers
                       InMemory.messages]; try assumption.
    rewrite map_app. cbn [map InMemory.acc_id].
    rewrite <- (length_map InMemory.acc_id). apply numbered_snoc. exact H1.
  - unfold InMemory.in_memory_transfer.
    destruct (InMemory.fixed2 fmt d) as [shown|x]; cbn [snd];
      [| repeat split; assumption].
    repeat split; cbn [InMemory.opened_accounts InMemory.transfers
                       InMemory.messages]; try assumption.
    rewrite map_app. cbn [map InMemory.trx_id].
    rewrite <- (length_map InMemory.trx_id). apply numbered_snoc. exact H2.
  - unfold InMemory.in_memory_send_message. cbn [snd].
    repeat split; cbn [InMemory.opened_accounts InMemory.transfers
                       InMemory.messages]; try assumption.
    rewrite map_app. cbn [map InMemory.msg_id].
    rewrite <- (length_map InMemory.msg_id). apply numbered_snoc. exact H3.
Qed.

Lemma serve_numbered (fmt : Formatting) (cs : list service_call)
    (s : InMemory.store) :
  store_numbered s -> store_numbered (serve fmt cs s).
Proof.
  revert s. induction cs as [|c cs IH]; intros s H; cbn [serve].
  - exact H.
  - apply IH. apply run_service_numbered. exact H.
Qed.

(** X26.  The in-memory services number what they record: after any
    sequence of calls from the empty services, failed calls included, the
    k-th account, transfer and message carry the identifiers ACC, TRX and
    MSG followed by k written with at least four digits.  So no two
    accounts, no two transfers and no two messages share an identifier. *)
Theorem in_memory_identifiers_are_distinct (fmt : Formatting)
    (cs : list service_call) :
  let s := serve fmt cs InMemory.empty_store in
  store_numbered s
  /\ List.NoDup (map InMemory.acc_id (InMemory.opened_accounts s))
  /\ List.NoDup (map InMemory.trx_id (InMemory.transfers s))
  /\ List.NoDup (map InMemory.msg_id (InMemory.messages s)).
Proof.
  cbv zeta.
  assert (H : store_numbered (serve fmt cs InMemory.empty_store)).
  { apply serve_numbered. repeat split. }
  split; [exact H |]. destruct H as (H1 & H2 & H3).
  repeat split; eapply numbered_NoDup; eassumption.
Qed.

Lemma numbered_In (prefix : string) (ids : list string) (id : string) :
  numbered prefix ids -> In id ids ->
  exists k, 1 <= k <= List.length ids /\ id = prefix ++ InMemory.format_04d k.
Proof.
  unfold numbered. intros H Hin. rewrite H in Hin.
  apply in_map_iff in Hin as [k [<- Hk]]. apply in_seq in Hk.
  exists k. split; [| reflexivity]. destruct Hk as [H1 H2]. split.
  - exact H1.
  - apply Nat.lt_succ_r. exact H2.
Qed.

Lemma numbered_fresh (prefix : string) (ids : list string) :
  numbered prefix ids ->
  ~ In (prefix ++ InMemory.format_04d (List.length ids + 1)) ids.
Proof.
  intros H Hin. destruct (numbered_In _ _ _ H Hin) as [k [[_ Hk] E]].
  apply prefixed_injective, format_04d_injective in E. subst k.
  rewrite Nat.add_1_r in Hk. exact (Nat.nle_succ_diag_l _ Hk).
Qed.

Lemma numbered_prefix (prefix : string) (ids : list string) (id : string) :
  numbered prefix ids -> In id ids -> starts_with prefix id = true.
Proof.
  intros H Hin. destruct (numbered_In _ _ _ H Hin) as [k [_ ->]].
  apply starts_with_spec. eexists. reflexivity.
Qed.

(** X27.  A call to an in-memory service that returns gives out an
    identifier that no account, transfer or message carried before, and
    the services carry it afterwards; a call that raises leaves the
    services as they were. *)
Theorem in_memory_call_gives_a_fresh_identifier (fmt : Formatting)
    (cs : list service_call) (c : service_call) :
  let s := serve fmt cs InMemory.empty_store in
  let r := run_service (InMemory.services fmt) c s in
  (forall id, fst r = Ret id -> ~ In id (all_ids s) /\ In id (all_ids (snd r)))
  /\ (forall x, fst r = Raise x -> snd r = s).
Proof.
  cbv zeta.
  pose proof (serve_numbered fmt cs InMemory.empty_store
                ltac:(repeat split)) as (H1 & H2 & H3).
  remember (serve fmt cs InMemory.empty_store) as s eqn:Es. clear Es.
  assert (Hother : forall q ids id,
             numbered q ids -> starts_with q id = false -> ~ In id ids).
  { intros q ids id Hq Hn Hin.
    rewrite (numbered_prefix q ids id Hq Hin) in Hn. discriminate Hn. }
  unfold all_ids.
  destruct c as [a b d | a b d | a b]; cbn [run_service InMemory.services
      open_account transfer send_message].
  - unfold InMemory.in_memory_open_account.
    destruct (InMemory.fixed2 fmt d) as [shown|x]; cbn [fst snd].
    + split; [| intros x Hx; discriminate Hx].
      intros id [= <-]. split.
      * rewrite !in_app_iff. intros [H | [H | H]].
        -- revert H. rewrite <- (length_map InMemory.acc_id).
           apply numbered_fresh. exact H1.
        -- refine (Hother "TRX" _ _ H2 _ H). reflexivity.
        -- refine (Hother "MSG" _ _ H3 _ H). reflexivity.
      * cbn [InMemory.opened_accounts]. rewrite map_app, !in_app_iff.
        left. right. left. reflexivity.
    + split; [intros id Hid; discriminate Hid | reflexivity].
  - unfold InMemory.in_memory_transfer.
    destruct (InMemory.fixed2 fmt d) as [shown|x]; cbn [fst snd].
    + split; [| intros x Hx; discriminate Hx].
      intros id [= <-]. split.
      * rewrite !in_app_iff. intros [H | [H | H]].
        -- refine (Hother "ACC" _ _ H1 _ H). reflexivity.
        -- revert H. rewrite <- (length_map InMemory.trx_id).
           apply numbered_fresh. exact H2.
        -- refine (Hother "MSG" _ _ H3 _ H). reflexivity.
      * cbn [InMemory.transfers]. rewrite map_app, !in_app_iff.
        right. left. right. left. reflexivity.
    + split; [intros id Hid; discriminate Hid | reflexivity].
  - unfold InMemory.in_memory_send_message. cbn [fst snd].
    split; [| intros x Hx; discriminate Hx].
    intros id [= <-]. split.
    + rewrite !in_app_iff. intros [H | [H | H]].
      * refine (Hother "ACC" _ _ H1 _ H). reflexivity.
      * refine (Hother "TRX" _ _ H2 _ H). reflexivity.
      * revert H. rewrite <- (length_map InMemory.msg_id).
        apply numbered_fresh. exact H3.
    + cbn [InMemory.messages]. rewrite map_app, !in_app_iff.
      right. right. right. left. reflexivity.
Qed.

Lemma in_memory_call_gives_a_fresh_identifier_witness :
  ~ In "TRX0002"
       (all_ids (serve Sample.fmt
                   [Transfer (VStr "CHK-001") (VStr "SAV-002")
                             (VFloat (PyFinite false 7525 (-2)));
                    Transfer (VStr "CHK-001") (VStr "SAV-002") (VStr "ten")]
                   InMemory.empty_store))
  /\ In "TRX0002"
        (all_ids (snd (run_service (InMemory.services Sample.fmt)
                         (Transfer (VStr "SAV-002") (VStr "CHK-001")
                                   (VFloat (PyFinite false 10 0)))
                         (serve Sample.fmt
                            [Transfer (VStr "CHK-001") (VStr "SAV-002")
                                      (VFloat (PyFinite false 7525 (-2)));
                             Transfer (VStr "CHK-001") (VStr "SAV-002") (VStr "ten")]
                            InMemory.empty_store)))).
Proof.
  destruct (in_memory_call_gives_a_fresh_identifier Sample.fmt
              [Transfer (VStr "CHK-001") (VStr "SAV-002")
                        (VFloat (PyFinite false 7525 (-2)));
               Transfer (VStr "CHK-001") (VStr "SAV-002") (VStr "ten")]
              (Transfer (VStr "SAV-002") (VStr "CHK-001")
                        (VFloat (PyFinite false 10 0)))) as [H _].
  apply (H "TRX0002"). vm_compute. reflexivity.
Defined.
